(** * StormTracker: centre tracking and intensity estimation

    A shallow embedding of the tracking scripts of the repository:

    - [4_combine_netcdf.py]: assembly of the per-time-step files
      ([add_time_coordinate], the filter on [None], [xr.concat]);
    - [8_track_typhoon.py]: [track_typhoon], the greedy minimum-pressure walk;
    - [11_calculate_typhoon_intensity.py]: [get_intensity_category] and
      [calculate_intensity].

    Numbers.  The Python code computes with IEEE doubles.  Every finite
    double is a rational and the comparisons of the code ([<], [<=]) are the
    exact comparisons of these rationals, so the model computes with [Q].
    The literals of the source ([10.8], [17.1], ...) are read as the decimal
    they spell.  Rounding, NaN and signed zeros are not modelled; the
    classifier alone is also given on binary64 ([Binary64]), to replay there
    the evaluations that the rational model finds. *)

From Stdlib Require Import QArith ZArith Lia Lqa List Sorted Bool String Ascii Arith.
From Stdlib Require PrimFloat.
From Stdlib Require Import Permutation.
Import ListNotations.

Local Open Scope Q_scope.

(** ** Comparisons on rationals, as booleans *)

Definition Qleb (a b : Q) : bool := Qle_bool a b.
Definition Qltb (a b : Q) : bool := negb (Qle_bool b a).

Infix "<=?" := Qleb (at level 70, no associativity) : Q_scope.
Infix "<?" := Qltb (at level 70, no associativity) : Q_scope.

(** Python's built-in [min] and [max] on two arguments: the first argument is
    kept unless the second is strictly smaller (resp. larger). *)
Definition py_min (a b : Q) : Q := if b <? a then b else a.
Definition py_max (a b : Q) : Q := if a <? b then b else a.

(** ** Intensity classification ([11_calculate_typhoon_intensity.py]) *)

Module Intensity.

(** [get_intensity_category(wind_speed_ms)]: the chain of [if]/[elif] of the
    source, in its order, returning the pair (label, colour). *)
Definition get_intensity_category (wind_speed_ms : Q) : string * string :=
  if wind_speed_ms <? 10.8 then
    ("Low Pressure (<10.8)"%string, "gray"%string)
  else if (10.8 <=? wind_speed_ms) && (wind_speed_ms <=? 17.1) then
    ("Tropical Depression (TD)"%string, "skyblue"%string)
  else if (17.2 <=? wind_speed_ms) && (wind_speed_ms <=? 24.4) then
    ("Tropical Storm (TS)"%string, "blue"%string)
  else if (24.5 <=? wind_speed_ms) && (wind_speed_ms <=? 32.6) then
    ("Severe Tropical Storm (STS)"%string, "green"%string)
  else if (32.7 <=? wind_speed_ms) && (wind_speed_ms <=? 41.4) then
    ("Typhoon (TY)"%string, "yellow"%string)
  else if (41.5 <=? wind_speed_ms) && (wind_speed_ms <=? 50.9) then
    ("Severe Typhoon (STY)"%string, "orange"%string)
  else
    ("Super Typhoon (SuperTY)"%string, "red"%string).

(** The ordinal scale of the categories, none < TD < TS < STS < TY < STY <
    SuperTY, read off the label that [get_intensity_category] returns. *)
Inductive Category : Type :=
  | LowPressure | TD | TS | STS | TY | STY | SuperTY.

Definition category_of_label (label : string) : option Category :=
  if String.eqb label "Low Pressure (<10.8)"%string then Some LowPressure
  else if String.eqb label "Tropical Depression (TD)"%string then Some TD
  else if String.eqb label "Tropical Storm (TS)"%string then Some TS
  else if String.eqb label "Severe Tropical Storm (STS)"%string then Some STS
  else if String.eqb label "Typhoon (TY)"%string then Some TY
  else if String.eqb label "Severe Typhoon (STY)"%string then Some STY
  else if String.eqb label "Super Typhoon (SuperTY)"%string then Some SuperTY
  else None.

Definition rank (c : Category) : nat :=
  match c with
  | LowPressure => 0 | TD => 1 | TS => 2 | STS => 3
  | TY => 4 | STY => 5 | SuperTY => 6
  end.

(** The rank of the category of a wind speed (7 is never reached: every label
    returned by the classifier is one of the seven). *)
Definition category_rank (wind_speed_ms : Q) : nat :=
  match category_of_label (fst (get_intensity_category wind_speed_ms)) with
  | Some c => rank c
  | None => 7
  end.

(** The documented range of each category (docstring of the source and §3 of
    the specification), as a predicate on the wind speed. *)
Definition in_listed_range (c : Category) (w : Q) : Prop :=
  match c with
  | LowPressure => w < 10.8
  | TD => 10.8 <= w /\ w <= 17.1
  | TS => 17.2 <= w /\ w <= 24.4
  | STS => 24.5 <= w /\ w <= 32.6
  | TY => 32.7 <= w /\ w <= 41.4
  | STY => 41.5 <= w /\ w <= 50.9
  | SuperTY => 51.0 <= w
  end.

(** The corrected wind of [calculate_intensity]:
    [max_wind = raw_max_wind * correction_factor]. *)
Definition corrected_wind (raw_max_wind correction_factor : Q) : Q :=
  raw_max_wind * correction_factor.

End Intensity.

(** ** The classifier on binary64

    The same chain of tests on IEEE doubles, with the literals rounded to the
    nearest double as Python reads them, to replay on the machine numbers
    what the rational model finds. *)

Module Binary64.
Import PrimFloat.

#[local] Set Warnings "-inexact-float".

Definition get_intensity_category (wind_speed_ms : float) : string * string :=
  if ltb wind_speed_ms 10.8%float then
    ("Low Pressure (<10.8)"%string, "gray"%string)
  else if leb 10.8%float wind_speed_ms && leb wind_speed_ms 17.1%float then
    ("Tropical Depression (TD)"%string, "skyblue"%string)
  else if leb 17.2%float wind_speed_ms && leb wind_speed_ms 24.4%float then
    ("Tropical Storm (TS)"%string, "blue"%string)
  else if leb 24.5%float wind_speed_ms && leb wind_speed_ms 32.6%float then
    ("Severe Tropical Storm (STS)"%string, "green"%string)
  else if leb 32.7%float wind_speed_ms && leb wind_speed_ms 41.4%float then
    ("Typhoon (TY)"%string, "yellow"%string)
  else if leb 41.5%float wind_speed_ms && leb wind_speed_ms 50.9%float then
    ("Severe Typhoon (STY)"%string, "orange"%string)
  else
    ("Super Typhoon (SuperTY)"%string, "red"%string).

Definition raw_wind : float := 12.25%float.
Definition factor_1_4 : float := 1.4%float.
Definition factor_1_5 : float := 1.5%float.
Definition gap_wind : float := 17.15%float.

End Binary64.

(** ** Exceptions

    The Python functions either return or raise.  [Result A] is the outcome
    of a call: [Ok a] for a returned value, [Raise e] for an exception that
    propagates to the caller. *)

Inductive Exn : Type :=
  | IndexError   (* indexing an empty coordinate axis *)
  | KeyError     (* a label slice that pandas cannot resolve, a missing name *)
  | ValueError   (* a reduction of an empty array, a missing wind component *)
  | TypeError.   (* a plot of an array without values *)

Inductive Result (A : Type) : Type :=
  | Ok (a : A)
  | Raise (e : Exn).

Arguments Ok {A} a.
Arguments Raise {A} e.

Definition bind {A B : Type} (m : Result A) (k : A -> Result B) : Result B :=
  match m with
  | Ok a => k a
  | Raise e => Raise e
  end.

Notation "x <- m ;; k" := (bind m (fun x => k))
  (at level 61, m at next level, right associativity).
Notation "' pat <- m ;; k" := (bind m (fun x => match x with pat => k end))
  (at level 61, pat pattern, m at next level, right associativity).

Definition lookup {A : Type} (l : list A) (i : nat) : Result A :=
  match nth_error l i with
  | Some a => Ok a
  | None => Raise IndexError
  end.

(** ** The part of xarray / pandas that the scripts call

    A coordinate axis is the list of its labels in storage order.  A label
    slice [slice(start, stop)] of [.sel] is resolved by pandas'
    [Index.slice_indexer] into a positional slice: on an index that is
    monotonic increasing, from [searchsorted(start, 'left')] to
    [searchsorted(stop, 'right')]; on an index that is monotonic decreasing,
    the same on the reversed index.  An index that is both (constant, or of
    length at most one) is treated as increasing.

    [Xarray.slice_indexer] is the slice on the axes of a grid, which are
    ordered; it answers [KeyError] on every other index.  What pandas does on
    an index in any storage order is [Pandas.slice_indexer] below: it looks
    the two labels up, slices by their positions when it finds them, and
    raises [KeyError] only for a label that it can neither find nor place.
    The two agree on every ordered index
    ([PandasFacts.slice_indexer_ordered_index]). *)

Module Xarray.

Fixpoint monotonic (cmp : Q -> Q -> bool) (idx : list Q) : bool :=
  match idx with
  | [] => true
  | x :: rest =>
      match rest with
      | [] => true
      | y :: _ => cmp x y && monotonic cmp rest
      end
  end.

Definition is_monotonic_increasing (idx : list Q) : bool :=
  monotonic (fun x y => x <=? y) idx.

Definition is_monotonic_decreasing (idx : list Q) : bool :=
  monotonic (fun x y => y <=? x) idx.

Definition count (p : Q -> bool) (idx : list Q) : nat :=
  List.length (filter p idx).

(** [slice_indexer idx start stop]: the positions [(i, j)] such that the
    label slice selects [idx[i:j]]. *)
Definition slice_indexer (idx : list Q) (start stop : Q) : Result (nat * nat) :=
  if is_monotonic_increasing idx then
    Ok (count (fun x => x <? start) idx, count (fun x => x <=? stop) idx)
  else if is_monotonic_decreasing idx then
    Ok (count (fun x => start <? x) idx, count (fun x => stop <=? x) idx)
  else Raise KeyError.

(** Python's positional slice [l[i:j]] for [0 <= i] and [0 <= j]: empty when
    [j <= i]. *)
Definition islice {A : Type} (l : list A) (i j : nat) : list A :=
  firstn (j - i) (skipn i l).

(** A two-dimensional [DataArray] over (latitude, longitude): what remains of
    a variable once one time label is selected. *)
Record DataArray : Type := {
  da_latitude : list Q;
  da_longitude : list Q;
  da_values : nat -> nat -> Q
}.

Definition size (da : DataArray) : nat :=
  (List.length (da_latitude da) * List.length (da_longitude da))%nat.

(** [da.sel(latitude=slice(a, b), longitude=slice(c, d))]. *)
Definition sel (da : DataArray) (lat_slice lon_slice : Q * Q) : Result DataArray :=
  '(i0, i1) <- slice_indexer (da_latitude da) (fst lat_slice) (snd lat_slice) ;;
  '(j0, j1) <- slice_indexer (da_longitude da) (fst lon_slice) (snd lon_slice) ;;
  Ok {| da_latitude := islice (da_latitude da) i0 i1;
        da_longitude := islice (da_longitude da) j0 j1;
        da_values := fun i j => da_values da (i0 + i)%nat (j0 + j)%nat |}.

(** The positions of an array in row-major order: latitude first, then
    longitude, the order in which [argmin(dim=['latitude', 'longitude'])]
    stacks the two dimensions. *)
Definition positions (da : DataArray) : list (nat * nat) :=
  list_prod (seq 0 (List.length (da_latitude da)))
            (seq 0 (List.length (da_longitude da))).

Definition value_at (da : DataArray) (p : nat * nat) : Q :=
  da_values da (fst p) (snd p).

(** [argmin]: the first position, in row-major order, that holds the least
    value. *)
Fixpoint argmin_from (da : DataArray) (best : nat * nat) (ps : list (nat * nat))
  : nat * nat :=
  match ps with
  | [] => best
  | p :: ps' =>
      argmin_from da (if value_at da p <? value_at da best then p else best) ps'
  end.

Definition argmin (da : DataArray) : Result (nat * nat) :=
  match positions da with
  | [] => Raise ValueError
  | p :: ps => Ok (argmin_from da p ps)
  end.

(** [min()] and [max()]: the reductions over all the values. *)
Definition reduce (f : Q -> Q -> Q) (da : DataArray) : Result Q :=
  match map (value_at da) (positions da) with
  | [] => Raise ValueError
  | v :: vs => Ok (fold_left f vs v)
  end.

Definition min (da : DataArray) : Result Q :=
  reduce (fun acc v => if v <? acc then v else acc) da.

Definition max (da : DataArray) : Result Q :=
  reduce (fun acc v => if acc <? v then v else acc) da.

(** One time label of the dataset with the three surface variables at that
    time, each indexed by (latitude position, longitude position). *)
Record Slab : Type := {
  time : Z;
  mean_sea_level_pressure : nat -> nat -> Q;
  u_component_of_wind_10m : nat -> nat -> Q;
  v_component_of_wind_10m : nat -> nat -> Q
}.

(** The opened dataset: the two coordinate axes and one slab per time label,
    in the order of [ds['time'].values].  The time labels of a combined
    dataset are distinct, so [.sel(time=t)] for the label of a slab is that
    slab. *)
Record Dataset : Type := {
  latitude : list Q;
  longitude : list Q;
  slabs : list Slab
}.

Definition on_grid (ds : Dataset) (values : nat -> nat -> Q) : DataArray :=
  {| da_latitude := latitude ds;
     da_longitude := longitude ds;
     da_values := values |}.

End Xarray.

(** ** Track Builder ([8_track_typhoon.py]) *)

Module Track.
Import Xarray.

(** One entry of [track_data] (one row of the returned DataFrame). *)
Record TrackPoint : Type := {
  tp_time : Z;
  tp_latitude : Q;
  tp_longitude : Q;
  tp_min_pressure : Q
}.

(** The variables that the loop of [track_typhoon] updates. *)
Record TrackState : Type := {
  current_lat : Q;
  current_lon : Q;
  track_data : list TrackPoint
}.

(** The latitude slice of the search box:
    [slice(max(lat_min, lat_max), min(lat_min, lat_max))], replaced by
    [slice(min(..), max(..))] when [ds.latitude[0] < ds.latitude[-1]]. *)
Definition latitude_slice (ds : Dataset) (lat_min lat_max : Q) : Result (Q * Q) :=
  first <- lookup (latitude ds) 0 ;;
  last <- lookup (latitude ds) (List.length (latitude ds) - 1) ;;
  Ok (if first <? last
      then (py_min lat_min lat_max, py_max lat_min lat_max)
      else (py_max lat_min lat_max, py_min lat_min lat_max)).

(** The longitude slice: [slice(lon_min, lon_max)], whatever the axis. *)
Definition longitude_slice (lon_min lon_max : Q) : Q * Q := (lon_min, lon_max).

(** The search box around a position: the selection of one variable of one
    slab inside [centre ± radius]. *)
Definition search_box (ds : Dataset) (values : nat -> nat -> Q)
    (centre_lat centre_lon radius : Q) : Result DataArray :=
  let lat_min := centre_lat - radius in
  let lat_max := centre_lat + radius in
  let lon_min := centre_lon - radius in
  let lon_max := centre_lon + radius in
  lat_slice <- latitude_slice ds lat_min lat_max ;;
  let lon_slice := longitude_slice lon_min lon_max in
  sel (on_grid ds values) lat_slice lon_slice.

(** The minimum of a non-empty box: the coordinates at the position of
    [argmin] and the value of [min()]. *)
Definition locate_minimum (local_mslp : DataArray) : Result (Q * Q * Q) :=
  min_idx <- argmin local_mslp ;;
  new_lat <- lookup (da_latitude local_mslp) (fst min_idx) ;;
  new_lon <- lookup (da_longitude local_mslp) (snd min_idx) ;;
  min_pressure <- min local_mslp ;;
  Ok (new_lat, new_lon, min_pressure).

(** One iteration of [for t in times].  [None] is the [break] of the empty
    search box; otherwise the state after the iteration. *)
Definition track_step (ds : Dataset) (search_radius_deg : Q)
    (st : TrackState) (t : Slab) : Result (option TrackState) :=
  local_mslp <- search_box ds (mean_sea_level_pressure t)
                  (current_lat st) (current_lon st) search_radius_deg ;;
  if Nat.eqb (size local_mslp) 0 then Ok None
  else
    '(new_lat, new_lon, min_pressure) <- locate_minimum local_mslp ;;
    Ok (Some {| current_lat := new_lat;
                current_lon := new_lon;
                track_data := track_data st ++
                  [{| tp_time := time t;
                      tp_latitude := new_lat;
                      tp_longitude := new_lon;
                      tp_min_pressure := min_pressure |}] |}).

Fixpoint track_loop (ds : Dataset) (search_radius_deg : Q)
    (st : TrackState) (times : list Slab) : Result TrackState :=
  match times with
  | [] => Ok st
  | t :: rest =>
      r <- track_step ds search_radius_deg st t ;;
      match r with
      | None => Ok st
      | Some st' => track_loop ds search_radius_deg st' rest
      end
  end.

(** [track_typhoon(file_path, start_lat, start_lon, search_radius_deg)] on
    the dataset that the file holds; the result is the list of rows of the
    DataFrame. *)
Definition track_typhoon (ds : Dataset) (start_lat start_lon search_radius_deg : Q)
  : Result (list TrackPoint) :=
  st <- track_loop ds search_radius_deg
          {| current_lat := start_lat; current_lon := start_lon; track_data := [] |}
          (slabs ds) ;;
  Ok (track_data st).

End Track.

(** ** Label slices on an index in any storage order

    [Index.slice_indexer(start, stop)] is
    [slice(get_slice_bound(start, 'left'), get_slice_bound(stop, 'right'))].
    [get_slice_bound] first looks the label up with [get_loc]; only when the
    label is absent does it fall back on [searchsorted], which needs a
    monotonic index. *)

Module Pandas.
Import Xarray.

(** The position of the first occurrence of a label. *)
Fixpoint first_position (label : Q) (idx : list Q) : option nat :=
  match idx with
  | [] => None
  | x :: rest =>
      if Qeq_bool x label then Some 0%nat
      else option_map S (first_position label rest)
  end.

(** What [get_loc] finds: nothing ([KeyError] inside pandas), the run of
    positions [start..stop-1] of the label (a position or a slice), or
    occurrences that no slice covers (a boolean mask). *)
Inductive Loc : Type :=
  | Missing
  | Run (start stop : nat)
  | Scattered.

Definition get_loc (idx : list Q) (label : Q) : Loc :=
  match first_position label idx with
  | None => Missing
  | Some p =>
      let n := count (fun x => Qeq_bool x label) idx in
      if forallb (fun x => Qeq_bool x label) (islice idx p (p + n))
      then Run p (p + n)
      else Scattered
  end.

Inductive Side : Type := Left | Right.

(** [_searchsorted_monotonic(label, side)]: [searchsorted] on an increasing
    index, [len - searchsorted] of the other side on the reversed index when
    it is decreasing, and the [ValueError] that [get_slice_bound] turns into
    the [KeyError] of the failed look-up otherwise. *)
Definition searchsorted_monotonic (idx : list Q) (label : Q) (side : Side)
  : Result nat :=
  if is_monotonic_increasing idx then
    Ok (match side with
        | Left => count (fun x => x <? label) idx
        | Right => count (fun x => x <=? label) idx
        end)
  else if is_monotonic_decreasing idx then
    Ok (match side with
        | Left => count (fun x => label <? x) idx
        | Right => count (fun x => label <=? x) idx
        end)
  else Raise KeyError.

Definition get_slice_bound (idx : list Q) (label : Q) (side : Side) : Result nat :=
  match get_loc idx label with
  | Missing => searchsorted_monotonic idx label side
  | Run start stop => Ok (match side with Left => start | Right => stop end)
  | Scattered => Raise KeyError
  end.

Definition slice_indexer (idx : list Q) (start stop : Q) : Result (nat * nat) :=
  start_slice <- get_slice_bound idx start Left ;;
  end_slice <- get_slice_bound idx stop Right ;;
  Ok (start_slice, end_slice).

(** [da.sel(latitude=slice(a, b), longitude=slice(c, d))]. *)
Definition sel (da : DataArray) (lat_slice lon_slice : Q * Q) : Result DataArray :=
  '(i0, i1) <- slice_indexer (da_latitude da) (fst lat_slice) (snd lat_slice) ;;
  '(j0, j1) <- slice_indexer (da_longitude da) (fst lon_slice) (snd lon_slice) ;;
  Ok {| da_latitude := islice (da_latitude da) i0 i1;
        da_longitude := islice (da_longitude da) j0 j1;
        da_values := fun i j => da_values da (i0 + i)%nat (j0 + j)%nat |}.

End Pandas.

(** ** Track Builder on axes in any storage order

    The same function with [.sel] resolved as pandas does on every index.
    On a dataset whose two axes are ordered it is [Track.track_typhoon]
    ([PandasFacts.track_typhoon_ordered_axes]). *)

Module AnyOrder.
Import Xarray Track.

Definition search_box (ds : Dataset) (values : nat -> nat -> Q)
    (centre_lat centre_lon radius : Q) : Result DataArray :=
  let lat_min := centre_lat - radius in
  let lat_max := centre_lat + radius in
  let lon_min := centre_lon - radius in
  let lon_max := centre_lon + radius in
  lat_slice <- latitude_slice ds lat_min lat_max ;;
  let lon_slice := longitude_slice lon_min lon_max in
  Pandas.sel (on_grid ds values) lat_slice lon_slice.

Definition track_step (ds : Dataset) (search_radius_deg : Q)
    (st : TrackState) (t : Slab) : Result (option TrackState) :=
  local_mslp <- search_box ds (mean_sea_level_pressure t)
                  (current_lat st) (current_lon st) search_radius_deg ;;
  if Nat.eqb (size local_mslp) 0 then Ok None
  else
    '(new_lat, new_lon, min_pressure) <- locate_minimum local_mslp ;;
    Ok (Some {| current_lat := new_lat;
                current_lon := new_lon;
                track_data := track_data st ++
                  [{| tp_time := time t;
                      tp_latitude := new_lat;
                      tp_longitude := new_lon;
                      tp_min_pressure := min_pressure |}] |}).

Fixpoint track_loop (ds : Dataset) (search_radius_deg : Q)
    (st : TrackState) (times : list Slab) : Result TrackState :=
  match times with
  | [] => Ok st
  | t :: rest =>
      r <- track_step ds search_radius_deg st t ;;
      match r with
      | None => Ok st
      | Some st' => track_loop ds search_radius_deg st' rest
      end
  end.

Definition track_typhoon (ds : Dataset) (start_lat start_lon search_radius_deg : Q)
  : Result (list TrackPoint) :=
  st <- track_loop ds search_radius_deg
          {| current_lat := start_lat; current_lon := start_lon; track_data := [] |}
          (slabs ds) ;;
  Ok (track_data st).

End AnyOrder.

(** ** Intensity Estimator ([calculate_intensity]) *)

Module Estimate.
Import Xarray Track Intensity.

Section WithSqrt.

(** [np.sqrt].  The square root of a rational is not rational in general, so
    the function is a parameter of the model. *)
Variable np_sqrt : Q -> Q.

(** [wind_speed = np.sqrt(u**2 + v**2)], at one time label. *)
Definition wind_speed (t : Slab) : nat -> nat -> Q :=
  fun i j => np_sqrt (u_component_of_wind_10m t i j ^ 2
                      + v_component_of_wind_10m t i j ^ 2).

(** One entry of [results]. *)
Record IntensityRow : Type := {
  row_time : Z;
  row_latitude : Q;
  row_longitude : Q;
  min_pressure_pa : Q;
  max_wind_speed_ms : Q;
  intensity_category : string;
  intensity_color : string
}.

Record IntensityState : Type := {
  current_lat : Q;
  current_lon : Q;
  results : list IntensityRow
}.

Definition tracking_radius : Q := 5.0.

(** Part 2 of the loop body: the corrected maximum wind in the box of
    half-width [search_radius_deg] around the centre; [0.0] for an empty
    box. *)
Definition max_wind_near (ds : Dataset) (t : Slab)
    (center_lat center_lon search_radius_deg correction_factor : Q) : Result Q :=
  local_wind <- search_box ds (wind_speed t) center_lat center_lon search_radius_deg ;;
  if Nat.ltb 0 (size local_wind) then
    raw_max_wind <- max local_wind ;;
    Ok (corrected_wind raw_max_wind correction_factor)
  else Ok 0.0.

Definition intensity_step (ds : Dataset) (search_radius_deg correction_factor : Q)
    (st : IntensityState) (t : Slab) : Result (option IntensityState) :=
  local_mslp <- search_box ds (mean_sea_level_pressure t)
                  (current_lat st) (current_lon st) tracking_radius ;;
  if Nat.eqb (size local_mslp) 0 then Ok None
  else
    '(center_lat, center_lon, min_p) <- locate_minimum local_mslp ;;
    max_wind <- max_wind_near ds t center_lat center_lon
                  search_radius_deg correction_factor ;;
    let '(intensity_cat, intensity_col) := get_intensity_category max_wind in
    Ok (Some {| current_lat := center_lat;
                current_lon := center_lon;
                results := results st ++
                  [{| row_time := time t;
                      row_latitude := center_lat;
                      row_longitude := center_lon;
                      min_pressure_pa := min_p;
                      max_wind_speed_ms := max_wind;
                      intensity_category := intensity_cat;
                      intensity_color := intensity_col |}] |}).

Fixpoint intensity_loop (ds : Dataset) (search_radius_deg correction_factor : Q)
    (st : IntensityState) (times : list Slab) : Result IntensityState :=
  match times with
  | [] => Ok st
  | t :: rest =>
      r <- intensity_step ds search_radius_deg correction_factor st t ;;
      match r with
      | None => Ok st
      | Some st' => intensity_loop ds search_radius_deg correction_factor st' rest
      end
  end.

(** [calculate_intensity(file_path, start_lat=..., start_lon=...,
    search_radius_deg=..., correction_factor=...)] from the computation of
    [wind_speed] on, on a dataset that holds the three surface variables.
    The check of the wind components that comes first is in
    [OnFile.calculate_intensity]. *)
Definition calculate_intensity (ds : Dataset)
    (start_lat start_lon search_radius_deg correction_factor : Q)
  : Result (list IntensityRow) :=
  st <- intensity_loop ds search_radius_deg correction_factor
          {| current_lat := start_lat; current_lon := start_lon; results := [] |}
          (slabs ds) ;;
  Ok (results st).

End WithSqrt.

End Estimate.

(** ** The opened file

    [xr.open_dataset(file_path)] gives a dataset that holds some variables
    by name.  [Track.track_typhoon] and [Estimate.calculate_intensity] are
    the two functions on a file that holds the variables they read.  The
    functions of this module start from any file: [name in ds] is the test of
    [calculate_intensity] for the two wind components, and [ds[name]] for a
    variable that the file does not hold is a [KeyError]. *)

Module OnFile.
Import Xarray.

Local Open Scope string_scope.

(** The names of the variables of the file, and their values.  The values
    given for a surface variable that the file does not hold are never
    read. *)
Record File : Type := {
  data_vars : list string;
  dataset : Dataset
}.

(** [name in ds] *)
Definition contains (f : File) (name : string) : bool :=
  existsb (String.eqb name) (data_vars f).

(** [track_typhoon(file_path, ...)]: [mslp = ds['mean_sea_level_pressure']],
    then the loop. *)
Definition track_typhoon (f : File) (start_lat start_lon search_radius_deg : Q)
  : Result (list Track.TrackPoint) :=
  if contains f "mean_sea_level_pressure"
  then Track.track_typhoon (dataset f) start_lat start_lon search_radius_deg
  else Raise KeyError.

Section WithSqrt.

Variable np_sqrt : Q -> Q.

(** [calculate_intensity(file_path, ...)]: the [ValueError] of a missing
    wind component, then [wind_speed], [mslp = ds['mean_sea_level_pressure']]
    and the loop. *)
Definition calculate_intensity (f : File)
    (start_lat start_lon search_radius_deg correction_factor : Q)
  : Result (list Estimate.IntensityRow) :=
  if negb (contains f "u_component_of_wind_10m")
     || negb (contains f "v_component_of_wind_10m")
  then Raise ValueError
  else if contains f "mean_sea_level_pressure"
  then Estimate.calculate_intensity np_sqrt (dataset f)
         start_lat start_lon search_radius_deg correction_factor
  else Raise KeyError.

End WithSqrt.

End OnFile.

(** ** Grid Assembler ([4_combine_netcdf.py]) *)

Module Assemble.

(** [str.replace(old, new)] for a non-empty [old]: the occurrences of [old]
    are replaced from left to right, without overlap.  [skip] counts the
    characters of a matched occurrence that are still to be dropped. *)
Fixpoint replace_from (old new : string) (skip : nat) (s : string) : string :=
  match s with
  | EmptyString => EmptyString
  | String c s' =>
      match skip with
      | S k => replace_from old new k s'
      | O =>
          if String.prefix old s
          then String.append new (replace_from old new (String.length old - 1) s')
          else String c (replace_from old new 0 s')
      end
  end.

Definition replace (old new s : string) : string := replace_from old new 0 s.

(** [os.path.basename]: what follows the last ['/']. *)
Fixpoint has_slash (s : string) : bool :=
  match s with
  | EmptyString => false
  | String c s' => Ascii.eqb c "/"%char || has_slash s'
  end.

Fixpoint basename (path : string) : string :=
  match path with
  | EmptyString => EmptyString
  | String c s' =>
      if has_slash s' then basename s'
      else if Ascii.eqb c "/"%char then s' else path
  end.

Definition file_type_to_process : string := "surface"%string.

Section WithFiles.

(** [datetime] and [datetime.strptime(time_str, format)]; [None] stands for
    the [ValueError] of a string that does not match the format. *)
Variable datetime : Type.
Variable strptime : string -> string -> option datetime.

(** What a per-time-step file holds besides its name. *)
Variable fields : Type.

(** [xr.open_dataset(fp)]: the content, and [encoding['source']], the path
    the dataset was opened from. *)
Record OpenDataset : Type := {
  source : string;
  content : fields
}.

(** [ds.expand_dims(time=[dt_object])]. *)
Record TimedDataset : Type := {
  time_coord : list datetime;
  payload : fields
}.

Definition expand_dims (ds : OpenDataset) (dt_object : datetime) : TimedDataset :=
  {| time_coord := [dt_object]; payload := content ds |}.

Definition time_str_of (filename : string) : string :=
  replace ".nc"%string EmptyString
    (replace (String.append "output_"%string
                (String.append file_type_to_process "_"%string))
             EmptyString filename).

(** [add_time_coordinate(ds)]: the returned value ([None] is the skip
    marker) and the warning printed, if any. *)
Definition add_time_coordinate (ds : OpenDataset)
  : option TimedDataset * list string :=
  let filename := basename (source ds) in
  let time_str := time_str_of filename in
  match strptime time_str "%Y-%m-%d-%H-%M"%string with
  | Some dt_object => (Some (expand_dims ds dt_object), [])
  | None =>
      (None,
       [String.append "Warning: Could not parse time from filename: "%string
          (String.append filename ". Skipping."%string)])
  end.

(** [datasets = [add_time_coordinate(xr.open_dataset(fp)) for fp in file_paths]] *)
Definition datasets (opened : list OpenDataset) : list (option TimedDataset) :=
  map (fun ds => fst (add_time_coordinate ds)) opened.

Definition warnings (opened : list OpenDataset) : list string :=
  flat_map (fun ds => snd (add_time_coordinate ds)) opened.

(** [valid_datasets = [ds for ds in datasets if ds is not None]] *)
Fixpoint not_none {A : Type} (l : list (option A)) : list A :=
  match l with
  | [] => []
  | Some a :: l' => a :: not_none l'
  | None :: l' => not_none l'
  end.

Definition valid_datasets (opened : list OpenDataset) : list TimedDataset :=
  not_none (datasets opened).

(** [xr.concat(valid_datasets, dim="time")]: the time-indexed sequence of the
    contents, in the order of the list. *)
Definition concat (l : list TimedDataset) : list (datetime * fields) :=
  flat_map (fun d => map (fun t => (t, payload d)) (time_coord d)) l.

(** How the script ends: by one of its two [exit()] calls, or by saving the
    combined dataset. *)
Inductive Outcome : Type :=
  | ExitNoFiles
  | ExitNoValidDatasets
  | Saved (combined_ds : list (datetime * fields)).

(** The script from step 3 on, for the files that step 1 found (in sorted
    order), each opened: how it ends, and the warnings printed on the way
    (the progress messages are left out). *)
Definition combine (opened : list OpenDataset) : Outcome * list string :=
  match opened with
  | [] => (ExitNoFiles, [])
  | _ =>
      let valid := valid_datasets opened in
      match valid with
      | [] => (ExitNoValidDatasets, warnings opened)
      | _ => (Saved (concat valid), warnings opened)
      end
  end.

(** The time stamp that the name of a file yields, if it parses, and the
    combined dataset that the specification asks for: the files whose name
    parses, each under its time stamp, in the order of the files. *)
Definition parsed_time (ds : OpenDataset) : option datetime :=
  strptime (time_str_of (basename (source ds))) "%Y-%m-%d-%H-%M"%string.

Definition surviving (opened : list OpenDataset) : list (datetime * fields) :=
  flat_map (fun ds => match parsed_time ds with
                      | Some dt => [(dt, content ds)]
                      | None => []
                      end) opened.

Definition skipped (opened : list OpenDataset) : list OpenDataset :=
  filter (fun ds => match parsed_time ds with Some _ => false | None => true end)
         opened.

End WithFiles.

End Assemble.

(** ** Vocabulary of the specification

    The notions in which the properties below are stated, defined on the
    grid itself and not on what the code computes. *)

Module Window.
Import Xarray.

(** A cell of an array: a latitude label, a longitude label and the value
    stored at their positions. *)
Definition cell_of (da : DataArray) (lat lon v : Q) : Prop :=
  exists i j,
    nth_error (da_latitude da) i = Some lat /\
    nth_error (da_longitude da) j = Some lon /\
    da_values da i j = v.

(** The labels that a slice [slice(start, stop)] selects on an ordered index:
    the closed range from [start] to [stop], read in the direction of the
    index. *)
Definition selected (idx : list Q) (start stop x : Q) : Prop :=
  if is_monotonic_increasing idx
  then start <= x /\ x <= stop
  else stop <= x /\ x <= start.

(** The logical window: the closed square of half-width [radius] around a
    centre. *)
Definition in_window (centre_lat centre_lon radius lat lon : Q) : Prop :=
  (centre_lat - radius <= lat /\ lat <= centre_lat + radius) /\
  (centre_lon - radius <= lon /\ lon <= centre_lon + radius).

(** Two selections hold the same cells. *)
Definition same_cells (a b : Result DataArray) : Prop :=
  match a, b with
  | Ok x, Ok y => forall lat lon v, cell_of x lat lon v <-> cell_of y lat lon v
  | Raise e, Raise e' => e = e'
  | _, _ => False
  end.

(** An index on which label slices are defined: monotonic, either way. *)
Definition ordered (idx : list Q) : bool :=
  is_monotonic_increasing idx || is_monotonic_decreasing idx.

(** The exception that the axes of a dataset cause in every search box of
    the grid model, if any: an empty latitude axis cannot be indexed, and
    [Xarray.slice_indexer] answers [KeyError] on an axis that is not
    ordered. *)
Definition axes_error (ds : Dataset) : option Exn :=
  match latitude ds with
  | [] => Some IndexError
  | _ :: _ =>
      if ordered (latitude ds) && ordered (longitude ds) then None
      else Some KeyError
  end.

(** The labels of a selection, for inspection. *)
Definition labels (a : Result DataArray) : Result (list Q * list Q) :=
  da <- a ;; Ok (da_latitude da, da_longitude da).

(** The same grid stored with the latitude axis, resp. the longitude axis, in
    the opposite order. *)
Definition flip_latitude (ds : Dataset) : Dataset :=
  {| latitude := rev (latitude ds);
     longitude := longitude ds;
     slabs := slabs ds |}.

Definition flip_longitude (ds : Dataset) : Dataset :=
  {| latitude := latitude ds;
     longitude := rev (longitude ds);
     slabs := slabs ds |}.

Definition flip_rows (ds : Dataset) (values : nat -> nat -> Q) : nat -> nat -> Q :=
  fun i j => values (List.length (latitude ds) - 1 - i)%nat j.

Definition flip_columns (ds : Dataset) (values : nat -> nat -> Q) : nat -> nat -> Q :=
  fun i j => values i (List.length (longitude ds) - 1 - j)%nat.

(** The search box does not depend on the storage order of the latitude
    axis, resp. of the longitude axis: on an ordered axis, the grid and the
    same grid stored the other way round give boxes with the same cells. *)
Definition latitude_order_irrelevant : Prop :=
  forall (ds : Dataset) (values : nat -> nat -> Q) (centre_lat centre_lon radius : Q),
    ordered (latitude ds) = true ->
    same_cells
      (Track.search_box ds values centre_lat centre_lon radius)
      (Track.search_box (flip_latitude ds) (flip_rows ds values)
         centre_lat centre_lon radius).

Definition longitude_order_irrelevant : Prop :=
  forall (ds : Dataset) (values : nat -> nat -> Q) (centre_lat centre_lon radius : Q),
    ordered (longitude ds) = true ->
    same_cells
      (Track.search_box ds values centre_lat centre_lon radius)
      (Track.search_box (flip_longitude ds) (flip_columns ds values)
         centre_lat centre_lon radius).

End Window.

(** ** The run of the tracking loop, as a relation *)

Module Trace.
Import Xarray Track.

Definition position (p : TrackPoint) : Q * Q := (tp_latitude p, tp_longitude p).

(** [Walk ds r c times pts]: started with the centre estimate [c], the loop
    over [times] appends the points [pts].  It ends when the time labels are
    exhausted or at the first empty search box. *)
Inductive Walk (ds : Dataset) (r : Q) : Q * Q -> list Slab -> list TrackPoint -> Prop :=
  | walk_done (c : Q * Q) :
      Walk ds r c [] []
  | walk_break (c : Q * Q) (t : Slab) (rest : list Slab) (box : DataArray) :
      search_box ds (mean_sea_level_pressure t) (fst c) (snd c) r = Ok box ->
      size box = 0%nat ->
      Walk ds r c (t :: rest) []
  | walk_step (c : Q * Q) (t : Slab) (rest : list Slab) (box : DataArray)
      (lat lon p : Q) (pts : list TrackPoint) :
      search_box ds (mean_sea_level_pressure t) (fst c) (snd c) r = Ok box ->
      size box <> 0%nat ->
      locate_minimum box = Ok (lat, lon, p) ->
      Walk ds r (lat, lon) rest pts ->
      Walk ds r c (t :: rest)
        ({| tp_time := time t; tp_latitude := lat;
            tp_longitude := lon; tp_min_pressure := p |} :: pts).

(** The centre of the search window of step [i] (counted from 0) in a run
    that recorded the positions [recorded]: the seed at step 0, the position
    recorded at step [i - 1] afterwards. *)
Definition centre_at (seed : Q * Q) (recorded : list (Q * Q)) (i : nat)
  : option (Q * Q) :=
  match i with
  | O => Some seed
  | S j => nth_error recorded j
  end.

(** The dataset cut after its first [n] time labels. *)
Definition truncate (ds : Dataset) (n : nat) : Dataset :=
  {| latitude := latitude ds;
     longitude := longitude ds;
     slabs := firstn n (slabs ds) |}.


End Trace.

(** ** The tracking columns of the intensity table *)

Module Projection.
Import Xarray Track Estimate.

Definition map_result {A B : Type} (f : A -> B) (r : Result A) : Result B :=
  match r with
  | Ok a => Ok (f a)
  | Raise e => Raise e
  end.

(** The columns [time], [latitude], [longitude] and [min_pressure_pa] of a
    row. *)
Definition track_point_of (row : IntensityRow) : TrackPoint :=
  {| tp_time := row_time row;
     tp_latitude := row_latitude row;
     tp_longitude := row_longitude row;
     tp_min_pressure := min_pressure_pa row |}.

Definition tracking_columns (r : Result (list IntensityRow))
  : Result (list TrackPoint) :=
  map_result (map track_point_of) r.

Definition track_state_of (st : IntensityState) : TrackState :=
  {| Track.current_lat := current_lat st;
     Track.current_lon := current_lon st;
     track_data := map track_point_of (results st) |}.

End Projection.

(** ** A small dataset

    Three latitudes, three longitudes and two time labels, used to evaluate
    the model. *)

Module Example.
Import Xarray Track.

Definition table (rows : list (list Q)) : nat -> nat -> Q :=
  fun i j => nth j (nth i rows []) 0.

Definition slab0 : Slab :=
  {| time := 0;
     mean_sea_level_pressure := table [[5; 4; 3]; [6; 1; 7]; [9; 8; 2]];
     u_component_of_wind_10m := table [[3; 0; 0]; [0; 6; 0]; [0; 0; 0]];
     v_component_of_wind_10m := table [[4; 0; 0]; [0; 8; 0]; [0; 0; 0]] |}.

Definition slab1 : Slab :=
  {| time := 6;
     mean_sea_level_pressure := table [[5; 4; 0]; [6; 3; 7]; [9; 8; 2]];
     u_component_of_wind_10m := table [[0; 0; 5]; [0; 0; 0]; [0; 0; 0]];
     v_component_of_wind_10m := table [[0; 0; 12]; [0; 0; 0]; [0; 0; 0]] |}.

Definition ascending : Dataset :=
  {| latitude := [10; 11; 12];
     longitude := [100; 101; 102];
     slabs := [slab0; slab1] |}.


(** The track from the seed (11, 101) with radius 1: the minimum of the
    first field is 1 at (11, 101), that of the second is 0 at (10, 102). *)
Definition point0 : TrackPoint :=
  {| tp_time := 0; tp_latitude := 11; tp_longitude := 101; tp_min_pressure := 1 |}.

Definition point1 : TrackPoint :=
  {| tp_time := 6; tp_latitude := 10; tp_longitude := 102; tp_min_pressure := 0 |}.

(** The intensity table from the same seed, with the intensity radius 1 and
    the factor 1.4. *)
Definition row0 : Estimate.IntensityRow :=
  {| Estimate.row_time := 0; Estimate.row_latitude := 11;
     Estimate.row_longitude := 101; Estimate.min_pressure_pa := 1;
     Estimate.max_wind_speed_ms := 14.0;
     Estimate.intensity_category := "Tropical Depression (TD)"%string;
     Estimate.intensity_color := "skyblue"%string |}.

Definition row1 : Estimate.IntensityRow :=
  {| Estimate.row_time := 6; Estimate.row_latitude := 10;
     Estimate.row_longitude := 102; Estimate.min_pressure_pa := 0;
     Estimate.max_wind_speed_ms := 18.2;
     Estimate.intensity_category := "Tropical Storm (TS)"%string;
     Estimate.intensity_color := "blue"%string |}.

(** Three files for the assembler, the second with a name that carries no
    time stamp, and a stand-in for [strptime] that accepts the strings of the
    shape dddd-dd-dd-dd-dd. *)
Definition is_digit (c : ascii) : bool :=
  (48 <=? nat_of_ascii c)%nat && (nat_of_ascii c <=? 57)%nat.

Fixpoint matches_shape (shape s : string) : bool :=
  match shape, s with
  | EmptyString, EmptyString => true
  | String p shape', String c s' =>
      (if Ascii.eqb p "d"%char then is_digit c else Ascii.eqb p c)
      && matches_shape shape' s'
  | _, _ => false
  end.

Definition shape_strptime (s format : string) : option string :=
  if matches_shape "dddd-dd-dd-dd-dd"%string s then Some s else None.

Definition files : list (Assemble.OpenDataset nat) :=
  [ {| Assemble.source := "/outputs/run/output_surface_2018-10-01-06-00.nc"%string;
       Assemble.content := 1%nat |};
    {| Assemble.source := "/outputs/run/output_surface_latest.nc"%string;
       Assemble.content := 2%nat |};
    {| Assemble.source := "/outputs/run/output_surface_2018-10-01-12-00.nc"%string;
       Assemble.content := 3%nat |} ].

(** A square root that is exact on the squares of rationals, enough to
    evaluate [calculate_intensity] on the winds above. *)
Definition sqrt_of_square (q : Q) : Q := Z.sqrt (Qnum q) # Pos.sqrt (Qden q).

End Example.

(** ** More datasets

    The example grid with its longitudes stored in descending order, and a
    grid with a single latitude. *)

Module MoreExamples.
Import Xarray Example.

Definition descending_longitude : Dataset :=
  {| latitude := [10; 11; 12];
     longitude := [102; 101; 100];
     slabs := [slab0; slab1] |}.

Definition single_latitude : Dataset :=
  {| latitude := [11];
     longitude := [100; 101; 102];
     slabs := [slab0; slab1] |}.

End MoreExamples.

(** ** A dataset with a latitude axis in no order

    Six latitudes stored as they come, three longitudes and three time
    labels.  From the seed (6, 101) with radius 1 the first latitude slice is
    [slice(5, 7)], the positions 0 to 4; the lowest pressure of the first
    field inside is 1 at (11, 101).  The second slice is [slice(10, 12)]:
    the label 10 is at position 3, the label 12 at position 1, and
    [latitude[3:2]] is empty. *)

Module Scrambled.
Import Xarray Track Example.










End Scrambled.

(** ** Strings and paths ([str] methods and [os.path]) *)

Module Paths.
Import Assemble.

Local Open Scope string_scope.

(** [s.startswith(p)], [s.endswith(p)] and the slice [s[:-n]]. *)
Definition startswith (p s : string) : bool := String.prefix p s.

Fixpoint endswith (suffix s : string) : bool :=
  String.eqb suffix s
  || match s with
     | EmptyString => false
     | String _ s' => endswith suffix s'
     end.

Fixpoint keep (n : nat) (s : string) : string :=
  match n, s with
  | S k, String c s' => String c (keep k s')
  | _, _ => EmptyString
  end.

Definition drop_last (n : nat) (s : string) : string :=
  keep (String.length s - n) s.

Fixpoint has_char (c : ascii) (s : string) : bool :=
  match s with
  | EmptyString => false
  | String d s' => Ascii.eqb d c || has_char c s'
  end.

Fixpoint last_is_slash (s : string) : bool :=
  match s with
  | EmptyString => false
  | String c EmptyString => Ascii.eqb c "/"%char
  | String _ s' => last_is_slash s'
  end.

(** [os.path.join(a, b)]: an absolute [b] replaces [a]; otherwise [b] is
    appended, after a separator unless [a] is empty or ends with one. *)
Definition join (a b : string) : string :=
  if startswith "/" b then b
  else if String.eqb a "" || last_is_slash a then a ++ b
  else a ++ "/" ++ b.

(** [os.path.dirname(p)]: the head up to the last ['/'], without its
    trailing separators unless it consists of separators only. *)
Fixpoint head_of (p : string) : string :=
  match p with
  | EmptyString => EmptyString
  | String c s' =>
      if has_slash s' then String c (head_of s')
      else if Ascii.eqb c "/"%char then "/" else EmptyString
  end.

Fixpoint all_slashes (s : string) : bool :=
  match s with
  | EmptyString => true
  | String c s' => Ascii.eqb c "/"%char && all_slashes s'
  end.

Fixpoint rstrip_slashes (s : string) : string :=
  match s with
  | EmptyString => EmptyString
  | String c s' =>
      match rstrip_slashes s' with
      | EmptyString => if Ascii.eqb c "/"%char then EmptyString else String c EmptyString
      | r => String c r
      end
  end.

Definition dirname (p : string) : string :=
  let head := head_of p in
  if negb (String.eqb head "") && negb (all_slashes head)
  then rstrip_slashes head
  else head.

End Paths.

(** ** Decoding driver ([3_forecast_decode.py]) *)

Module Decode.
Import Paths.

Local Open Scope string_scope.

(** The two decoders of [forecast_decode_functions], as they are called. *)
Inductive Decoder : Type := surface | upper.

Record Call : Type := {
  decoder : Decoder;
  input_path : string;
  output_name : string;
  output_dir : string
}.

(** The body of [for file in os.listdir(results_dir)]: the decoder calls
    that one directory entry causes. *)
Definition decode_file (results_dir outputs_dir file : string) : list Call :=
  if endswith ".npy" file then
    if startswith "output_surface" file then
      [{| decoder := surface; input_path := join results_dir file;
          output_name := drop_last 4 file ++ ".nc"; output_dir := outputs_dir |}]
    else if startswith "output_upper" file then
      [{| decoder := upper; input_path := join results_dir file;
          output_name := drop_last 4 file ++ ".nc"; output_dir := outputs_dir |}]
    else []
  else [].

Definition decode_all (results_dir outputs_dir : string) (listing : list string)
  : list Call :=
  flat_map (decode_file results_dir outputs_dir) listing.

(** The strings made of digits and hyphens only, as the time stamps
    [YYYY-MM-DD-HH-MM] of the file names are. *)
Fixpoint digits_and_hyphens (s : string) : bool :=
  match s with
  | EmptyString => true
  | String c s' =>
      (((48 <=? nat_of_ascii c)%nat && (nat_of_ascii c <=? 57)%nat)
       || Ascii.eqb c "-"%char)
      && digits_and_hyphens s'
  end.

End Decode.

(** ** Output paths and plots ([8_track_typhoon.py],
       [9_verify_tracking.py], [11_calculate_typhoon_intensity.py]) *)

Module Report.
Import Xarray Track Estimate Assemble Paths.

Local Open Scope string_scope.

(** [get_output_paths(input_file_path, base_output_dir)]: the directory that
    [os.makedirs] creates and the two returned paths. *)
Record OutputPaths : Type := {
  created_dir : string;
  output_csv_path : string;
  output_plot_path : string
}.

Definition get_output_paths (input_file_path base_output_dir : string) : OutputPaths :=
  let parent_dir_name := basename (dirname input_file_path) in
  let output_dir := join base_output_dir parent_dir_name in
  let csv_name := parent_dir_name ++ ".csv" in
  let plot_name := parent_dir_name ++ ".png" in
  {| created_dir := output_dir;
     output_csv_path := join output_dir csv_name;
     output_plot_path := join output_dir plot_name |}.

(** [get_output_dir] of [9_verify_tracking.py]. *)
Definition get_output_dir (input_file_path base_output_dir : string) : string :=
  let parent_dir_name := basename (dirname input_file_path) in
  join (join base_output_dir parent_dir_name) "verification_plots".

(** [verify_track_step(file_path, time_step, center_lat, center_lon,
    search_radius_deg)]: the pressure field that is plotted, and the
    position of the marker of the tracked centre.  [.sel(time=time_step)]
    picks the slab that carries the label; a label that the dataset does not
    hold is a [KeyError].  [local_mslp.plot()] of a selection that holds no
    value is a [TypeError]. *)
Definition verify_track_step (ds : Dataset) (time_step : Z)
    (center_lat center_lon search_radius_deg : Q) : Result (DataArray * (Q * Q)) :=
  let lat_min := center_lat - search_radius_deg in
  let lat_max := center_lat + search_radius_deg in
  let lon_min := center_lon - search_radius_deg in
  let lon_max := center_lon + search_radius_deg in
  lat_slice <- latitude_slice ds lat_min lat_max ;;
  let lon_slice := longitude_slice lon_min lon_max in
  match find (fun t => Z.eqb (time t) time_step) (slabs ds) with
  | None => Raise KeyError
  | Some t =>
      local_mslp <- sel (on_grid ds (mean_sea_level_pressure t)) lat_slice lon_slice ;;
      if Nat.eqb (size local_mslp) 0 then Raise TypeError
      else Ok (local_mslp, (center_lon, center_lat))
  end.

(** The call of the main loop of [9_verify_tracking.py] for one row of the
    track: the radius is left to its default, 5.0. *)
Definition verify_row (ds : Dataset) (row : TrackPoint) : Result (DataArray * (Q * Q)) :=
  verify_track_step ds (tp_time row) (tp_latitude row) (tp_longitude row) 5.0.

(** [safe_time_str = time_str.replace(':', '-').replace(' ', '_')] *)
Definition safe_time_str (time_str : string) : string :=
  replace " " "_" (replace ":" "-" time_str).

(** [range(0, stop, step)] for a positive [step]. *)
Definition range0 (stop step : nat) : list nat :=
  map (fun k => (k * step)%nat) (seq 0 ((stop + step - 1) / step)).

(** The rows that get a date annotation:
    [step = max(1, len(df) // 10)], [range(0, len(df), step)]. *)
Definition annotation_rows (n : nat) : list nat :=
  range0 n (Nat.max 1 (n / 10)).

Fixpoint collect {A B : Type} (f : A -> Result B) (l : list A) : Result (list B) :=
  match l with
  | [] => Ok []
  | a :: l' => b <- f a ;; bs <- collect f l' ;; Ok (b :: bs)
  end.

(** What [plot_track] draws: the line through all the points, the start and
    end markers, and the annotations (time label and anchor point). *)
Record TrackDrawing : Type := {
  line : list (Q * Q);
  start_marker : Q * Q;
  end_marker : Q * Q;
  annotations : list (Z * (Q * Q))
}.

(** [df[...].iloc[i]] on the columns of the track. *)
Definition iloc_point (df : list TrackPoint) (i : nat) : Result (Q * Q) :=
  lon <- lookup (map tp_longitude df) i ;;
  lat <- lookup (map tp_latitude df) i ;;
  Ok (lon, lat).

Definition annotation (df : list TrackPoint) (i : nat) : Result (Z * (Q * Q)) :=
  t <- lookup (map tp_time df) i ;;
  xy <- iloc_point df i ;;
  Ok (t, xy).

(** [plot_track(df)].  The DataFrame of an empty track has no column, so
    [df['longitude']] raises [KeyError]. *)
Definition plot_track (df : list TrackPoint) : Result TrackDrawing :=
  match df with
  | [] => Raise KeyError
  | _ :: _ =>
      start <- iloc_point df 0 ;;
      stop <- iloc_point df (List.length df - 1) ;;
      notes <- collect (annotation df) (annotation_rows (List.length df)) ;;
      Ok {| line := map (fun p => (tp_longitude p, tp_latitude p)) df;
            start_marker := start;
            end_marker := stop;
            annotations := notes |}
  end.

(** The scatter calls of [plot_intensity_track]: one per category of the
    legend that has rows, then one for the low-pressure rows if any; each
    with its colour, its legend label and its rows. *)
Definition categories : list (string * string) :=
  [ ("Tropical Depression (TD)", "skyblue");
    ("Tropical Storm (TS)", "blue");
    ("Severe Tropical Storm (STS)", "green");
    ("Typhoon (TY)", "yellow");
    ("Severe Typhoon (STY)", "orange");
    ("Super Typhoon (SuperTY)", "red") ].

Record Scatter : Type := {
  colour : string;
  legend : string;
  points : list IntensityRow
}.

Definition subset (df : list IntensityRow) (cat_name : string) : list IntensityRow :=
  filter (fun row => String.eqb (intensity_category row) cat_name) df.

Definition scatter_calls (df : list IntensityRow) : list Scatter :=
  flat_map (fun '(cat_name, color) =>
              match subset df cat_name with
              | [] => []
              | rows => [{| colour := color; legend := cat_name; points := rows |}]
              end) categories
  ++ match subset df "Low Pressure (<10.8)" with
     | [] => []
     | rows => [{| colour := "gray"; legend := "Low Pressure"; points := rows |}]
     end.

End Report.

(** ** Region filter ([6_combing_Latitude_and_longitude.py]) *)

Module Region.
Import Xarray.

(** Step 4 of the script on one variable of the combined dataset: the
    latitude slice is [slice(50, 10)] when the first latitude is greater than
    the second, [slice(10, 50)] otherwise; the longitude slice is
    [slice(90, 160)]. *)
Definition filter_region (da : DataArray) : Result DataArray :=
  lat_0 <- lookup (da_latitude da) 0 ;;
  lat_1 <- lookup (da_latitude da) 1 ;;
  let lat_slice := if lat_1 <? lat_0 then (50, 10) else (10, 50) in
  sel da lat_slice (90, 160).

End Region.

(** * Properties *)

(** ** Comparisons *)

Lemma Qleb_le (a b : Q) : (a <=? b) = true <-> a <= b.
Proof. unfold Qleb. apply Qle_bool_iff. Qed.

Lemma Qleb_gt (a b : Q) : (a <=? b) = false <-> b < a.
Proof.
  unfold Qleb. split; intro H.
  - apply Qnot_le_lt. intro L. apply Qle_bool_iff in L. congruence.
  - destruct (Qle_bool a b) eqn:E; [|reflexivity].
    apply Qle_bool_iff in E. exfalso. exact (Qlt_not_le _ _ H E).
Qed.

Lemma Qltb_lt (a b : Q) : (a <? b) = true <-> a < b.
Proof. unfold Qltb. rewrite negb_true_iff. apply (Qleb_gt b a). Qed.

Lemma Qltb_ge (a b : Q) : (a <? b) = false <-> b <= a.
Proof. unfold Qltb. rewrite negb_false_iff. apply (Qleb_le b a). Qed.

(** Turns every boolean comparison that the goal or a hypothesis tests into
    the inequality it decides. *)
Ltac Qbool :=
  repeat match goal with
  | H : (_ <=? _) = true |- _ => apply Qleb_le in H
  | H : (_ <=? _) = false |- _ => apply Qleb_gt in H
  | H : (_ <? _) = true |- _ => apply Qltb_lt in H
  | H : (_ <? _) = false |- _ => apply Qltb_ge in H
  | H : andb _ _ = true |- _ => apply andb_true_iff in H; destruct H
  end.

Ltac Qcases :=
  repeat match goal with
  | |- context [?a <=? ?b] => destruct (a <=? b) eqn:?; cbn [andb orb negb]
  | |- context [?a <? ?b] => destruct (a <? b) eqn:?; cbn [andb orb negb]
  end; Qbool.

Lemma py_min_spec (a b : Q) : a <= b -> py_min a b <= a /\ a <= py_min a b.
Proof. unfold py_min. intros. Qcases; split; lra. Qed.

Lemma py_max_spec (a b : Q) : a <= b -> py_max a b <= b /\ b <= py_max a b.
Proof. unfold py_max. intros. Qcases; split; lra. Qed.

Lemma py_min_cases (a b : Q) :
  (py_min a b == a /\ a <= b) \/ (py_min a b == b /\ b < a).
Proof. unfold py_min. Qcases; [right|left]; split; lra. Qed.

Lemma py_max_cases (a b : Q) :
  (py_max a b == a /\ b <= a) \/ (py_max a b == b /\ a < b).
Proof. unfold py_max. Qcases; [right|left]; split; lra. Qed.

(** ** The classifier *)

Module IntensityFacts.
Import Intensity.

(** Inside a documented range the classifier returns the category of that
    range: the seven ranges do not overlap. *)
Lemma listed_range_classified (c : Category) (w : Q) :
  in_listed_range c w ->
  category_of_label (fst (get_intensity_category w)) = Some c.
Proof.
  unfold get_intensity_category.
  destruct c; cbn [in_listed_range]; intros H;
    Qcases; try reflexivity; exfalso; lra.
Qed.

Lemma boundary_17_1_is_TD :
  get_intensity_category 17.1 = ("Tropical Depression (TD)"%string, "skyblue"%string).
Proof. reflexivity. Qed.

Lemma boundary_17_2_is_TS :
  get_intensity_category 17.2 = ("Tropical Storm (TS)"%string, "blue"%string).
Proof. reflexivity. Qed.

(** Every wind speed that falls in no documented range is sent to the last
    branch. *)
Lemma unlisted_is_super_typhoon (w : Q) :
  (forall c, ~ in_listed_range c w) ->
  get_intensity_category w = ("Super Typhoon (SuperTY)"%string, "red"%string).
Proof.
  intros H. unfold get_intensity_category.
  Qcases; try reflexivity; exfalso;
    first [ lra
          | apply (H LowPressure); cbn [in_listed_range]; lra
          | apply (H TD); cbn [in_listed_range]; lra
          | apply (H TS); cbn [in_listed_range]; lra
          | apply (H STS); cbn [in_listed_range]; lra
          | apply (H TY); cbn [in_listed_range]; lra
          | apply (H STY); cbn [in_listed_range]; lra ].
Qed.

(** Between documented ranges, a larger factor gives a category at least as
    high. *)
Lemma rank_monotone_on_listed (raw f1 f2 : Q) (c1 c2 : Category) :
  0 <= raw -> f1 <= f2 ->
  in_listed_range c1 (corrected_wind raw f1) ->
  in_listed_range c2 (corrected_wind raw f2) ->
  (rank c1 <= rank c2)%nat.
Proof.
  unfold corrected_wind. intros Hraw Hf H1 H2.
  assert (Hle : raw * f1 <= raw * f2) by nra.
  destruct c1, c2; cbn [in_listed_range rank] in *;
    try lia; exfalso; lra.
Qed.

(** C1 (defect).  The wind speed 17.15 m/s lies between the documented ranges
    of TD ([10.8, 17.1]) and TS ([17.2, 24.4]).  The classifier sends it to
    its last branch, Super Typhoon, although it is below 51.0: the ranges of
    the code leave gaps, and a wind speed in a gap is classified outside its
    listed range. *)
Theorem C1_gap_speed_is_super_typhoon :
  0 <= 17.15 /\
  get_intensity_category 17.15 = ("Super Typhoon (SuperTY)"%string, "red"%string) /\
  ~ in_listed_range SuperTY 17.15 /\
  (forall c, ~ in_listed_range c 17.15).
Proof.
  split; [lra|]. split; [reflexivity|]. split.
  - cbn [in_listed_range]. lra.
  - intros c. destruct c; cbn [in_listed_range]; lra.
Qed.

(** C2 (defect).  With the raw maximum wind 12.25 m/s, the factor 1.4 gives
    17.15 m/s, classified Super Typhoon (rank 6), and the larger factor 1.5
    gives 18.375 m/s, classified Tropical Storm (rank 2): increasing the
    factor decreases the category. *)
Theorem C2_larger_factor_lower_category :
  0 <= 12.25 /\ 1.4 <= 1.5 /\
  category_rank (corrected_wind 12.25 1.4) = 6%nat /\
  category_rank (corrected_wind 12.25 1.5) = 2%nat /\
  (category_rank (corrected_wind 12.25 1.5)
     < category_rank (corrected_wind 12.25 1.4))%nat.
Proof.
  split; [lra|]. split; [lra|].
  split; [reflexivity|]. split; [reflexivity|].
  vm_compute. lia.
Qed.

(** The two evaluations above, replayed on doubles. *)
Lemma binary64_gap_speed :
  Binary64.get_intensity_category Binary64.gap_wind
  = ("Super Typhoon (SuperTY)"%string, "red"%string).
Proof. vm_compute. reflexivity. Qed.

Lemma binary64_larger_factor :
  PrimFloat.leb Binary64.factor_1_4 Binary64.factor_1_5 = true /\
  Binary64.get_intensity_category
    (PrimFloat.mul Binary64.raw_wind Binary64.factor_1_4)
  = ("Super Typhoon (SuperTY)"%string, "red"%string) /\
  Binary64.get_intensity_category
    (PrimFloat.mul Binary64.raw_wind Binary64.factor_1_5)
  = ("Tropical Storm (TS)"%string, "blue"%string).
Proof. vm_compute. repeat split; reflexivity. Qed.

End IntensityFacts.

(** ** Label slices *)

Module XarrayFacts.
Import Xarray Window.

Section Monotonic.

Variable cmp : Q -> Q -> bool.
Hypothesis cmp_refl : forall x, cmp x x = true.
Hypothesis cmp_trans :
  forall x y z, cmp x y = true -> cmp y z = true -> cmp x z = true.

Lemma monotonic_sorted (l : list Q) :
  monotonic cmp l = true -> StronglySorted (fun x y => cmp x y = true) l.
Proof.
  intros H. apply Sorted_StronglySorted.
  - exact cmp_trans.
  - induction l as [|x [|y l'] IH]; constructor.
    + constructor.
    + constructor.
    + apply IH. cbn in H. apply andb_true_iff in H. apply H.
    + constructor. cbn in H. apply andb_true_iff in H. apply H.
Qed.

Lemma sorted_monotonic (l : list Q) :
  StronglySorted (fun x y => cmp x y = true) l -> monotonic cmp l = true.
Proof.
  induction 1 as [|x l Hs IH Hall]; [reflexivity|].
  destruct l as [|y l']; [reflexivity|].
  cbn [monotonic]. apply andb_true_iff. split; [|exact IH].
  rewrite Forall_forall in Hall. apply Hall. left. reflexivity.
Qed.

(** Ordered by position: an earlier label compares with every later one. *)
Lemma monotonic_nth (l : list Q) :
  monotonic cmp l = true <->
  (forall i j x y, (i <= j)%nat ->
     nth_error l i = Some x -> nth_error l j = Some y -> cmp x y = true).
Proof.
  split.
  - intros H. apply monotonic_sorted in H.
    induction H as [|a l Hs IH Hall]; intros i j x y Hij Hi Hj.
    + destruct i; discriminate.
    + destruct i as [|i], j as [|j]; cbn in Hi, Hj.
      * injection Hi as <-. injection Hj as <-. apply cmp_refl.
      * injection Hi as <-. rewrite Forall_forall in Hall.
        apply Hall. apply (nth_error_In _ _ Hj).
      * lia.
      * apply (IH i j x y); [lia|assumption|assumption].
  - intros H. apply sorted_monotonic.
    induction l as [|a l IH]; constructor.
    + apply IH. intros i j x y Hij Hi Hj.
      apply (H (S i) (S j) x y); [lia|exact Hi|exact Hj].
    + rewrite Forall_forall. intros y Hy.
      destruct (In_nth_error _ _ Hy) as [n Hn].
      apply (H 0%nat (S n) a y); [lia|reflexivity|exact Hn].
Qed.

End Monotonic.

Lemma increasing_sorted (l : list Q) :
  is_monotonic_increasing l = true -> StronglySorted Qle l.
Proof.
  intros H. apply monotonic_sorted in H.
  - induction H as [|a l Hs IH Hall]; constructor; [exact IH|].
    rewrite Forall_forall in *. intros y Hy. apply Qleb_le, Hall, Hy.
  - intros x y z Hxy Hyz. Qbool. apply Qleb_le. lra.
Qed.

Lemma decreasing_sorted (l : list Q) :
  is_monotonic_decreasing l = true -> StronglySorted (fun x y => y <= x) l.
Proof.
  intros H. apply monotonic_sorted in H.
  - induction H as [|a l Hs IH Hall]; constructor; [exact IH|].
    rewrite Forall_forall in *. intros y Hy. apply Qleb_le, Hall, Hy.
  - intros x y z Hxy Hyz. Qbool. apply Qleb_le. lra.
Qed.

Lemma increasing_nth (l : list Q) :
  is_monotonic_increasing l = true <->
  (forall i j x y, (i <= j)%nat ->
     nth_error l i = Some x -> nth_error l j = Some y -> x <= y).
Proof.
  unfold is_monotonic_increasing. rewrite monotonic_nth.
  - split; intros H i j x y Hij Hi Hj.
    + apply Qleb_le. apply (H i j); assumption.
    + apply Qleb_le. apply (H i j); assumption.
  - intros x. apply Qleb_le. lra.
  - intros x y z Hxy Hyz. Qbool. apply Qleb_le. lra.
Qed.

Lemma decreasing_nth (l : list Q) :
  is_monotonic_decreasing l = true <->
  (forall i j x y, (i <= j)%nat ->
     nth_error l i = Some x -> nth_error l j = Some y -> y <= x).
Proof.
  unfold is_monotonic_decreasing. rewrite monotonic_nth.
  - split; intros H i j x y Hij Hi Hj.
    + apply Qleb_le. apply (H i j); assumption.
    + apply Qleb_le. apply (H i j); assumption.
  - intros x. apply Qleb_le. lra.
  - intros x y z Hxy Hyz. Qbool. apply Qleb_le. lra.
Qed.

(** On a sorted list, a predicate that is closed towards the front holds
    exactly on the first [count p l] positions. *)
Lemma count_prefix (R : Q -> Q -> Prop) (p : Q -> bool) (l : list Q) :
  StronglySorted R l ->
  (forall x y, R x y -> p y = true -> p x = true) ->
  forall k x, nth_error l k = Some x -> (k < count p l)%nat <-> p x = true.
Proof.
  intros Hs Hp. induction Hs as [|a l Hs IH Hall]; intros k x Hk.
  - destruct k; discriminate.
  - unfold count in *. cbn [filter]. destruct (p a) eqn:Ea.
    + destruct k as [|k]; cbn in Hk.
      * injection Hk as <-. cbn. split; [auto|lia].
      * cbn [List.length]. rewrite <- (IH k x Hk). lia.
    + assert (Hnone : forall y, In y l -> p y = false).
      { intros y Hy. destruct (p y) eqn:Ey; [|reflexivity].
        rewrite Forall_forall in Hall.
        rewrite (Hp a y (Hall y Hy) Ey) in Ea. discriminate. }
      assert (Hfil : filter p l = []).
      { clear -Hnone. induction l as [|y l IHl]; [reflexivity|].
        cbn. rewrite (Hnone y (or_introl eq_refl)).
        apply IHl. intros z Hz. apply Hnone. right. exact Hz. }
      rewrite Hfil. cbn. split; [lia|]. intros Hx.
      destruct k as [|k]; cbn in Hk.
      * injection Hk as <-. congruence.
      * apply nth_error_In in Hk. rewrite (Hnone x Hk) in Hx. discriminate.
Qed.

Lemma nth_error_islice {A : Type} (l : list A) (i j k : nat) (x : A) :
  nth_error (islice l i j) k = Some x <->
  (i + k < j)%nat /\ nth_error l (i + k) = Some x.
Proof.
  unfold islice. split.
  - intros H.
    assert (Hk : (k < j - i)%nat).
    { destruct (Nat.ltb_spec k (j - i)) as [L|L]; [exact L|].
      rewrite nth_error_firstn in H.
      destruct (Nat.ltb_spec k (j - i)); [lia|discriminate]. }
    rewrite nth_error_firstn in H.
    destruct (Nat.ltb_spec k (j - i)); [|lia].
    rewrite nth_error_skipn in H. split; [lia|exact H].
  - intros [Hk H]. rewrite nth_error_firstn.
    destruct (Nat.ltb_spec k (j - i)); [|lia].
    rewrite nth_error_skipn. exact H.
Qed.

Lemma range_decide (i j k : nat) (u v : bool) :
  ((k < i)%nat <-> u = true) -> ((k < j)%nat <-> v = true) ->
  ((i <= k < j)%nat <-> u = false /\ v = true).
Proof.
  intros [A A'] [B B']. split.
  - intros [L1 L2]. split.
    + destruct u; [|reflexivity]. exfalso. pose proof (A' eq_refl). lia.
    + apply B. exact L2.
  - intros [U V]. split.
    + destruct (Nat.le_gt_cases i k) as [L|L]; [exact L|].
      apply A in L. congruence.
    + apply B'. exact V.
Qed.

(** The positions that a label slice selects are those whose label lies in
    the closed range of the slice. *)
Lemma slice_indexer_positions (idx : list Q) (a b : Q) (i j : nat) :
  slice_indexer idx a b = Ok (i, j) ->
  forall k x, nth_error idx k = Some x ->
    ((i <= k < j)%nat <-> selected idx a b x).
Proof.
  unfold slice_indexer, selected. intros H k x Hk.
  destruct (is_monotonic_increasing idx) eqn:Einc.
  - injection H as Hi Hj.
    pose proof (increasing_sorted idx Einc) as Hs.
    assert (H1 : (k < i)%nat <-> Qltb x a = true).
    { rewrite <- Hi. apply (count_prefix Qle (fun x => Qltb x a) idx Hs); [|exact Hk].
      intros u v Huv Hv. Qbool. apply Qltb_lt. lra. }
    assert (H2 : (k < j)%nat <-> Qleb x b = true).
    { rewrite <- Hj. apply (count_prefix Qle (fun x => Qleb x b) idx Hs); [|exact Hk].
      intros u v Huv Hv. Qbool. apply Qleb_le. lra. }
    rewrite <- (Qleb_le x b), <- (Qltb_ge x a). apply range_decide; assumption.
  - destruct (is_monotonic_decreasing idx) eqn:Edec; [|discriminate].
    injection H as Hi Hj.
    pose proof (decreasing_sorted idx Edec) as Hs.
    assert (H1 : (k < i)%nat <-> Qltb a x = true).
    { rewrite <- Hi. apply (count_prefix _ (fun x => Qltb a x) idx Hs); [|exact Hk].
      intros u v Huv Hv. Qbool. apply Qltb_lt. lra. }
    assert (H2 : (k < j)%nat <-> Qleb b x = true).
    { rewrite <- Hj. apply (count_prefix _ (fun x => Qleb b x) idx Hs); [|exact Hk].
      intros u v Huv Hv. Qbool. apply Qleb_le. lra. }
    rewrite <- (Qleb_le b x), <- (Qltb_ge a x).
    rewrite (and_comm (Qleb b x = true)). apply range_decide; assumption.
Qed.

(** The cells of a selection are the cells of the array whose two labels lie
    in the ranges of the two slices. *)
Lemma sel_cells (da : DataArray) (a b c d : Q) (box : DataArray) :
  sel da (a, b) (c, d) = Ok box ->
  forall lat lon v,
    cell_of box lat lon v <->
    cell_of da lat lon v /\
    selected (da_latitude da) a b lat /\ selected (da_longitude da) c d lon.
Proof.
  unfold sel. cbn [fst snd].
  destruct (slice_indexer (da_latitude da) a b) as [[i0 i1]|] eqn:E1;
    cbn [bind]; [|discriminate].
  destruct (slice_indexer (da_longitude da) c d) as [[j0 j1]|] eqn:E2;
    cbn [bind]; [|discriminate].
  intros [= <-] lat lon v. unfold cell_of. cbn. split.
  - intros (i & j & Hi & Hj & Hv).
    apply nth_error_islice in Hi; apply nth_error_islice in Hj.
    destruct Hi as [Li Hi], Hj as [Lj Hj]. split; [|split].
    + exists (i0 + i)%nat, (j0 + j)%nat. auto.
    + apply (slice_indexer_positions _ _ _ _ _ E1 _ _ Hi). lia.
    + apply (slice_indexer_positions _ _ _ _ _ E2 _ _ Hj). lia.
  - intros [(i & j & Hi & Hj & Hv) [S1 S2]].
    apply (slice_indexer_positions _ _ _ _ _ E1 _ _ Hi) in S1.
    apply (slice_indexer_positions _ _ _ _ _ E2 _ _ Hj) in S2.
    exists (i - i0)%nat, (j - j0)%nat.
    rewrite !nth_error_islice.
    replace (i0 + (i - i0))%nat with i by lia.
    replace (j0 + (j - j0))%nat with j by lia.
    repeat split; try assumption; lia.
Qed.

Lemma in_positions (da : DataArray) (p : nat * nat) :
  In p (positions da) <->
  (fst p < List.length (da_latitude da))%nat /\
  (snd p < List.length (da_longitude da))%nat.
Proof.
  destruct p as [i j]. unfold positions.
  rewrite in_prod_iff, !in_seq. cbn. lia.
Qed.

Lemma nonempty_has_cell (box : DataArray) :
  size box <> 0%nat -> exists lat lon v, cell_of box lat lon v.
Proof.
  unfold size, cell_of. intros H.
  destruct (da_latitude box) as [|lat ?], (da_longitude box) as [|lon ?];
    cbn in H; try lia.
  exists lat, lon, (da_values box 0 0), 0%nat, 0%nat. auto.
Qed.

(** A range that selects some label and is one of [lo..hi], [hi..lo] with
    [lo <= hi] selects exactly the labels between [lo] and [hi]. *)
Lemma selected_closed_range (idx : list Q) (a b lo hi x0 : Q) :
  lo <= hi ->
  (a == lo /\ b == hi) \/ (a == hi /\ b == lo) ->
  selected idx a b x0 ->
  forall x, selected idx a b x <-> lo <= x /\ x <= hi.
Proof.
  unfold selected. intros Hle Hab H0 x.
  destruct (is_monotonic_increasing idx), Hab as [[Ha Hb]|[Ha Hb]];
    split; intros; split; lra.
Qed.

End XarrayFacts.

(** ** The search box *)

Module BoxFacts.
Import Xarray Track Window XarrayFacts.

Lemma lookup_ok {A : Type} (l : list A) (i : nat) (x : A) :
  lookup l i = Ok x <-> nth_error l i = Some x.
Proof.
  unfold lookup. destruct (nth_error l i); split; intros H;
    try discriminate; injection H as <-; reflexivity.
Qed.

(** Which way round the latitude slice is issued. *)
Lemma latitude_slice_bounds (ds : Dataset) (lo hi a b : Q) :
  latitude_slice ds lo hi = Ok (a, b) -> lo <= hi ->
  exists first last,
    nth_error (latitude ds) 0 = Some first /\
    nth_error (latitude ds) (List.length (latitude ds) - 1) = Some last /\
    (((first <? last) = true /\ a == lo /\ b == hi) \/
     ((first <? last) = false /\ a == hi /\ b == lo)).
Proof.
  unfold latitude_slice. intros H Hle.
  destruct (lookup (latitude ds) 0) as [first|] eqn:E1; cbn [bind] in H; [|discriminate].
  destruct (lookup (latitude ds) (List.length (latitude ds) - 1)) as [last|] eqn:E2;
    cbn [bind] in H; [|discriminate].
  apply lookup_ok in E1, E2. exists first, last.
  split; [exact E1|]. split; [exact E2|].
  unfold py_min, py_max in H.
  destruct (first <? last); injection H as <- <-; [left|right];
    (split; [reflexivity|]); Qcases; split; lra.
Qed.

(** With a non-negative radius, a search box that is not empty holds exactly
    the cells of the grid inside the square of half-width [radius] around the
    centre. *)
Lemma search_box_window (ds : Dataset) (values : nat -> nat -> Q)
    (centre_lat centre_lon radius : Q) (box : DataArray) :
  search_box ds values centre_lat centre_lon radius = Ok box ->
  0 <= radius -> size box <> 0%nat ->
  forall lat lon v,
    cell_of box lat lon v <->
    cell_of (on_grid ds values) lat lon v /\
    in_window centre_lat centre_lon radius lat lon.
Proof.
  unfold search_box, longitude_slice. intros H Hr Hne.
  destruct (latitude_slice ds (centre_lat - radius) (centre_lat + radius))
    as [[a b]|] eqn:El; cbn [bind] in H; [|discriminate].
  destruct (latitude_slice_bounds _ _ _ _ _ El) as (first & last & _ & _ & Hab);
    [lra|].
  pose proof (sel_cells _ _ _ _ _ _ H) as Hc. cbn [on_grid da_latitude da_longitude] in Hc.
  destruct (nonempty_has_cell box Hne) as (lat0 & lon0 & v0 & H0).
  apply Hc in H0. destruct H0 as (_ & S1 & S2).
  intros lat lon v. rewrite Hc. unfold in_window.
  rewrite (selected_closed_range (latitude ds) a b
             (centre_lat - radius) (centre_lat + radius) lat0); try assumption;
    [|lra|tauto].
  rewrite (selected_closed_range (longitude ds) _ _
             (centre_lon - radius) (centre_lon + radius) lon0); try assumption;
    [|lra|left; split; reflexivity].
  tauto.
Qed.

End BoxFacts.

(** ** [argmin], [min] and [max] *)

Module ReduceFacts.
Import Xarray Track Window Trace XarrayFacts BoxFacts.

Lemma argmin_from_in (da : DataArray) (ps : list (nat * nat)) (best : nat * nat) :
  In (argmin_from da best ps) (best :: ps).
Proof.
  revert best. induction ps as [|p ps IH]; intros best; cbn [argmin_from].
  - left. reflexivity.
  - destruct (IH (if value_at da p <? value_at da best then p else best)) as [E|I].
    + rewrite <- E. destruct (value_at da p <? value_at da best);
        [right; left|left]; reflexivity.
    + right. right. exact I.
Qed.

Lemma argmin_from_le (da : DataArray) (ps : list (nat * nat)) (best q : nat * nat) :
  In q (best :: ps) ->
  value_at da (argmin_from da best ps) <= value_at da q.
Proof.
  revert best q. induction ps as [|p ps IH]; intros best q Hq; cbn [argmin_from].
  - destruct Hq as [<-|[]]. lra.
  - set (b := if value_at da p <? value_at da best then p else best).
    assert (Hb : value_at da b <= value_at da best /\ value_at da b <= value_at da p).
    { unfold b. Qcases; split; lra. }
    destruct Hq as [<-|[<-|Hq]].
    + apply (Qle_trans _ (value_at da b)); [apply IH; left; reflexivity|apply Hb].
    + apply (Qle_trans _ (value_at da b)); [apply IH; left; reflexivity|apply Hb].
    + apply IH. right. exact Hq.
Qed.

(** The value that [min()] returns is the value at the position that [argmin]
    returns. *)
Lemma min_at_argmin (da : DataArray) (ps : list (nat * nat)) (best : nat * nat) :
  fold_left (fun acc v => if v <? acc then v else acc)
            (map (value_at da) ps) (value_at da best)
  = value_at da (argmin_from da best ps).
Proof.
  revert best. induction ps as [|p ps IH]; intros best; cbn; [reflexivity|].
  destruct (value_at da p <? value_at da best); apply IH.
Qed.


Lemma positions_nonempty (box : DataArray) :
  size box <> 0%nat -> exists p ps, positions box = p :: ps.
Proof.
  intros H. destruct (positions box) as [|p ps] eqn:E; [|eauto].
  exfalso. apply H. unfold size.
  destruct (da_latitude box) as [|a l] eqn:Ea; [reflexivity|].
  destruct (da_longitude box) as [|b m] eqn:Eb; [apply Nat.mul_0_r|].
  assert (I : In (0%nat, 0%nat) (positions box)).
  { apply in_positions. rewrite Ea, Eb. cbn. lia. }
  rewrite E in I. destruct I.
Qed.

(** What [locate_minimum] returns on a box that is not empty: the labels of
    one position of the box and the value stored there, which is least in the
    box; [argmin] and [min()] agree on that cell. *)
Lemma locate_minimum_spec (box : DataArray) :
  size box <> 0%nat ->
  exists idx lat lon,
    In idx (positions box) /\
    argmin box = Ok idx /\
    min box = Ok (value_at box idx) /\
    nth_error (da_latitude box) (fst idx) = Some lat /\
    nth_error (da_longitude box) (snd idx) = Some lon /\
    locate_minimum box = Ok (lat, lon, value_at box idx) /\
    (forall q, In q (positions box) -> value_at box idx <= value_at box q).
Proof.
  intros Hne. destruct (positions_nonempty box Hne) as (p & ps & Eps).
  set (idx := argmin_from box p ps).
  assert (Hin : In idx (positions box)).
  { rewrite Eps. apply argmin_from_in. }
  pose proof (proj1 (in_positions box idx) Hin) as [Hi Hj].
  destruct (nth_error (da_latitude box) (fst idx)) as [lat|] eqn:Elat;
    [|apply nth_error_None in Elat; lia].
  destruct (nth_error (da_longitude box) (snd idx)) as [lon|] eqn:Elon;
    [|apply nth_error_None in Elon; lia].
  assert (Hmin : min box = Ok (value_at box idx)).
  { unfold min, reduce. rewrite Eps. cbn [map]. f_equal. apply min_at_argmin. }
  assert (Harg : argmin box = Ok idx).
  { unfold argmin. rewrite Eps. reflexivity. }
  exists idx, lat, lon. repeat split; try assumption.
  - unfold locate_minimum. rewrite Harg. cbn [bind].
    unfold lookup. rewrite Elat, Elon. cbn [bind]. rewrite Hmin. reflexivity.
  - intros q Hq. rewrite Eps in Hq. apply argmin_from_le. exact Hq.
Qed.


Lemma cell_at_position (box : DataArray) (idx : nat * nat) (lat lon : Q) :
  nth_error (da_latitude box) (fst idx) = Some lat ->
  nth_error (da_longitude box) (snd idx) = Some lon ->
  cell_of box lat lon (value_at box idx).
Proof. intros H1 H2. exists (fst idx), (snd idx). auto. Qed.

Lemma cell_position (box : DataArray) (lat lon v : Q) :
  cell_of box lat lon v ->
  exists q, In q (positions box) /\ value_at box q = v.
Proof.
  intros (i & j & Hi & Hj & Hv). exists (i, j). split; [|exact Hv].
  apply in_positions. cbn. split; apply nth_error_Some; congruence.
Qed.

Lemma in_positions_nonempty_box (box : DataArray) (p : nat * nat) :
  In p (positions box) -> size box <> 0%nat.
Proof.
  intros H. apply in_positions in H. unfold size.
  destruct H as [H1 H2]. intros E. apply Nat.eq_mul_0 in E. lia.
Qed.

Lemma located_centre (box : DataArray) (lat lon p : Q) :
  size box <> 0%nat ->
  locate_minimum box = Ok (lat, lon, p) ->
  exists v, cell_of box lat lon v.
Proof.
  intros Hne Hloc.
  destruct (locate_minimum_spec box Hne)
    as (idx & lat' & lon' & _ & _ & _ & Hlat & Hlon & Hloc' & _).
  rewrite Hloc in Hloc'. injection Hloc' as -> -> ->.
  eexists. apply cell_at_position; eassumption.
Qed.

End ReduceFacts.

(** ** The tracking loop *)

Module TrackFacts.
Import Xarray Track Window Trace XarrayFacts BoxFacts ReduceFacts.

(** The loop computes the relation [Walk]. *)
Lemma track_loop_walk (ds : Dataset) (r : Q) (times : list Slab) (st st' : TrackState) :
  track_loop ds r st times = Ok st' ->
  exists pts,
    Walk ds r (current_lat st, current_lon st) times pts /\
    track_data st' = track_data st ++ pts.
Proof.
  revert st. induction times as [|t rest IH]; intros st H; cbn [track_loop] in H.
  - injection H as <-. exists []. split; [constructor|]. now rewrite app_nil_r.
  - unfold track_step in H.
    destruct (search_box ds (mean_sea_level_pressure t) (current_lat st)
                (current_lon st) r) as [box|] eqn:Ebox; cbn [bind] in H; [|discriminate].
    destruct (Nat.eqb (size box) 0) eqn:Esize; cbn [bind] in H.
    + injection H as <-. exists []. split; [|now rewrite app_nil_r].
      apply Nat.eqb_eq in Esize. eapply walk_break; eassumption.
    + apply Nat.eqb_neq in Esize.
      destruct (locate_minimum box) as [[[lat lon] p]|] eqn:Eloc;
        cbn [bind] in H; [|discriminate].
      apply IH in H. destruct H as (pts & Hw & Hd). cbn in Hw, Hd.
      eexists. split.
      * eapply walk_step; eassumption.
      * rewrite Hd, <- app_assoc. reflexivity.
Qed.

Lemma walk_track_loop (ds : Dataset) (r : Q) (times : list Slab)
    (c : Q * Q) (pts : list TrackPoint) :
  Walk ds r c times pts ->
  forall acc, exists st',
    track_loop ds r {| current_lat := fst c; current_lon := snd c; track_data := acc |}
      times = Ok st' /\
    track_data st' = acc ++ pts.
Proof.
  induction 1 as [c|c t rest box Hbox Hsize
                 |c t rest box lat lon p pts Hbox Hsize Hloc Hw IH]; intros acc.
  - eexists. split; [reflexivity|]. cbn. now rewrite app_nil_r.
  - eexists. cbn [track_loop]. unfold track_step. cbn [current_lat current_lon].
    rewrite Hbox. cbn [bind]. rewrite Hsize. cbn.
    split; [reflexivity|]. now rewrite app_nil_r.
  - cbn [track_loop]. unfold track_step. cbn [current_lat current_lon].
    rewrite Hbox. cbn [bind].
    destruct (Nat.eqb_spec (size box) 0) as [E|_]; [contradiction|].
    rewrite Hloc. cbn [bind track_data].
    destruct (IH (acc ++ [{| tp_time := time t; tp_latitude := lat;
                             tp_longitude := lon; tp_min_pressure := p |}]))
      as (st' & Hl & Hd).
    exists st'. split; [exact Hl|]. rewrite Hd, <- app_assoc. reflexivity.
Qed.

Lemma track_typhoon_walk (ds : Dataset) (start_lat start_lon r : Q)
    (pts : list TrackPoint) :
  track_typhoon ds start_lat start_lon r = Ok pts <->
  Walk ds r (start_lat, start_lon) (slabs ds) pts.
Proof.
  unfold track_typhoon. split.
  - intros H.
    destruct (track_loop ds r _ (slabs ds)) as [st'|] eqn:E; cbn [bind] in H;
      [|discriminate].
    injection H as <-. apply track_loop_walk in E.
    destruct E as (pts & Hw & Hd). cbn in Hw, Hd. rewrite Hd. exact Hw.
  - intros Hw. destruct (walk_track_loop ds r _ _ _ Hw []) as (st' & Hl & Hd).
    cbn [fst snd] in Hl. rewrite Hl. cbn [bind]. rewrite Hd. reflexivity.
Qed.

End TrackFacts.

(** ** Storage order of the axes *)

Module Orientation.
Import Xarray Track Window Example XarrayFacts BoxFacts.

Lemma nth_error_rev_some {A : Type} (l : list A) (i : nat) (x : A) :
  nth_error (rev l) i = Some x <->
  (i < List.length l)%nat /\ nth_error l (List.length l - S i) = Some x.
Proof.
  rewrite nth_error_rev.
  destruct (Nat.ltb_spec i (List.length l)); split.
  - intros E. split; assumption.
  - intros [_ E]. exact E.
  - discriminate.
  - intros [L _]. lia.
Qed.

Lemma rev_increasing (l : list Q) :
  is_monotonic_increasing l = true -> is_monotonic_decreasing (rev l) = true.
Proof.
  intros H. apply decreasing_nth. intros i j x y Hij Hi Hj.
  apply nth_error_rev_some in Hi; apply nth_error_rev_some in Hj.
  destruct Hi as [Li Hi], Hj as [Lj Hj].
  apply (proj1 (increasing_nth l) H (List.length l - S j)%nat (List.length l - S i)%nat y x);
    [lia|assumption|assumption].
Qed.

Lemma rev_decreasing (l : list Q) :
  is_monotonic_decreasing l = true -> is_monotonic_increasing (rev l) = true.
Proof.
  intros H. apply increasing_nth. intros i j x y Hij Hi Hj.
  apply nth_error_rev_some in Hi; apply nth_error_rev_some in Hj.
  destruct Hi as [Li Hi], Hj as [Lj Hj].
  apply (proj1 (decreasing_nth l) H (List.length l - S j)%nat (List.length l - S i)%nat y x);
    [lia|assumption|assumption].
Qed.

Lemma ordered_rev_true (l : list Q) : ordered l = true -> ordered (rev l) = true.
Proof.
  unfold ordered. intros H. apply orb_true_iff in H. apply orb_true_iff.
  destruct H as [H|H]; [right; apply rev_increasing|left; apply rev_decreasing];
    exact H.
Qed.

Lemma ordered_rev (l : list Q) : ordered (rev l) = ordered l.
Proof.
  destruct (ordered l) eqn:E.
  - apply ordered_rev_true, E.
  - destruct (ordered (rev l)) eqn:E'; [|reflexivity].
    apply ordered_rev_true in E'. rewrite rev_involutive in E'. congruence.
Qed.

Lemma increasing_ends (l : list Q) (first last : Q) :
  is_monotonic_increasing l = true ->
  nth_error l 0 = Some first ->
  nth_error l (List.length l - 1) = Some last ->
  first <= last.
Proof.
  intros H H0 H1.
  apply (proj1 (increasing_nth l) H 0%nat (List.length l - 1)%nat); [lia| |]; assumption.
Qed.

Lemma decreasing_ends (l : list Q) (first last : Q) :
  is_monotonic_decreasing l = true ->
  nth_error l 0 = Some first ->
  nth_error l (List.length l - 1) = Some last ->
  last <= first.
Proof.
  intros H H0 H1.
  apply (proj1 (decreasing_nth l) H 0%nat (List.length l - 1)%nat); [lia| |]; assumption.
Qed.

(** An ordered axis whose two ends carry the same label is constant, hence
    increasing for pandas. *)
Lemma level_axis_increasing (l : list Q) (first last : Q) :
  ordered l = true ->
  nth_error l 0 = Some first ->
  nth_error l (List.length l - 1) = Some last ->
  first <= last ->
  last <= first ->
  is_monotonic_increasing l = true.
Proof.
  unfold ordered. intros H H0 H1 Hfl Hlf. apply orb_true_iff in H.
  destruct H as [H|H]; [exact H|].
  apply increasing_nth. intros i j x y Hij Hi Hj.
  assert (Lj : (j < List.length l)%nat) by (apply nth_error_Some; congruence).
  pose proof (proj1 (decreasing_nth l) H 0%nat i first x ltac:(lia) H0 Hi).
  pose proof (proj1 (decreasing_nth l) H j (List.length l - 1)%nat y last
                ltac:(lia) Hj H1).
  lra.
Qed.

(** The labels that the latitude slice of the code selects, on an ordered
    axis: those between the least and the greatest bound when the two ends of
    the axis differ; on an axis with equal ends, the slice is issued from the
    greatest bound to the least. *)
Lemma latitude_range (ds : Dataset) (lo hi a b first last x : Q) :
  ordered (latitude ds) = true ->
  nth_error (latitude ds) 0 = Some first ->
  nth_error (latitude ds) (List.length (latitude ds) - 1) = Some last ->
  latitude_slice ds lo hi = Ok (a, b) ->
  selected (latitude ds) a b x <->
  (if (first <? last) || (last <? first)
   then py_min lo hi <= x /\ x <= py_max lo hi
   else py_max lo hi <= x /\ x <= py_min lo hi).
Proof.
  intros Hord H0 H1 Hs. unfold latitude_slice in Hs.
  rewrite (proj2 (lookup_ok _ _ _) H0), (proj2 (lookup_ok _ _ _) H1) in Hs.
  cbn [bind] in Hs. unfold selected.
  destruct (first <? last) eqn:E1; injection Hs as <- <-; cbn [orb].
  - destruct (is_monotonic_increasing (latitude ds)) eqn:Einc; [tauto|].
    unfold ordered in Hord. rewrite Einc in Hord. cbn [orb] in Hord.
    pose proof (decreasing_ends _ _ _ Hord H0 H1). Qbool. lra.
  - destruct (last <? first) eqn:E2.
    + destruct (is_monotonic_increasing (latitude ds)) eqn:Einc; [|tauto].
      pose proof (increasing_ends _ _ _ Einc H0 H1). Qbool. lra.
    + Qbool. rewrite (level_axis_increasing _ _ _ Hord H0 H1); [tauto| |]; assumption.
Qed.

Lemma slice_indexer_ordered (idx : list Q) (a b : Q) :
  ordered idx = true -> exists ij, slice_indexer idx a b = Ok ij.
Proof.
  unfold ordered, slice_indexer. intros H.
  destruct (is_monotonic_increasing idx); [eauto|].
  cbn [orb] in H. rewrite H. eauto.
Qed.

Lemma slice_indexer_unordered (idx : list Q) (a b : Q) :
  ordered idx = false -> slice_indexer idx a b = Raise KeyError.
Proof.
  unfold ordered, slice_indexer. intros H. apply orb_false_iff in H.
  destruct H as [-> ->]. reflexivity.
Qed.

Lemma last_label (x : Q) (l : list Q) :
  exists last, nth_error (x :: l) (List.length (x :: l) - 1) = Some last.
Proof.
  destruct (nth_error (x :: l) (List.length (x :: l) - 1)) eqn:E; [eauto|].
  apply nth_error_None in E. cbn in E. lia.
Qed.

(** Whether a search box is returned, and which exception is raised
    otherwise, depends on the two axes only. *)
Lemma search_box_outcome (ds : Dataset) (values : nat -> nat -> Q)
    (centre_lat centre_lon radius : Q) :
  match axes_error ds with
  | Some e => search_box ds values centre_lat centre_lon radius = Raise e
  | None => exists box, search_box ds values centre_lat centre_lon radius = Ok box
  end.
Proof.
  unfold axes_error, search_box, latitude_slice, longitude_slice.
  destruct (latitude ds) as [|x l] eqn:EL; [reflexivity|].
  destruct (last_label x l) as (last & Hlast).
  rewrite <- EL in *.
  assert (H0 : nth_error (latitude ds) 0 = Some x) by (rewrite EL; reflexivity).
  rewrite (proj2 (lookup_ok _ _ _) H0), (proj2 (lookup_ok _ _ _) Hlast).
  cbn [bind]. unfold sel. cbn [on_grid da_latitude da_longitude].
  destruct (ordered (latitude ds)) eqn:O1.
  - match goal with
    | |- context [slice_indexer (latitude ds) ?a ?b] =>
        destruct (slice_indexer_ordered (latitude ds) a b O1) as ([i0 i1] & ->)
    end.
    cbn [bind]. destruct (ordered (longitude ds)) eqn:O2; cbn [andb].
    + match goal with
      | |- context [slice_indexer (longitude ds) ?a ?b] =>
          destruct (slice_indexer_ordered (longitude ds) a b O2) as ([j0 j1] & ->)
      end.
      cbn [bind]. eauto.
    + rewrite slice_indexer_unordered by exact O2. reflexivity.
  - cbn [andb]. rewrite slice_indexer_unordered by exact O1. reflexivity.
Qed.

Lemma search_box_ok_axes (ds : Dataset) (values : nat -> nat -> Q)
    (centre_lat centre_lon radius : Q) (box : DataArray) :
  search_box ds values centre_lat centre_lon radius = Ok box ->
  axes_error ds = None.
Proof.
  intros H. pose proof (search_box_outcome ds values centre_lat centre_lon radius) as O.
  destruct (axes_error ds); [congruence|reflexivity].
Qed.

Lemma axes_ok (ds : Dataset) :
  axes_error ds = None ->
  ordered (latitude ds) = true /\ ordered (longitude ds) = true /\
  exists first last,
    nth_error (latitude ds) 0 = Some first /\
    nth_error (latitude ds) (List.length (latitude ds) - 1) = Some last.
Proof.
  unfold axes_error. destruct (latitude ds) as [|x l] eqn:EL; [discriminate|].
  destruct (ordered (x :: l) && ordered (longitude ds)) eqn:E; [|discriminate].
  apply andb_true_iff in E. intros _. destruct E as [E1 E2].
  split; [exact E1|]. split; [exact E2|].
  destruct (last_label x l) as (last & Hlast). exists x, last. split; [reflexivity|exact Hlast].
Qed.

(** The cells of a search box on ordered axes. *)
Lemma search_box_cells (ds : Dataset) (values : nat -> nat -> Q)
    (centre_lat centre_lon radius : Q) (box : DataArray) (first last : Q) :
  search_box ds values centre_lat centre_lon radius = Ok box ->
  nth_error (latitude ds) 0 = Some first ->
  nth_error (latitude ds) (List.length (latitude ds) - 1) = Some last ->
  forall lat lon v,
    cell_of box lat lon v <->
    cell_of (on_grid ds values) lat lon v /\
    (if (first <? last) || (last <? first)
     then py_min (centre_lat - radius) (centre_lat + radius) <= lat /\
          lat <= py_max (centre_lat - radius) (centre_lat + radius)
     else py_max (centre_lat - radius) (centre_lat + radius) <= lat /\
          lat <= py_min (centre_lat - radius) (centre_lat + radius)) /\
    selected (longitude ds) (centre_lon - radius) (centre_lon + radius) lon.
Proof.
  intros H H0 H1 lat lon v.
  destruct (axes_ok ds (search_box_ok_axes _ _ _ _ _ _ H)) as (O1 & _ & _).
  unfold search_box, longitude_slice in H.
  destruct (latitude_slice ds _ _) as [[a b]|] eqn:El; cbn [bind] in H; [|discriminate].
  rewrite (sel_cells _ _ _ _ _ _ H). cbn [on_grid da_latitude da_longitude].
  rewrite (latitude_range ds _ _ a b first last lat O1 H0 H1 El). tauto.
Qed.

Lemma cell_of_flip_rows (ds : Dataset) (values : nat -> nat -> Q) (lat lon v : Q) :
  cell_of (on_grid (flip_latitude ds) (flip_rows ds values)) lat lon v <->
  cell_of (on_grid ds values) lat lon v.
Proof.
  unfold cell_of, flip_rows. cbn. split.
  - intros (i & j & Hi & Hj & Hv). apply nth_error_rev_some in Hi.
    destruct Hi as [Li Hi].
    exists (List.length (latitude ds) - S i)%nat, j.
    repeat split; try assumption.
    rewrite <- Hv. f_equal. lia.
  - intros (i & j & Hi & Hj & Hv).
    assert (Li : (i < List.length (latitude ds))%nat)
      by (apply nth_error_Some; congruence).
    exists (List.length (latitude ds) - S i)%nat, j. repeat split.
    + apply nth_error_rev_some. split; [lia|].
      replace (List.length (latitude ds) - S (List.length (latitude ds) - S i))%nat
        with i by lia.
      exact Hi.
    + exact Hj.
    + rewrite <- Hv. f_equal. lia.
Qed.

Lemma axes_error_flip_latitude (ds : Dataset) :
  axes_error (flip_latitude ds) = axes_error ds.
Proof.
  unfold axes_error. cbn [flip_latitude latitude longitude].
  rewrite ordered_rev.
  destruct (latitude ds) as [|x l] eqn:EL; [reflexivity|].
  destruct (rev (x :: l)) as [|y m] eqn:ER; [|reflexivity].
  apply (f_equal (@List.length Q)) in ER. rewrite length_rev in ER. discriminate.
Qed.

(** C5 (amended).  The search box detects the storage order of the latitude
    axis: on a grid whose latitude axis is ordered, ascending or descending,
    the search box of a window and the search box of the same window on the
    same grid stored with the latitude axis the other way round hold the
    same cells (and fail alike when the longitude axis cannot be sliced). *)
Theorem C5_latitude_order_irrelevant
    (ds : Dataset) (values : nat -> nat -> Q) (centre_lat centre_lon radius : Q) :
  ordered (latitude ds) = true ->
  same_cells
    (search_box ds values centre_lat centre_lon radius)
    (search_box (flip_latitude ds) (flip_rows ds values)
       centre_lat centre_lon radius).
Proof.
  revert ds values centre_lat centre_lon radius.
  intros ds values clat clon r Hord.
  pose proof (search_box_outcome ds values clat clon r) as O1.
  pose proof (search_box_outcome (flip_latitude ds) (flip_rows ds values) clat clon r)
    as O2.
  rewrite axes_error_flip_latitude in O2.
  destruct (axes_error ds) as [e|] eqn:Eax.
  - rewrite O1, O2. reflexivity.
  - destruct O1 as (box & H1), O2 as (box' & H2). rewrite H1, H2.
    destruct (axes_ok ds Eax) as (_ & _ & first & last & F & L).
    assert (F' : nth_error (latitude (flip_latitude ds)) 0 = Some last).
    { cbn [flip_latitude latitude]. apply nth_error_rev_some. split.
      - apply nth_error_Some. congruence.
      - exact L. }
    assert (L' : nth_error (latitude (flip_latitude ds))
                   (List.length (latitude (flip_latitude ds)) - 1) = Some first).
    { cbn [flip_latitude latitude]. rewrite length_rev. apply nth_error_rev_some.
      assert ((0 < List.length (latitude ds))%nat) by (apply nth_error_Some; congruence).
      split; [lia|].
      replace (List.length (latitude ds) - S (List.length (latitude ds) - 1))%nat
        with 0%nat by lia.
      exact F. }
    cbn [same_cells]. intros lat lon v.
    rewrite (search_box_cells ds values clat clon r box first last H1 F L).
    rewrite (search_box_cells _ _ clat clon r box' last first H2 F' L').
    rewrite cell_of_flip_rows. cbn [flip_latitude longitude].
    rewrite (orb_comm (last <? first)). tauto.
Qed.

Lemma C5_latitude_order_irrelevant_witness :
  ordered (latitude ascending) = true /\
  same_cells
    (search_box ascending (mean_sea_level_pressure slab0) 11 101 1)
    (search_box (flip_latitude ascending)
       (flip_rows ascending (mean_sea_level_pressure slab0)) 11 101 1).
Proof.
  assert (H : ordered (latitude ascending) = true) by reflexivity.
  split; [exact H|].
  exact (C5_latitude_order_irrelevant ascending (mean_sea_level_pressure slab0)
           11 101 1 H).
Defined.

(** C5 (as stated, refuted).  The longitude slice is issued as
    [slice(lon_min, lon_max)] whatever the order of the axis.  On the example
    grid, the window of radius 1 around (11, 101) selects the three
    longitudes; on the same grid stored with descending longitudes it selects
    none. *)
Lemma C5_descending_longitude_counterexample :
  ordered (longitude ascending) = true /\
  labels (search_box ascending (mean_sea_level_pressure slab0) 11 101 1)
    = Ok ([10; 11; 12], [100; 101; 102]) /\
  labels (search_box (flip_longitude ascending)
            (flip_columns ascending (mean_sea_level_pressure slab0)) 11 101 1)
    = Ok ([10; 11; 12], []) /\
  ~ (latitude_order_irrelevant /\ longitude_order_irrelevant).
Proof.
  split; [reflexivity|]. split; [reflexivity|]. split; [reflexivity|].
  intros [_ H].
  specialize (H ascending (mean_sea_level_pressure slab0) 11 101 1 eq_refl).
  destruct (search_box ascending (mean_sea_level_pressure slab0) 11 101 1)
    as [box|] eqn:E1; [|discriminate].
  destruct (search_box (flip_longitude ascending)
              (flip_columns ascending (mean_sea_level_pressure slab0)) 11 101 1)
    as [box'|] eqn:E2; [|discriminate].
  cbn [same_cells] in H.
  vm_compute in E1. injection E1 as <-.
  vm_compute in E2. injection E2 as <-.
  assert (C : cell_of
                {| da_latitude := [10; 11; 12]; da_longitude := [];
                   da_values := fun i j : nat =>
                     flip_columns ascending (mean_sea_level_pressure slab0)
                       (0 + i)%nat (3 + j)%nat |} 11 101 1).
  { apply H. exists 1%nat, 1%nat. repeat split. }
  destruct C as (i & j & _ & Hj & _). destruct j; discriminate.
Qed.

End Orientation.

(** ** Properties of [track_typhoon] *)

Module TrackSpec.
Import Xarray Track Window Trace Example.
Import XarrayFacts BoxFacts ReduceFacts TrackFacts Orientation.

Lemma centre_at_cons (c p : Q * Q) (l : list (Q * Q)) (n : nat) :
  centre_at c (p :: l) (S n) = centre_at p l n.
Proof. destruct n; reflexivity. Qed.

Lemma walk_truncate (ds : Dataset) (n : nat) (r : Q) (c : Q * Q)
    (times : list Slab) (pts : list TrackPoint) :
  Walk (truncate ds n) r c times pts <-> Walk ds r c times pts.
Proof.
  split; induction 1 as [c|c t rest box Hbox Hsize
                        |c t rest box lat lon p pts Hbox Hsize Hloc Hw IH].
  - constructor.
  - apply (walk_break ds r c t rest box); [exact Hbox|exact Hsize].
  - apply (walk_step ds r c t rest box lat lon p pts); [exact Hbox| | |]; assumption.
  - constructor.
  - apply (walk_break (truncate ds n) r c t rest box); [exact Hbox|exact Hsize].
  - apply (walk_step (truncate ds n) r c t rest box lat lon p pts);
      [exact Hbox| | |]; assumption.
Qed.

(** A run that did not stop on its time labels goes on with the labels that
    follow, and stops there if their first search box is empty. *)
Lemma walk_stops_after (ds : Dataset) (r : Q) (c : Q * Q)
    (before : list Slab) (pts : list TrackPoint) :
  Walk ds r c before pts ->
  List.length pts = List.length before ->
  forall t after c' box,
    centre_at c (map position pts) (List.length before) = Some c' ->
    search_box ds (mean_sea_level_pressure t) (fst c') (snd c') r = Ok box ->
    size box = 0%nat ->
    Walk ds r c (before ++ t :: after) pts.
Proof.
  induction 1 as [c|c t0 rest box0 Hbox Hsize
                 |c t0 rest box0 lat lon p pts Hbox Hsize Hloc Hw IH];
    intros Hlen t after c' box Hc Hb Hs.
  - cbn in Hc. injection Hc as <-. cbn. eapply walk_break; eassumption.
  - discriminate.
  - cbn [app]. eapply walk_step; try eassumption.
    cbn [List.length] in Hlen. injection Hlen as Hlen.
    apply (IH Hlen t after c' box); try assumption.
    cbn [map List.length] in Hc. rewrite centre_at_cons in Hc. exact Hc.
Qed.

(** Each recorded point is the minimum located in the search box of its own
    time label, centred on the position recorded just before. *)
Lemma walk_nth (ds : Dataset) (r : Q) (c : Q * Q)
    (times : list Slab) (pts : list TrackPoint) :
  Walk ds r c times pts ->
  forall i pt, nth_error pts i = Some pt ->
    exists t ci box,
      nth_error times i = Some t /\
      centre_at c (map position pts) i = Some ci /\
      search_box ds (mean_sea_level_pressure t) (fst ci) (snd ci) r = Ok box /\
      size box <> 0%nat /\
      locate_minimum box = Ok (tp_latitude pt, tp_longitude pt, tp_min_pressure pt) /\
      tp_time pt = time t.
Proof.
  induction 1 as [c|c t0 rest box0 Hbox Hsize
                 |c t0 rest box0 lat lon p pts Hbox Hsize Hloc Hw IH];
    intros i pt Hi.
  - destruct i; discriminate.
  - destruct i; discriminate.
  - destruct i as [|i]; cbn in Hi.
    + injection Hi as <-. exists t0, c, box0. cbn. repeat split; assumption.
    + destruct (IH i pt Hi) as (t & ci & box & Ht & Hc & Hb & Hs & Hl & Htime).
      exists t, ci, box. cbn [map]. rewrite centre_at_cons.
      repeat split; assumption.
Qed.

Lemma search_box_on_grid (ds : Dataset) (values : nat -> nat -> Q)
    (centre_lat centre_lon radius : Q) (box : DataArray) (lat lon v : Q) :
  search_box ds values centre_lat centre_lon radius = Ok box ->
  cell_of box lat lon v -> cell_of (on_grid ds values) lat lon v.
Proof.
  unfold search_box, longitude_slice. intros H Hc.
  destruct (latitude_slice ds _ _) as [[a b]|]; cbn [bind] in H; [|discriminate].
  apply (sel_cells _ _ _ _ _ _ H) in Hc. apply Hc.
Qed.

(** A recorded position lies in the next search box: the box is cut with the
    same radius, around a cell that the previous box held. *)
Lemma centre_in_next_box (ds : Dataset) (f g : nat -> nat -> Q)
    (c1 c2 r lat lon v : Q) (box box' : DataArray) :
  search_box ds f c1 c2 r = Ok box ->
  cell_of box lat lon v ->
  search_box ds g lat lon r = Ok box' ->
  exists v', cell_of box' lat lon v'.
Proof.
  intros H Hc H'.
  destruct (axes_ok ds (search_box_ok_axes _ _ _ _ _ _ H))
    as (_ & _ & first & last & F & L).
  apply (search_box_cells ds f c1 c2 r box first last H F L) in Hc.
  destruct Hc as ((i & j & Hi & Hj & _) & Hlat & Hlon).
  exists (g i j).
  apply (search_box_cells ds g lat lon r box' first last H' F L).
  split; [exists i, j; auto|].
  split.
  - destruct (py_min_cases (c1 - r) (c1 + r)) as [[? ?]|[? ?]],
             (py_max_cases (c1 - r) (c1 + r)) as [[? ?]|[? ?]],
             (py_min_cases (lat - r) (lat + r)) as [[? ?]|[? ?]],
             (py_max_cases (lat - r) (lat + r)) as [[? ?]|[? ?]];
      destruct ((first <? last) || (last <? first)); lra.
  - unfold selected in *.
    destruct (is_monotonic_increasing (longitude ds)); lra.
Qed.

(** Once one step has found a centre, no later search box is empty: a run
    records no point at all, or one point for every time label. *)
Lemma walk_all_or_nothing (ds : Dataset) (r : Q) (c : Q * Q)
    (times : list Slab) (pts : list TrackPoint) :
  Walk ds r c times pts ->
  pts = [] \/ List.length pts = List.length times.
Proof.
  induction 1 as [c|c t rest box Hbox Hsize
                 |c t rest box lat lon p pts Hbox Hsize Hloc Hw IH].
  - left. reflexivity.
  - left. reflexivity.
  - right. cbn [List.length]. f_equal.
    destruct IH as [->|IH]; [|exact IH].
    inversion Hw as [c0|c0 t' rest' box' Hbox' Hsize'|]; subst; [reflexivity|].
    exfalso. cbn [fst snd] in Hbox'.
    destruct (located_centre box _ _ _ Hsize Hloc) as (v & Hcell).
    destruct (centre_in_next_box ds _ (mean_sea_level_pressure t') _ _ _ _ _ _ _ _
                Hbox Hcell Hbox') as (v' & Hcell').
    destruct (cell_position _ _ _ _ Hcell') as (q & Hq & _).
    apply (in_positions_nonempty_box _ _ Hq). exact Hsize'.
Qed.

Lemma track_all_or_nothing (ds : Dataset) (start_lat start_lon r : Q)
    (pts : list TrackPoint) :
  track_typhoon ds start_lat start_lon r = Ok pts ->
  pts = [] \/ List.length pts = List.length (slabs ds).
Proof.
  intros H. apply track_typhoon_walk in H.
  apply (walk_all_or_nothing _ _ _ _ _ H).
Qed.

Lemma located_cell (box : DataArray) (lat lon p : Q) :
  size box <> 0%nat ->
  locate_minimum box = Ok (lat, lon, p) ->
  exists idx,
    In idx (positions box) /\
    argmin box = Ok idx /\
    min box = Ok p /\
    nth_error (da_latitude box) (fst idx) = Some lat /\
    nth_error (da_longitude box) (snd idx) = Some lon /\
    value_at box idx = p /\
    (forall q, In q (positions box) -> p <= value_at box q).
Proof.
  intros Hne Hloc.
  destruct (locate_minimum_spec box Hne)
    as (idx & lat' & lon' & Hin & Harg & Hmin & Hlat & Hlon & Hloc' & Hle).
  rewrite Hloc in Hloc'. injection Hloc' as -> -> ->.
  exists idx. repeat split; assumption.
Qed.

(** C4.  With a non-negative radius, the point recorded at step [i] (counted
    from 0) is determined by the position recorded at step [i - 1], or by
    the seed at step 0, and by the pressure field of the time label of step
    [i] alone: its search box is centred on that position, holds exactly the
    cells of the grid in the square of half-width [r] around it, and the
    point is the minimum that [locate_minimum] finds in this box, a cell of
    least pressure there. *)
Theorem C4_first_order_recurrence
    (ds : Dataset) (start_lat start_lon r : Q)
    (pts : list TrackPoint) (i : nat) (pt : TrackPoint) :
  0 <= r ->
  track_typhoon ds start_lat start_lon r = Ok pts ->
  nth_error pts i = Some pt ->
  exists t c box,
    nth_error (slabs ds) i = Some t /\
    centre_at (start_lat, start_lon) (map position pts) i = Some c /\
    search_box ds (mean_sea_level_pressure t) (fst c) (snd c) r = Ok box /\
    (forall lat lon v,
       cell_of box lat lon v <->
       cell_of (on_grid ds (mean_sea_level_pressure t)) lat lon v /\
       in_window (fst c) (snd c) r lat lon) /\
    tp_time pt = time t /\
    locate_minimum box
      = Ok (tp_latitude pt, tp_longitude pt, tp_min_pressure pt) /\
    cell_of box (tp_latitude pt) (tp_longitude pt) (tp_min_pressure pt) /\
    (forall lat lon v, cell_of box lat lon v -> tp_min_pressure pt <= v).
Proof.
  intros Hr Hrun Hi. apply track_typhoon_walk in Hrun.
  destruct (walk_nth _ _ _ _ _ Hrun i pt Hi)
    as (t & c & box & Ht & Hc & Hbox & Hne & Hloc & Htime).
  destruct (located_cell box _ _ _ Hne Hloc)
    as (idx & Hin & _ & _ & Hlat & Hlon & Hval & Hle).
  exists t, c, box.
  split; [exact Ht|]. split; [exact Hc|]. split; [exact Hbox|].
  split; [exact (search_box_window _ _ _ _ _ _ Hbox Hr Hne)|].
  split; [exact Htime|]. split; [exact Hloc|]. split.
  - rewrite <- Hval. apply cell_at_position; assumption.
  - intros lat lon v Hcell.
    destruct (cell_position _ _ _ _ Hcell) as (q & Hq & <-). apply Hle, Hq.
Qed.

(** C10.  The minimum pressure of a recorded point is the pressure stored in
    the grid, at the time label of the point, at a position that carries the
    recorded latitude and longitude: [argmin] and [min()] of the search box
    refer to the same cell. *)
Theorem C10_pressure_at_recorded_cell
    (ds : Dataset) (start_lat start_lon r : Q)
    (pts : list TrackPoint) (i : nat) (pt : TrackPoint) :
  track_typhoon ds start_lat start_lon r = Ok pts ->
  nth_error pts i = Some pt ->
  exists t c box idx,
    nth_error (slabs ds) i = Some t /\
    tp_time pt = time t /\
    search_box ds (mean_sea_level_pressure t) (fst c) (snd c) r = Ok box /\
    argmin box = Ok idx /\
    min box = Ok (tp_min_pressure pt) /\
    nth_error (da_latitude box) (fst idx) = Some (tp_latitude pt) /\
    nth_error (da_longitude box) (snd idx) = Some (tp_longitude pt) /\
    value_at box idx = tp_min_pressure pt /\
    cell_of (on_grid ds (mean_sea_level_pressure t))
      (tp_latitude pt) (tp_longitude pt) (tp_min_pressure pt).
Proof.
  intros Hrun Hi. apply track_typhoon_walk in Hrun.
  destruct (walk_nth _ _ _ _ _ Hrun i pt Hi)
    as (t & c & box & Ht & Hc & Hbox & Hne & Hloc & Htime).
  destruct (located_cell box _ _ _ Hne Hloc)
    as (idx & Hin & Harg & Hmin & Hlat & Hlon & Hval & Hle).
  exists t, c, box, idx. repeat split; try assumption.
  apply (search_box_on_grid _ _ _ _ _ _ _ _ _ Hbox).
  rewrite <- Hval. apply cell_at_position; assumption.
Qed.



Lemma C4_first_order_recurrence_witness :
  (0 <= 1 /\
   track_typhoon ascending 11 101 1 = Ok [point0; point1] /\
   nth_error [point0; point1] 1 = Some point1) /\
  exists t c box,
    nth_error (slabs ascending) 1 = Some t /\
    centre_at (11, 101) (map position [point0; point1]) 1 = Some c /\
    search_box ascending (mean_sea_level_pressure t) (fst c) (snd c) 1 = Ok box /\
    (forall lat lon v,
       cell_of box lat lon v <->
       cell_of (on_grid ascending (mean_sea_level_pressure t)) lat lon v /\
       in_window (fst c) (snd c) 1 lat lon) /\
    tp_time point1 = time t /\
    locate_minimum box
      = Ok (tp_latitude point1, tp_longitude point1, tp_min_pressure point1) /\
    cell_of box (tp_latitude point1) (tp_longitude point1) (tp_min_pressure point1) /\
    (forall lat lon v, cell_of box lat lon v -> tp_min_pressure point1 <= v).
Proof.
  assert (H1 : 0 <= 1) by (unfold Qle; simpl; lia).
  assert (H2 : track_typhoon ascending 11 101 1 = Ok [point0; point1])
    by (vm_compute; reflexivity).
  assert (H3 : nth_error [point0; point1] 1 = Some point1) by reflexivity.
  split; [repeat split; assumption|].
  exact (C4_first_order_recurrence ascending 11 101 1 [point0; point1] 1 point1
           H1 H2 H3).
Defined.

Lemma C10_pressure_at_recorded_cell_witness :
  (track_typhoon ascending 11 101 1 = Ok [point0; point1] /\
   nth_error [point0; point1] 1 = Some point1) /\
  exists t c box idx,
    nth_error (slabs ascending) 1 = Some t /\
    tp_time point1 = time t /\
    search_box ascending (mean_sea_level_pressure t) (fst c) (snd c) 1 = Ok box /\
    argmin box = Ok idx /\
    min box = Ok (tp_min_pressure point1) /\
    nth_error (da_latitude box) (fst idx) = Some (tp_latitude point1) /\
    nth_error (da_longitude box) (snd idx) = Some (tp_longitude point1) /\
    value_at box idx = tp_min_pressure point1 /\
    cell_of (on_grid ascending (mean_sea_level_pressure t))
      (tp_latitude point1) (tp_longitude point1) (tp_min_pressure point1).
Proof.
  assert (H1 : track_typhoon ascending 11 101 1 = Ok [point0; point1])
    by (vm_compute; reflexivity).
  assert (H2 : nth_error [point0; point1] 1 = Some point1) by reflexivity.
  split; [split; assumption|].
  exact (C10_pressure_at_recorded_cell ascending 11 101 1 [point0; point1] 1 point1
           H1 H2).
Defined.



End TrackSpec.

(** ** Label slices on any index, and on an ordered one *)

Module PandasFacts.
Import Xarray Track Window.
Import XarrayFacts.

Lemma Qeq_bool_true (x y : Q) : Qeq_bool x y = true <-> x == y.
Proof. split; [apply Qeq_bool_eq|apply Qeq_eq_bool]. Qed.

Lemma Qeq_bool_false (x y : Q) : Qeq_bool x y = false <-> ~ x == y.
Proof.
  split.
  - intros H E. apply Qeq_bool_true in E. congruence.
  - intros N. destruct (Qeq_bool x y) eqn:E; [|reflexivity].
    apply Qeq_bool_true in E. contradiction.
Qed.

(** The first occurrence of a label: it is there, and nowhere before. *)
Lemma first_position_spec (label : Q) (idx : list Q) :
  match Pandas.first_position label idx with
  | Some p =>
      (exists x, nth_error idx p = Some x /\ Qeq_bool x label = true) /\
      (forall k y, (k < p)%nat -> nth_error idx k = Some y ->
                   Qeq_bool y label = false)
  | None => forall y, In y idx -> Qeq_bool y label = false
  end.
Proof.
  induction idx as [|a l IH]; cbn [Pandas.first_position].
  - intros y [].
  - destruct (Qeq_bool a label) eqn:Ea.
    + split; [exists a; split; [reflexivity|exact Ea]|]. intros k y Hk. lia.
    + destruct (Pandas.first_position label l) as [p|]; cbn [option_map].
      * destruct IH as [(x & Hx & Ex) Hbefore]. split; [exists x; auto|].
        intros [|k] y Hk Hy; cbn in Hy.
        -- injection Hy as <-. exact Ea.
        -- apply (Hbefore k y); [lia|exact Hy].
      * intros y [<-|Hy]; [exact Ea|apply IH, Hy].
Qed.

Lemma count_split (p1 p2 e : Q -> bool) (l : list Q) :
  (forall x, p2 x = p1 x || e x) ->
  (forall x, p1 x = true -> e x = false) ->
  count p2 l = (count p1 l + count e l)%nat.
Proof.
  intros Hsplit Hstrict. unfold count.
  induction l as [|a l IH]; [reflexivity|].
  cbn [filter]. rewrite (Hsplit a).
  destruct (p1 a) eqn:E1.
  - rewrite (Hstrict a E1). cbn [orb List.length]. lia.
  - destruct (e a); cbn [orb List.length]; lia.
Qed.

Section SortedIndex.

(** [R] is the order of the index, [before] holds of the labels that come
    strictly before [label] in that order, [upto] of those that come before
    it or equal it. *)
Variable R : Q -> Q -> Prop.
Variable label : Q.
Variables before upto : Q -> bool.

Hypothesis before_front :
  forall x y, R x y -> before y = true -> before x = true.
Hypothesis upto_front :
  forall x y, R x y -> upto y = true -> upto x = true.
Hypothesis upto_split :
  forall x, upto x = before x || Qeq_bool x label.
Hypothesis before_strict :
  forall x, before x = true -> Qeq_bool x label = false.

(** On a sorted index the occurrences of a label are the positions from
    [count before] to [count upto]: [get_loc] never finds them scattered. *)
Lemma get_loc_sorted (idx : list Q) :
  StronglySorted R idx ->
  Pandas.get_loc idx label = Pandas.Missing \/
  Pandas.get_loc idx label = Pandas.Run (count before idx) (count upto idx).
Proof.
  intros Hs. unfold Pandas.get_loc.
  pose proof (first_position_spec label idx) as F.
  destruct (Pandas.first_position label idx) as [p|]; [right|left; reflexivity].
  destruct F as [(x & Hx & Ex) Hbefore].
  pose proof (count_prefix R before idx Hs before_front) as P1.
  pose proof (count_prefix R upto idx Hs upto_front) as P2.
  pose proof (count_split before upto (fun x => Qeq_bool x label) idx
                upto_split before_strict) as Hcount.
  assert (Hp : p = count before idx).
  { assert (L1 : (count before idx <= p)%nat).
    { destruct (Nat.le_gt_cases (count before idx) p) as [L|L]; [exact L|].
      apply (P1 p x Hx) in L. rewrite (before_strict x L) in Ex. discriminate. }
    destruct (Nat.eq_dec p (count before idx)) as [E|N]; [exact E|exfalso].
    assert (Hlt : (count before idx < p)%nat) by lia.
    assert (Hlen : (p < List.length idx)%nat).
    { apply nth_error_Some. rewrite Hx. discriminate. }
    destruct (nth_error idx (count before idx)) as [y|] eqn:Hy.
    - assert (B : before y = false).
      { destruct (before y) eqn:E; [|reflexivity].
        apply (P1 _ y Hy) in E. lia. }
      assert (U : upto y = true).
      { apply (P2 _ y Hy). apply Nat.lt_trans with p; [exact Hlt|].
        apply (P2 p x Hx). rewrite upto_split, Ex. apply orb_true_r. }
      rewrite upto_split, B in U. cbn [orb] in U.
      rewrite (Hbefore _ y Hlt Hy) in U. discriminate.
    - apply nth_error_None in Hy. lia. }
  assert (Hall : forallb (fun x => Qeq_bool x label)
                   (islice idx p (p + count (fun x => Qeq_bool x label) idx))
                 = true).
  { apply forallb_forall. intros z Hz.
    destruct (In_nth_error _ _ Hz) as (k & Hk).
    apply nth_error_islice in Hk. destruct Hk as [Lk Hk].
    assert (B : before z = false).
    { destruct (before z) eqn:E; [|reflexivity].
      apply (P1 _ z Hk) in E. lia. }
    assert (U : upto z = true) by (apply (P2 _ z Hk); lia).
    rewrite upto_split, B in U. exact U. }
  rewrite Hall. rewrite Hcount, <- Hp. reflexivity.
Qed.

End SortedIndex.

(** On an increasing index the two bounds of a slice are those of
    [searchsorted], whether the label is in the index or not. *)
Lemma get_slice_bound_increasing (idx : list Q) (label : Q) (side : Pandas.Side) :
  is_monotonic_increasing idx = true ->
  Pandas.get_slice_bound idx label side
  = Ok (match side with
        | Pandas.Left => count (fun x => x <? label) idx
        | Pandas.Right => count (fun x => x <=? label) idx
        end).
Proof.
  intros Hinc. unfold Pandas.get_slice_bound.
  destruct (get_loc_sorted Qle label (fun x => x <? label) (fun x => x <=? label))
    with (idx := idx) as [-> | ->].
  - intros x y Hxy Hy. Qbool. apply Qltb_lt. lra.
  - intros x y Hxy Hy. Qbool. apply Qleb_le. lra.
  - intros x. destruct (x <? label) eqn:E1, (Qeq_bool x label) eqn:E2; cbn [orb].
    + Qbool. apply Qleb_le. lra.
    + Qbool. apply Qleb_le. lra.
    + apply Qeq_bool_true in E2. apply Qleb_le. lra.
    + apply Qeq_bool_false in E2. Qbool. apply Qleb_gt.
      destruct (Qlt_le_dec label x) as [L|L]; [exact L|].
      exfalso. apply E2. lra.
  - intros x Hx. Qbool. apply Qeq_bool_false. lra.
  - apply increasing_sorted, Hinc.
  - unfold Pandas.searchsorted_monotonic. rewrite Hinc. reflexivity.
  - reflexivity.
Qed.

Lemma get_slice_bound_decreasing (idx : list Q) (label : Q) (side : Pandas.Side) :
  is_monotonic_increasing idx = false ->
  is_monotonic_decreasing idx = true ->
  Pandas.get_slice_bound idx label side
  = Ok (match side with
        | Pandas.Left => count (fun x => label <? x) idx
        | Pandas.Right => count (fun x => label <=? x) idx
        end).
Proof.
  intros Hinc Hdec. unfold Pandas.get_slice_bound.
  destruct (get_loc_sorted (fun x y => y <= x) label
              (fun x => label <? x) (fun x => label <=? x))
    with (idx := idx) as [-> | ->].
  - intros x y Hxy Hy. Qbool. apply Qltb_lt. lra.
  - intros x y Hxy Hy. Qbool. apply Qleb_le. lra.
  - intros x. destruct (label <? x) eqn:E1, (Qeq_bool x label) eqn:E2; cbn [orb].
    + Qbool. apply Qleb_le. lra.
    + Qbool. apply Qleb_le. lra.
    + apply Qeq_bool_true in E2. apply Qleb_le. lra.
    + apply Qeq_bool_false in E2. Qbool. apply Qleb_gt.
      destruct (Qlt_le_dec x label) as [L|L]; [exact L|].
      exfalso. apply E2. lra.
  - intros x Hx. Qbool. apply Qeq_bool_false. lra.
  - apply decreasing_sorted, Hdec.
  - unfold Pandas.searchsorted_monotonic. rewrite Hinc, Hdec. reflexivity.
  - reflexivity.
Qed.

(** On an ordered index, the slice of pandas is the slice of the grid
    model. *)
Lemma slice_indexer_ordered_index (idx : list Q) (start stop : Q) :
  ordered idx = true ->
  Pandas.slice_indexer idx start stop = Xarray.slice_indexer idx start stop.
Proof.
  unfold ordered, Pandas.slice_indexer, Xarray.slice_indexer. intros H.
  destruct (is_monotonic_increasing idx) eqn:Hinc.
  - rewrite !get_slice_bound_increasing by exact Hinc. reflexivity.
  - cbn [orb] in H. rewrite H.
    rewrite !get_slice_bound_decreasing by assumption. reflexivity.
Qed.

Lemma sel_ordered_axes (da : DataArray) (lat_slice lon_slice : Q * Q) :
  ordered (da_latitude da) = true ->
  ordered (da_longitude da) = true ->
  Pandas.sel da lat_slice lon_slice = Xarray.sel da lat_slice lon_slice.
Proof.
  intros Hlat Hlon. unfold Pandas.sel, Xarray.sel.
  rewrite (slice_indexer_ordered_index _ _ _ Hlat).
  destruct (Xarray.slice_indexer (da_latitude da) _ _) as [[i0 i1]|];
    cbn [bind]; [|reflexivity].
  rewrite (slice_indexer_ordered_index _ _ _ Hlon). reflexivity.
Qed.

Section OrderedAxes.

Variable ds : Dataset.
Hypothesis latitude_ordered : ordered (latitude ds) = true.
Hypothesis longitude_ordered : ordered (longitude ds) = true.

Lemma search_box_ordered_axes (values : nat -> nat -> Q)
    (centre_lat centre_lon radius : Q) :
  AnyOrder.search_box ds values centre_lat centre_lon radius
  = Track.search_box ds values centre_lat centre_lon radius.
Proof.
  unfold AnyOrder.search_box, Track.search_box.
  destruct (latitude_slice ds _ _) as [lat_slice|]; cbn [bind]; [|reflexivity].
  apply sel_ordered_axes; assumption.
Qed.

Lemma track_loop_ordered_axes (r : Q) (times : list Slab) :
  forall st, AnyOrder.track_loop ds r st times = Track.track_loop ds r st times.
Proof.
  induction times as [|t rest IH]; intros st; [reflexivity|].
  cbn [AnyOrder.track_loop Track.track_loop].
  unfold AnyOrder.track_step, Track.track_step.
  rewrite search_box_ordered_axes.
  destruct (Track.search_box ds _ _ _ _) as [box|]; cbn [bind]; [|reflexivity].
  destruct (Nat.eqb (size box) 0); cbn [bind]; [reflexivity|].
  destruct (locate_minimum box) as [[[lat lon] p]|]; cbn [bind]; [|reflexivity].
  apply IH.
Qed.

(** On a dataset whose axes are ordered, the tracker on any axes is the
    tracker of the grid model. *)
Lemma track_typhoon_ordered_axes (start_lat start_lon r : Q) :
  AnyOrder.track_typhoon ds start_lat start_lon r
  = Track.track_typhoon ds start_lat start_lon r.
Proof.
  unfold AnyOrder.track_typhoon, Track.track_typhoon.
  rewrite track_loop_ordered_axes. reflexivity.
Qed.

End OrderedAxes.

End PandasFacts.

(** ** The first empty search box *)

Module AnyOrderSpec.
Import Xarray Track Window Trace Example Scrambled.
Import TrackSpec.






End AnyOrderSpec.

(** ** Properties of [calculate_intensity] *)

Module EstimateSpec.
Import Xarray Track Intensity Estimate Window Trace Projection Example.
Import XarrayFacts BoxFacts ReduceFacts TrackFacts Orientation.

Section WithSqrt.

Variable np_sqrt : Q -> Q.

Lemma fold_max_spec (da : DataArray) (ps : list (nat * nat)) (best : nat * nat) :
  exists q,
    In q (best :: ps) /\
    fold_left (fun acc v => if acc <? v then v else acc)
              (map (value_at da) ps) (value_at da best) = value_at da q /\
    (forall q', In q' (best :: ps) -> value_at da q' <= value_at da q).
Proof.
  revert best. induction ps as [|p ps IH]; intros best.
  - exists best. cbn. split; [auto|]. split; [reflexivity|].
    intros q' [<-|[]]. lra.
  - cbn [map fold_left].
    destruct (value_at da best <? value_at da p) eqn:E.
    + destruct (IH p) as (q & Hq & Hf & Hle). exists q.
      split; [destruct Hq as [<-|Hq]; [right; left; reflexivity|right; right; exact Hq]|].
      split; [exact Hf|].
      intros q' [<-|Hq'].
      * apply (Qle_trans _ (value_at da p)); [Qbool; lra|apply Hle; left; reflexivity].
      * apply Hle. exact Hq'.
    + destruct (IH best) as (q & Hq & Hf & Hle). exists q.
      split; [destruct Hq as [<-|Hq]; [left; reflexivity|right; right; exact Hq]|].
      split; [exact Hf|].
      intros q' [<-|[<-|Hq']].
      * apply Hle. left. reflexivity.
      * apply (Qle_trans _ (value_at da best)); [Qbool; lra|apply Hle; left; reflexivity].
      * apply Hle. right. exact Hq'.
Qed.

(** [max()] of a box that is not empty: the value at one of its positions,
    and no position holds more. *)
Lemma max_spec (box : DataArray) :
  size box <> 0%nat ->
  exists q,
    In q (positions box) /\
    max box = Ok (value_at box q) /\
    (forall q', In q' (positions box) -> value_at box q' <= value_at box q).
Proof.
  intros Hne. destruct (positions_nonempty box Hne) as (p & ps & Eps).
  destruct (fold_max_spec box ps p) as (q & Hq & Hf & Hle).
  exists q. unfold max, reduce. rewrite Eps. cbn [map]. rewrite Hf.
  repeat split; assumption.
Qed.

(** A cell found with a positive radius lies in every box of non-negative
    radius centred on it: the orientation that let it be found is the one
    under which the second box is cut. *)
Lemma centre_in_own_box (ds : Dataset) (f g : nat -> nat -> Q)
    (c1 c2 R lat lon v r : Q) (box box' : DataArray) :
  search_box ds f c1 c2 R = Ok box -> 0 < R ->
  cell_of box lat lon v -> 0 <= r ->
  search_box ds g lat lon r = Ok box' ->
  exists v', cell_of box' lat lon v'.
Proof.
  intros H HR Hc Hr H'.
  destruct (axes_ok ds (search_box_ok_axes _ _ _ _ _ _ H))
    as (_ & _ & first & last & F & L).
  apply (search_box_cells ds f c1 c2 R box first last H F L) in Hc.
  destruct Hc as ((i & j & Hi & Hj & _) & Hlat & Hlon).
  exists (g i j).
  apply (search_box_cells ds g lat lon r box' first last H' F L).
  split; [exists i, j; auto|].
  pose proof (py_min_spec (c1 - R) (c1 + R) ltac:(lra)) as M1.
  pose proof (py_max_spec (c1 - R) (c1 + R) ltac:(lra)) as M2.
  pose proof (py_min_spec (lat - r) (lat + r) ltac:(lra)) as M3.
  pose proof (py_max_spec (lat - r) (lat + r) ltac:(lra)) as M4.
  split.
  - destruct ((first <? last) || (last <? first)); [lra|exfalso; lra].
  - unfold selected in *.
    destruct (is_monotonic_increasing (longitude ds)); [lra|exfalso; lra].
Qed.

Lemma has_cell_nonempty (box : DataArray) (lat lon v : Q) :
  cell_of box lat lon v -> size box <> 0%nat.
Proof.
  intros H. destruct (cell_position _ _ _ _ H) as (q & Hq & _).
  apply (in_positions_nonempty_box box q Hq).
Qed.

Lemma max_wind_near_defined (ds : Dataset) (t : Slab) (c1 c2 r f : Q) :
  axes_error ds = None ->
  exists w, max_wind_near np_sqrt ds t c1 c2 r f = Ok w.
Proof.
  intros Hax. unfold max_wind_near.
  pose proof (search_box_outcome ds (wind_speed np_sqrt t) c1 c2 r) as O.
  rewrite Hax in O. destruct O as (box & ->). cbn [bind].
  destruct (Nat.ltb_spec 0 (size box)) as [L|L]; [|eauto].
  destruct (max_spec box ltac:(lia)) as (q & _ & -> & _). cbn [bind]. eauto.
Qed.

(** The tracking half of an iteration of [calculate_intensity] is an
    iteration of [track_typhoon] with the radius 5.0. *)
Lemma intensity_step_track (ds : Dataset) (r f : Q) (st : IntensityState) (t : Slab) :
  map_result (option_map track_state_of) (intensity_step np_sqrt ds r f st t)
  = track_step ds tracking_radius (track_state_of st) t.
Proof.
  unfold intensity_step, track_step.
  cbn [track_state_of Track.current_lat Track.current_lon track_data].
  destruct (search_box ds (mean_sea_level_pressure t) (current_lat st)
              (current_lon st) tracking_radius) as [box|e] eqn:Ebox;
    cbn [bind]; [|reflexivity].
  destruct (Nat.eqb (size box) 0); [reflexivity|].
  destruct (locate_minimum box) as [[[lat lon] p]|e]; cbn [bind]; [|reflexivity].
  destruct (max_wind_near_defined ds t lat lon r f (search_box_ok_axes _ _ _ _ _ _ Ebox))
    as (w & ->).
  cbn [bind]. destruct (get_intensity_category w) as [cat col].
  cbn [map_result option_map]. unfold track_state_of at 1.
  cbn [current_lat current_lon results]. rewrite map_app. reflexivity.
Qed.

Lemma intensity_loop_track (ds : Dataset) (r f : Q) (times : list Slab) :
  forall st,
    map_result track_state_of (intensity_loop np_sqrt ds r f st times)
    = track_loop ds tracking_radius (track_state_of st) times.
Proof.
  induction times as [|t rest IH]; intros st; cbn [intensity_loop track_loop];
    [reflexivity|].
  rewrite <- (intensity_step_track ds r f st t).
  destruct (intensity_step np_sqrt ds r f st t) as [[st'|]|e];
    cbn [bind map_result option_map]; [apply IH|reflexivity|reflexivity].
Qed.

(** The tracking columns of the intensity table are the track of
    [track_typhoon] with the radius 5.0, whatever the intensity radius and
    the correction factor. *)
Lemma calculate_intensity_track (ds : Dataset) (start_lat start_lon r f : Q) :
  tracking_columns (calculate_intensity np_sqrt ds start_lat start_lon r f)
  = track_typhoon ds start_lat start_lon tracking_radius.
Proof.
  unfold calculate_intensity, track_typhoon, tracking_columns.
  change {| Track.current_lat := start_lat; Track.current_lon := start_lon;
            track_data := [] |}
    with (track_state_of
            {| current_lat := start_lat; current_lon := start_lon; results := [] |}).
  rewrite <- (intensity_loop_track ds r f (slabs ds)).
  destruct (intensity_loop np_sqrt ds r f _ (slabs ds)); reflexivity.
Qed.

(** C9.  Two runs of [calculate_intensity] on the same dataset and seed that
    differ in the intensity radius and in the correction factor end alike
    (both return, or both raise the same exception), return tables of the
    same length, and agree on the columns time, latitude, longitude and
    min_pressure_pa of every row. *)
Theorem C9_intensity_parameters_do_not_reach_tracking
    (ds : Dataset) (start_lat start_lon : Q) (r1 f1 r2 f2 : Q) :
  tracking_columns (calculate_intensity np_sqrt ds start_lat start_lon r1 f1)
  = tracking_columns (calculate_intensity np_sqrt ds start_lat start_lon r2 f2)
  /\
  map_result (@List.length IntensityRow)
    (calculate_intensity np_sqrt ds start_lat start_lon r1 f1)
  = map_result (@List.length IntensityRow)
      (calculate_intensity np_sqrt ds start_lat start_lon r2 f2).
Proof.
  assert (E : tracking_columns (calculate_intensity np_sqrt ds start_lat start_lon r1 f1)
              = tracking_columns (calculate_intensity np_sqrt ds start_lat start_lon r2 f2)).
  { rewrite !calculate_intensity_track. reflexivity. }
  split; [exact E|].
  unfold tracking_columns in E.
  destruct (calculate_intensity np_sqrt ds start_lat start_lon r1 f1) as [rows1|e1],
           (calculate_intensity np_sqrt ds start_lat start_lon r2 f2) as [rows2|e2];
    cbn [map_result] in *; try discriminate.
  - injection E as E. f_equal.
    apply (f_equal (@List.length TrackPoint)) in E.
    rewrite !length_map in E. exact E.
  - injection E as ->. reflexivity.
Qed.

(** Each row of the table: its time label, the pressure search that found
    its centre, and the wind search around that centre. *)
Lemma intensity_loop_rows (ds : Dataset) (r f : Q) (times : list Slab) :
  forall st st',
    intensity_loop np_sqrt ds r f st times = Ok st' ->
    exists rows,
      results st' = results st ++ rows /\
      forall i row, nth_error rows i = Some row ->
        exists t c1 c2 box,
          nth_error times i = Some t /\
          row_time row = time t /\
          search_box ds (mean_sea_level_pressure t) c1 c2 tracking_radius = Ok box /\
          size box <> 0%nat /\
          locate_minimum box
            = Ok (row_latitude row, row_longitude row, min_pressure_pa row) /\
          max_wind_near np_sqrt ds t (row_latitude row) (row_longitude row) r f
            = Ok (max_wind_speed_ms row) /\
          get_intensity_category (max_wind_speed_ms row)
            = (intensity_category row, intensity_color row).
Proof.
  induction times as [|t rest IH]; intros st st' H; cbn [intensity_loop] in H.
  - injection H as <-. exists []. split; [now rewrite app_nil_r|].
    intros i row Hi. destruct i; discriminate.
  - unfold intensity_step in H.
    destruct (search_box ds (mean_sea_level_pressure t) (current_lat st)
                (current_lon st) tracking_radius) as [box|] eqn:Ebox;
      cbn [bind] in H; [|discriminate].
    destruct (Nat.eqb (size box) 0) eqn:Esize; cbn [bind] in H.
    + injection H as <-. exists []. split; [now rewrite app_nil_r|].
      intros i row Hi. destruct i; discriminate.
    + apply Nat.eqb_neq in Esize.
      destruct (locate_minimum box) as [[[lat lon] p]|] eqn:Eloc;
        cbn [bind] in H; [|discriminate].
      destruct (max_wind_near np_sqrt ds t lat lon r f) as [w|] eqn:Ew;
        cbn [bind] in H; [|discriminate].
      destruct (get_intensity_category w) as [cat col] eqn:Ecat.
      cbn [bind] in H. apply IH in H. destruct H as (rows & Hres & Hrows).
      cbn [results] in Hres. eexists (_ :: rows). split.
      * rewrite Hres, <- app_assoc. reflexivity.
      * intros i row Hi. destruct i as [|i]; cbn in Hi.
        -- injection Hi as <-. exists t, (current_lat st), (current_lon st), box.
           cbn. repeat split; assumption.
        -- destruct (Hrows i row Hi) as (t' & c1 & c2 & box' & Ht' & Hrest).
           exists t', c1, c2, box'. split; [exact Ht'|exact Hrest].
Qed.

(** C7.  With a non-negative intensity radius, in every row of the table the
    maximum wind is the correction factor times the greatest value of
    [np.sqrt(u**2 + v**2)], at the time label of the row, over the grid
    positions whose labels lie in the square of half-width
    [search_radius_deg] around the centre of the row; the category and the
    colour are those of [get_intensity_category] at that corrected wind. *)
Theorem C7_corrected_maximum_wind
    (ds : Dataset) (start_lat start_lon search_radius_deg correction_factor : Q)
    (rows : list IntensityRow) (i : nat) (row : IntensityRow) :
  0 <= search_radius_deg ->
  calculate_intensity np_sqrt ds start_lat start_lon
    search_radius_deg correction_factor = Ok rows ->
  nth_error rows i = Some row ->
  exists t a b lat lon,
    nth_error (slabs ds) i = Some t /\
    row_time row = time t /\
    nth_error (latitude ds) a = Some lat /\
    nth_error (longitude ds) b = Some lon /\
    in_window (row_latitude row) (row_longitude row) search_radius_deg lat lon /\
    max_wind_speed_ms row
      = np_sqrt (u_component_of_wind_10m t a b ^ 2
                 + v_component_of_wind_10m t a b ^ 2) * correction_factor /\
    (forall a' b' lat' lon',
       nth_error (latitude ds) a' = Some lat' ->
       nth_error (longitude ds) b' = Some lon' ->
       in_window (row_latitude row) (row_longitude row) search_radius_deg lat' lon' ->
       np_sqrt (u_component_of_wind_10m t a' b' ^ 2
                + v_component_of_wind_10m t a' b' ^ 2)
       <= np_sqrt (u_component_of_wind_10m t a b ^ 2
                   + v_component_of_wind_10m t a b ^ 2)) /\
    get_intensity_category (max_wind_speed_ms row)
      = (intensity_category row, intensity_color row).
Proof.
  intros Hr Hrun Hi. unfold calculate_intensity in Hrun.
  destruct (intensity_loop np_sqrt ds search_radius_deg correction_factor _ (slabs ds))
    as [st'|] eqn:Eloop; cbn [bind] in Hrun; [|discriminate].
  injection Hrun as <-.
  destruct (intensity_loop_rows _ _ _ _ _ _ Eloop) as (rows & Hres & Hrows).
  cbn [results app] in Hres. rewrite Hres in Hi.
  destruct (Hrows i row Hi)
    as (t & c1 & c2 & box & Ht & Htime & Hbox & Hne & Hloc & Hwind & Hcat).
  destruct (located_centre box _ _ _ Hne Hloc) as (v & Hcell).
  unfold max_wind_near in Hwind.
  destruct (search_box ds (wind_speed np_sqrt t) (row_latitude row)
              (row_longitude row) search_radius_deg) as [wbox|] eqn:Ew;
    cbn [bind] in Hwind; [|discriminate].
  assert (HR : 0 < tracking_radius) by (unfold tracking_radius; lra).
  destruct (centre_in_own_box ds _ (wind_speed np_sqrt t) _ _ _ _ _ _ _ _ _
              Hbox HR Hcell Hr Ew) as (v' & Hcell').
  pose proof (has_cell_nonempty _ _ _ _ Hcell') as Hwne.
  destruct (Nat.ltb_spec 0 (size wbox)) as [_|L]; [|lia].
  destruct (max_spec wbox Hwne) as (q & Hq & Hmax & Hle).
  rewrite Hmax in Hwind. cbn [bind] in Hwind. injection Hwind as Hwind.
  pose proof (search_box_window _ _ _ _ _ _ Ew Hr Hwne) as Hwin.
  apply in_positions in Hq. destruct Hq as [Hq1 Hq2].
  destruct (nth_error (da_latitude wbox) (fst q)) as [lat|] eqn:Elat;
    [|apply nth_error_None in Elat; lia].
  destruct (nth_error (da_longitude wbox) (snd q)) as [lon|] eqn:Elon;
    [|apply nth_error_None in Elon; lia].
  pose proof (cell_at_position wbox q lat lon Elat Elon) as Hqcell.
  apply Hwin in Hqcell. destruct Hqcell as ((a & b & Ha & Hb & Hv) & Hin).
  cbn [on_grid da_latitude da_longitude da_values] in Ha, Hb, Hv.
  exists t, a, b, lat, lon.
  split; [exact Ht|]. split; [exact Htime|]. split; [exact Ha|].
  split; [exact Hb|]. split; [exact Hin|]. split.
  - rewrite <- Hwind. unfold corrected_wind. rewrite <- Hv. reflexivity.
  - split; [|exact Hcat].
    intros a' b' lat' lon' Ha' Hb' Hin'.
    assert (Hc' : cell_of wbox lat' lon' (wind_speed np_sqrt t a' b')).
    { apply Hwin. split; [|exact Hin']. exists a', b'. auto. }
    destruct (cell_position _ _ _ _ Hc') as (q' & Hq' & Hv').
    change (wind_speed np_sqrt t a' b' <= wind_speed np_sqrt t a b).
    rewrite Hv, <- Hv'. apply Hle, Hq'.
Qed.

End WithSqrt.

Lemma C7_corrected_maximum_wind_witness :
  (0 <= 1 /\
   calculate_intensity sqrt_of_square ascending 11 101 1 1.4 = Ok [row0; row1] /\
   nth_error [row0; row1] 1 = Some row1) /\
  exists t a b lat lon,
    nth_error (slabs ascending) 1 = Some t /\
    row_time row1 = time t /\
    nth_error (latitude ascending) a = Some lat /\
    nth_error (longitude ascending) b = Some lon /\
    in_window (row_latitude row1) (row_longitude row1) 1 lat lon /\
    max_wind_speed_ms row1
      = sqrt_of_square (u_component_of_wind_10m t a b ^ 2
                        + v_component_of_wind_10m t a b ^ 2) * 1.4 /\
    (forall a' b' lat' lon',
       nth_error (latitude ascending) a' = Some lat' ->
       nth_error (longitude ascending) b' = Some lon' ->
       in_window (row_latitude row1) (row_longitude row1) 1 lat' lon' ->
       sqrt_of_square (u_component_of_wind_10m t a' b' ^ 2
                       + v_component_of_wind_10m t a' b' ^ 2)
       <= sqrt_of_square (u_component_of_wind_10m t a b ^ 2
                          + v_component_of_wind_10m t a b ^ 2)) /\
    get_intensity_category (max_wind_speed_ms row1)
      = (intensity_category row1, intensity_color row1).
Proof.
  assert (H1 : 0 <= 1) by (unfold Qle; simpl; lia).
  assert (H2 : calculate_intensity sqrt_of_square ascending 11 101 1 1.4
               = Ok [row0; row1]) by (vm_compute; reflexivity).
  assert (H3 : nth_error [row0; row1] 1 = Some row1) by reflexivity.
  split; [repeat split; assumption|].
  exact (C7_corrected_maximum_wind sqrt_of_square ascending 11 101 1 1.4
           [row0; row1] 1 row1 H1 H2 H3).
Defined.

End EstimateSpec.

(** ** Properties of the assembler *)

Module AssembleSpec.
Import Assemble Example.

Section WithFiles.

Variable datetime : Type.
Variable strptime : string -> string -> option datetime.
Variable fields : Type.

Lemma add_time_coordinate_parsed (ds : OpenDataset fields) :
  fst (add_time_coordinate datetime strptime fields ds)
  = option_map (expand_dims datetime fields ds) (parsed_time datetime strptime fields ds).
Proof.
  unfold add_time_coordinate, parsed_time.
  destruct (strptime _ _); reflexivity.
Qed.

Lemma concat_valid_datasets (opened : list (OpenDataset fields)) :
  concat datetime fields (valid_datasets datetime strptime fields opened)
  = surviving datetime strptime fields opened.
Proof.
  unfold valid_datasets, datasets, surviving.
  induction opened as [|ds rest IH]; [reflexivity|].
  cbn [map not_none flat_map]. rewrite add_time_coordinate_parsed.
  destruct (parsed_time datetime strptime fields ds) as [dt|];
    cbn [option_map not_none]; [|exact IH].
  cbn [concat flat_map expand_dims time_coord payload map app].
  f_equal. exact IH.
Qed.

Lemma valid_datasets_nonempty (opened : list (OpenDataset fields)) (ds : OpenDataset fields) :
  In ds opened ->
  parsed_time datetime strptime fields ds <> None ->
  valid_datasets datetime strptime fields opened <> [].
Proof.
  unfold valid_datasets, datasets.
  induction opened as [|d rest IH]; intros Hin Hp; [destruct Hin|].
  cbn [map not_none]. rewrite add_time_coordinate_parsed.
  destruct (parsed_time datetime strptime fields d) as [dt|] eqn:E;
    cbn [option_map]; [discriminate|].
  destruct Hin as [->|Hin]; [congruence|]. apply IH; assumption.
Qed.

Lemma warnings_skipped (opened : list (OpenDataset fields)) :
  List.length (warnings datetime strptime fields opened)
  = List.length (skipped datetime strptime fields opened).
Proof.
  unfold warnings, skipped.
  induction opened as [|ds rest IH]; [reflexivity|].
  cbn [flat_map filter]. unfold add_time_coordinate at 1, parsed_time at 1.
  destruct (strptime _ _); cbn [snd app List.length]; rewrite IH; reflexivity.
Qed.

(** C8.  [add_time_coordinate] returns [None] for exactly the files whose
    name yields no time stamp; each such file is announced by one warning;
    and as soon as one file parses, the script saves the combination of all
    the files that parse, in their order, each under its time stamp, and of
    no other file. *)
Theorem C8_unparseable_files_are_skipped (opened : list (OpenDataset fields)) :
  (forall ds,
     fst (add_time_coordinate datetime strptime fields ds) = None <->
     parsed_time datetime strptime fields ds = None) /\
  (forall ds,
     parsed_time datetime strptime fields ds = None ->
     exists warning, snd (add_time_coordinate datetime strptime fields ds) = [warning]) /\
  ((exists ds, In ds opened /\ parsed_time datetime strptime fields ds <> None) ->
   fst (combine datetime strptime fields opened)
     = Saved datetime fields (surviving datetime strptime fields opened) /\
   List.length (snd (combine datetime strptime fields opened))
     = List.length (skipped datetime strptime fields opened)).
Proof.
  split; [|split].
  - intros ds. rewrite add_time_coordinate_parsed.
    destruct (parsed_time datetime strptime fields ds); cbn; split; congruence.
  - intros ds H. unfold add_time_coordinate. unfold parsed_time in H.
    rewrite H. cbn. eauto.
  - intros (ds & Hin & Hp). unfold combine.
    destruct opened as [|d rest] eqn:E; [destruct Hin|]. rewrite <- E in *.
    pose proof (valid_datasets_nonempty opened ds Hin Hp) as Hne.
    pose proof (concat_valid_datasets opened) as Hc.
    destruct (valid_datasets datetime strptime fields opened) as [|v vs] eqn:Ev;
      [congruence|].
    cbn [fst snd]. rewrite Hc. split; [reflexivity|apply warnings_skipped].
Qed.

End WithFiles.

Lemma C8_unparseable_files_are_skipped_witness :
  (exists ds, In ds files /\ parsed_time string shape_strptime nat ds <> None) /\
  fst (combine string shape_strptime nat files)
    = Saved string nat [("2018-10-01-06-00"%string, 1%nat);
                        ("2018-10-01-12-00"%string, 3%nat)] /\
  List.length (snd (combine string shape_strptime nat files)) = 1%nat.
Proof.
  assert (H : exists ds, In ds files /\ parsed_time string shape_strptime nat ds <> None).
  { exists {| source := "/outputs/run/output_surface_2018-10-01-06-00.nc"%string;
              content := 1%nat |}.
    split; [left; reflexivity|]. vm_compute. discriminate. }
  split; [exact H|].
  exact (proj2 (proj2 (C8_unparseable_files_are_skipped string shape_strptime nat files)) H).
Defined.

End AssembleSpec.

(** * Further properties of the tracking loop *)

Module TrackExtra.
Import Xarray Track Window Trace Example MoreExamples.
Import XarrayFacts BoxFacts ReduceFacts TrackFacts Orientation TrackSpec.

Lemma walk_times (ds : Dataset) (r : Q) (c : Q * Q)
    (times : list Slab) (pts : list TrackPoint) :
  Walk ds r c times pts ->
  map tp_time pts = firstn (List.length pts) (map time times).
Proof.
  induction 1 as [c|c t rest box Hbox Hsize
                 |c t rest box lat lon p pts Hbox Hsize Hloc Hw IH].
  - reflexivity.
  - reflexivity.
  - cbn. f_equal. exact IH.
Qed.

(** X1.  A run of [track_typhoon] that returns records no point at all, or
    one point for every time label of the dataset: once the first search box
    has found a centre, no later search box is empty. *)
Theorem X1_track_all_or_nothing
    (ds : Dataset) (start_lat start_lon r : Q) (pts : list TrackPoint) :
  track_typhoon ds start_lat start_lon r = Ok pts ->
  pts = [] \/ List.length pts = List.length (slabs ds).
Proof.
  intros H. apply track_typhoon_walk in H.
  apply (walk_all_or_nothing _ _ _ _ _ H).
Qed.

Lemma X1_track_all_or_nothing_witness :
  track_typhoon ascending 11 101 1 = Ok [point0; point1] /\
  ([point0; point1] = [] \/
   List.length [point0; point1] = List.length (slabs ascending)).
Proof.
  assert (H : track_typhoon ascending 11 101 1 = Ok [point0; point1])
    by (vm_compute; reflexivity).
  split; [exact H|].
  exact (X1_track_all_or_nothing ascending 11 101 1 [point0; point1] H).
Defined.

(** X2.  The time column of the track is the sequence of the first time
    labels of the dataset, in their order: the i-th row carries the i-th
    label. *)
Theorem X2_track_times_are_dataset_times
    (ds : Dataset) (start_lat start_lon r : Q) (pts : list TrackPoint) :
  track_typhoon ds start_lat start_lon r = Ok pts ->
  map tp_time pts = firstn (List.length pts) (map time (slabs ds)).
Proof.
  intros H. apply track_typhoon_walk in H. apply (walk_times _ _ _ _ _ H).
Qed.

Lemma X2_track_times_are_dataset_times_witness :
  track_typhoon ascending 11 101 1 = Ok [point0; point1] /\
  map tp_time [point0; point1]
  = firstn (List.length [point0; point1]) (map time (slabs ascending)).
Proof.
  assert (H : track_typhoon ascending 11 101 1 = Ok [point0; point1])
    by (vm_compute; reflexivity).
  split; [exact H|].
  exact (X2_track_times_are_dataset_times ascending 11 101 1 [point0; point1] H).
Defined.

(** X3.  With a non-negative radius, every step moves the centre by at most
    the radius in latitude and in longitude: the position recorded at a step
    lies in the square of half-width [r] around the position recorded at the
    step before (around the seed at the first step). *)
Theorem X3_step_within_radius
    (ds : Dataset) (start_lat start_lon r : Q)
    (pts : list TrackPoint) (i : nat) (pt : TrackPoint) (c : Q * Q) :
  0 <= r ->
  track_typhoon ds start_lat start_lon r = Ok pts ->
  nth_error pts i = Some pt ->
  centre_at (start_lat, start_lon) (map position pts) i = Some c ->
  in_window (fst c) (snd c) r (tp_latitude pt) (tp_longitude pt).
Proof.
  intros Hr Hrun Hi Hc. apply track_typhoon_walk in Hrun.
  destruct (walk_nth _ _ _ _ _ Hrun i pt Hi)
    as (t & c' & box & Ht & Hc' & Hbox & Hne & Hloc & _).
  rewrite Hc in Hc'. injection Hc' as <-.
  destruct (located_centre box _ _ _ Hne Hloc) as (v & Hcell).
  apply (search_box_window _ _ _ _ _ _ Hbox Hr Hne) in Hcell. apply Hcell.
Qed.

Lemma X3_step_within_radius_witness :
  (0 <= 1 /\
   track_typhoon ascending 11 101 1 = Ok [point0; point1] /\
   nth_error [point0; point1] 1 = Some point1 /\
   centre_at (11, 101) (map position [point0; point1]) 1 = Some (11, 101)) /\
  in_window (fst (11, 101)) (snd (11, 101)) 1
    (tp_latitude point1) (tp_longitude point1).
Proof.
  assert (H1 : 0 <= 1) by (unfold Qle; simpl; lia).
  assert (H2 : track_typhoon ascending 11 101 1 = Ok [point0; point1])
    by (vm_compute; reflexivity).
  assert (H3 : nth_error [point0; point1] 1 = Some point1) by reflexivity.
  assert (H4 : centre_at (11, 101) (map position [point0; point1]) 1
               = Some (11, 101)) by reflexivity.
  split; [repeat split; assumption|].
  exact (X3_step_within_radius ascending 11 101 1 [point0; point1] 1 point1
           (11, 101) H1 H2 H3 H4).
Defined.

(** The first search box of a run that records a point holds a cell. *)
Lemma walk_first_cell (ds : Dataset) (r : Q) (c : Q * Q)
    (times : list Slab) (pts : list TrackPoint) :
  Walk ds r c times pts -> pts <> [] ->
  exists t box lat lon v,
    search_box ds (mean_sea_level_pressure t) (fst c) (snd c) r = Ok box /\
    cell_of box lat lon v.
Proof.
  intros Hw Hne.
  destruct Hw as [c|c t rest box Hbox Hsize
                 |c t rest box lat lon p pts Hbox Hsize Hloc Hw];
    try (exfalso; apply Hne; reflexivity).
  destruct (located_centre box _ _ _ Hsize Hloc) as (v & Hcell).
  exists t, box, lat, lon, v. split; assumption.
Qed.

(** X4.  On a dataset whose longitude axis is not stored in increasing order
    (a descending axis), a run with a positive radius records no point: the
    longitude slice [slice(lon_min, lon_max)] selects nothing there, so the
    first search box is empty. *)
Theorem X4_descending_longitude_records_nothing
    (ds : Dataset) (start_lat start_lon r : Q) (pts : list TrackPoint) :
  is_monotonic_increasing (longitude ds) = false ->
  0 < r ->
  track_typhoon ds start_lat start_lon r = Ok pts ->
  pts = [].
Proof.
  intros Hlon Hr Hrun. apply track_typhoon_walk in Hrun.
  destruct pts as [|pt pts]; [reflexivity|]. exfalso.
  destruct (walk_first_cell _ _ _ _ _ Hrun ltac:(discriminate))
    as (t & box & lat & lon & v & Hbox & Hcell).
  destruct (axes_ok ds (search_box_ok_axes _ _ _ _ _ _ Hbox))
    as (_ & _ & first & last & F & L).
  apply (search_box_cells ds _ _ _ r box first last Hbox F L) in Hcell.
  destruct Hcell as (_ & _ & Hsel). unfold selected in Hsel.
  rewrite Hlon in Hsel. cbn [fst snd] in Hsel. lra.
Qed.

Lemma X4_descending_longitude_records_nothing_witness :
  (is_monotonic_increasing (longitude descending_longitude) = false /\
   0 < 1 /\
   track_typhoon descending_longitude 11 101 1 = Ok []) /\
  @nil TrackPoint = [].
Proof.
  assert (H1 : is_monotonic_increasing (longitude descending_longitude) = false)
    by reflexivity.
  assert (H2 : 0 < 1) by reflexivity.
  assert (H3 : track_typhoon descending_longitude 11 101 1 = Ok [])
    by (vm_compute; reflexivity).
  split; [repeat split; assumption|].
  exact (X4_descending_longitude_records_nothing descending_longitude 11 101 1 []
           H1 H2 H3).
Defined.

(** X5.  On a dataset whose latitude axis has the same label at both ends
    (a single latitude, for one), a run with a positive radius records no
    point: the test [ds.latitude[0] < ds.latitude[-1]] fails, the slice is
    issued from the greatest bound to the least, and it selects nothing. *)
Theorem X5_level_latitude_records_nothing
    (ds : Dataset) (start_lat start_lon r first last : Q)
    (pts : list TrackPoint) :
  nth_error (latitude ds) 0 = Some first ->
  nth_error (latitude ds) (List.length (latitude ds) - 1) = Some last ->
  first == last ->
  0 < r ->
  track_typhoon ds start_lat start_lon r = Ok pts ->
  pts = [].
Proof.
  intros F L Heq Hr Hrun. apply track_typhoon_walk in Hrun.
  destruct pts as [|pt pts]; [reflexivity|]. exfalso.
  destruct (walk_first_cell _ _ _ _ _ Hrun ltac:(discriminate))
    as (t & box & lat & lon & v & Hbox & Hcell).
  apply (search_box_cells ds _ _ _ r box first last Hbox F L) in Hcell.
  destruct Hcell as (_ & Hlat & _). cbn [fst snd] in Hlat.
  assert (E1 : (first <? last) = false) by (apply Qltb_ge; lra).
  assert (E2 : (last <? first) = false) by (apply Qltb_ge; lra).
  rewrite E1, E2 in Hlat. cbn [orb] in Hlat.
  destruct (py_min_cases (start_lat - r) (start_lat + r)) as [[? ?]|[? ?]],
           (py_max_cases (start_lat - r) (start_lat + r)) as [[? ?]|[? ?]]; lra.
Qed.

Lemma X5_level_latitude_records_nothing_witness :
  (nth_error (latitude single_latitude) 0 = Some 11 /\
   nth_error (latitude single_latitude)
     (List.length (latitude single_latitude) - 1) = Some 11 /\
   11 == 11 /\
   0 < 1 /\
   track_typhoon single_latitude 11 101 1 = Ok []) /\
  @nil TrackPoint = [].
Proof.
  assert (H1 : nth_error (latitude single_latitude) 0 = Some 11) by reflexivity.
  assert (H2 : nth_error (latitude single_latitude)
                 (List.length (latitude single_latitude) - 1) = Some 11)
    by reflexivity.
  assert (H3 : 11 == 11) by reflexivity.
  assert (H4 : 0 < 1) by reflexivity.
  assert (H5 : track_typhoon single_latitude 11 101 1 = Ok [])
    by (vm_compute; reflexivity).
  split; [repeat split; assumption|].
  exact (X5_level_latitude_records_nothing single_latitude 11 101 1 11 11 []
           H1 H2 H3 H4 H5).
Defined.

Lemma track_loop_returns (ds : Dataset) (r : Q) :
  axes_error ds = None ->
  forall times st, exists st', track_loop ds r st times = Ok st'.
Proof.
  intros Hax. induction times as [|t rest IH]; intros st; cbn [track_loop].
  - eauto.
  - unfold track_step.
    pose proof (search_box_outcome ds (mean_sea_level_pressure t)
                  (current_lat st) (current_lon st) r) as O.
    rewrite Hax in O. destruct O as (box & ->). cbn [bind].
    destruct (Nat.eqb_spec (size box) 0) as [E|N]; cbn [bind]; [eauto|].
    destruct (locate_minimum_spec box N)
      as (idx & lat & lon & _ & _ & _ & _ & _ & -> & _).
    cbn [bind]. apply IH.
Qed.

(** X6.  On a dataset with ordered axes and at least one time label,
    [track_typhoon] raises exactly when the latitude axis is empty, and then
    the [IndexError] of [ds.latitude[0]].  On every other such dataset it
    returns; in particular [argmin] and [min()] are never applied to an empty
    box. *)
Theorem X6_ordered_axes_raise_only_when_latitude_empty
    (ds : Dataset) (start_lat start_lon r : Q) (e : Exn) :
  slabs ds <> [] ->
  ordered (latitude ds) = true ->
  ordered (longitude ds) = true ->
  (track_typhoon ds start_lat start_lon r = Raise e <->
   latitude ds = [] /\ e = IndexError).
Proof.
  intros Hne Hlat Hlon.
  assert (Hax : axes_error ds
                = match latitude ds with [] => Some IndexError | _ :: _ => None end).
  { unfold axes_error. rewrite Hlat, Hlon. reflexivity. }
  unfold track_typhoon. split.
  - intros H. destruct (latitude ds) as [|x l] eqn:EL.
    + split; [reflexivity|].
      destruct (slabs ds) as [|t rest]; [contradiction|].
      cbn [track_loop] in H. unfold track_step in H.
      pose proof (search_box_outcome ds (mean_sea_level_pressure t)
                    start_lat start_lon r) as O.
      rewrite Hax in O. cbn [current_lat current_lon] in H. rewrite O in H.
      cbn [bind] in H. congruence.
    + destruct (track_loop_returns ds r Hax (slabs ds)
                  {| current_lat := start_lat; current_lon := start_lon;
                     track_data := [] |}) as (st' & E).
      rewrite E in H. discriminate.
  - intros [EL ->]. rewrite EL in Hax.
    destruct (slabs ds) as [|t rest]; [contradiction|].
    cbn [track_loop]. unfold track_step.
    pose proof (search_box_outcome ds (mean_sea_level_pressure t)
                  start_lat start_lon r) as O.
    rewrite Hax in O. cbn [current_lat current_lon]. rewrite O. reflexivity.
Qed.

Lemma X6_ordered_axes_raise_only_when_latitude_empty_witness :
  (slabs {| latitude := []; longitude := [100; 101]; slabs := [slab0] |} <> [] /\
   ordered (latitude {| latitude := []; longitude := [100; 101];
                        slabs := [slab0] |}) = true /\
   ordered (longitude {| latitude := []; longitude := [100; 101];
                         slabs := [slab0] |}) = true) /\
  (track_typhoon {| latitude := []; longitude := [100; 101]; slabs := [slab0] |}
     11 101 1 = Raise IndexError <->
   latitude {| latitude := []; longitude := [100; 101]; slabs := [slab0] |} = [] /\
   IndexError = IndexError).
Proof.
  assert (H1 : slabs {| latitude := []; longitude := [100; 101]; slabs := [slab0] |}
               <> []) by discriminate.
  assert (H2 : ordered (latitude {| latitude := []; longitude := [100; 101];
                                    slabs := [slab0] |}) = true) by reflexivity.
  assert (H3 : ordered (longitude {| latitude := []; longitude := [100; 101];
                                     slabs := [slab0] |}) = true) by reflexivity.
  split; [repeat split; assumption|].
  exact (X6_ordered_axes_raise_only_when_latitude_empty
           {| latitude := []; longitude := [100; 101]; slabs := [slab0] |}
           11 101 1 IndexError H1 H2 H3).
Defined.

End TrackExtra.

(** * Further properties of the classifier and of the intensity table *)

Module EstimateExtra.
Import Xarray Track Intensity Estimate Window Trace Projection Example.
Import XarrayFacts BoxFacts ReduceFacts TrackFacts Orientation EstimateSpec.

(** X7.  Inside a documented range, the classifier returns the label and the
    colour of that range; in particular the seven documented ranges do not
    overlap. *)
Theorem X7_documented_ranges_classified (c : Category) (w : Q) :
  in_listed_range c w ->
  get_intensity_category w
  = match c with
    | LowPressure => ("Low Pressure (<10.8)"%string, "gray"%string)
    | TD => ("Tropical Depression (TD)"%string, "skyblue"%string)
    | TS => ("Tropical Storm (TS)"%string, "blue"%string)
    | STS => ("Severe Tropical Storm (STS)"%string, "green"%string)
    | TY => ("Typhoon (TY)"%string, "yellow"%string)
    | STY => ("Severe Typhoon (STY)"%string, "orange"%string)
    | SuperTY => ("Super Typhoon (SuperTY)"%string, "red"%string)
    end.
Proof.
  unfold get_intensity_category.
  destruct c; cbn [in_listed_range]; intros H;
    Qcases; try reflexivity; exfalso; lra.
Qed.

Lemma X7_documented_ranges_classified_witness :
  in_listed_range TY 35.5 /\
  get_intensity_category 35.5 = ("Typhoon (TY)"%string, "yellow"%string).
Proof.
  assert (H : in_listed_range TY 35.5) by (cbn [in_listed_range]; lra).
  split; [exact H|].
  exact (X7_documented_ranges_classified TY 35.5 H).
Defined.

(** X8.  For a raw wind that is not negative, when the corrected winds of
    two factors [f1 <= f2] both fall in documented ranges, the category of
    [f2] is at least the category of [f1]. *)
Theorem X8_category_monotone_between_documented_ranges
    (raw f1 f2 : Q) (c1 c2 : Category) :
  0 <= raw -> f1 <= f2 ->
  in_listed_range c1 (corrected_wind raw f1) ->
  in_listed_range c2 (corrected_wind raw f2) ->
  (category_rank (corrected_wind raw f1)
   <= category_rank (corrected_wind raw f2))%nat.
Proof.
  intros Hraw Hf H1 H2. unfold category_rank.
  rewrite (IntensityFacts.listed_range_classified c1 _ H1).
  rewrite (IntensityFacts.listed_range_classified c2 _ H2).
  exact (IntensityFacts.rank_monotone_on_listed raw f1 f2 c1 c2 Hraw Hf H1 H2).
Qed.

Lemma X8_category_monotone_between_documented_ranges_witness :
  (0 <= 20 /\ 1.0 <= 1.4 /\
   in_listed_range TS (corrected_wind 20 1.0) /\
   in_listed_range STS (corrected_wind 20 1.4)) /\
  (category_rank (corrected_wind 20 1.0)
   <= category_rank (corrected_wind 20 1.4))%nat.
Proof.
  assert (H1 : 0 <= 20) by lra.
  assert (H2 : 1.0 <= 1.4) by lra.
  assert (H3 : in_listed_range TS (corrected_wind 20 1.0))
    by (unfold corrected_wind; cbn [in_listed_range]; lra).
  assert (H4 : in_listed_range STS (corrected_wind 20 1.4))
    by (unfold corrected_wind; cbn [in_listed_range]; lra).
  split; [repeat split; assumption|].
  exact (X8_category_monotone_between_documented_ranges 20 1.0 1.4 TS STS
           H1 H2 H3 H4).
Defined.

Section WithSqrt.

Variable np_sqrt : Q -> Q.

(** X9.  On a file that holds the two 10 m wind components, the columns
    time, latitude, longitude and min_pressure_pa of the table of
    [calculate_intensity] are the track of [track_typhoon] run on the same
    file with the search radius 5.0 from the same seed, and the two calls
    raise the same exceptions.  On a file that lacks a wind component
    [calculate_intensity] raises [ValueError], whatever [track_typhoon]
    does. *)
Theorem X9_intensity_table_extends_track
    (f : OnFile.File)
    (start_lat start_lon search_radius_deg correction_factor : Q) :
  tracking_columns
    (OnFile.calculate_intensity np_sqrt f start_lat start_lon
       search_radius_deg correction_factor)
  = if OnFile.contains f "u_component_of_wind_10m"
       && OnFile.contains f "v_component_of_wind_10m"
    then OnFile.track_typhoon f start_lat start_lon 5.0
    else Raise ValueError.
Proof.
  unfold OnFile.calculate_intensity, OnFile.track_typhoon.
  destruct (OnFile.contains f "u_component_of_wind_10m"),
           (OnFile.contains f "v_component_of_wind_10m");
    cbn [negb orb andb]; try reflexivity.
  destruct (OnFile.contains f "mean_sea_level_pressure"); [|reflexivity].
  apply calculate_intensity_track.
Qed.

(** X10.  With a negative intensity radius, every row of the table reports
    the maximum wind 0.0 and the category "Low Pressure (<10.8)" in gray:
    the wind box [slice(lon + |r|, lon - |r|)] is empty on the ascending
    longitude axis that the tracking needs, and the empty box takes the
    [else] branch. *)
Theorem X10_negative_radius_reports_no_wind
    (ds : Dataset) (start_lat start_lon search_radius_deg correction_factor : Q)
    (rows : list IntensityRow) (row : IntensityRow) :
  search_radius_deg < 0 ->
  calculate_intensity np_sqrt ds start_lat start_lon
    search_radius_deg correction_factor = Ok rows ->
  In row rows ->
  max_wind_speed_ms row = 0.0 /\
  intensity_category row = "Low Pressure (<10.8)"%string /\
  intensity_color row = "gray"%string.
Proof.
  intros Hr Hrun Hin. unfold calculate_intensity in Hrun.
  destruct (intensity_loop np_sqrt ds search_radius_deg correction_factor _ (slabs ds))
    as [st'|] eqn:Eloop; cbn [bind] in Hrun; [|discriminate].
  injection Hrun as <-.
  destruct (intensity_loop_rows _ _ _ _ _ _ _ Eloop) as (rows & Hres & Hrows).
  cbn [results app] in Hres. rewrite Hres in Hin.
  destruct (In_nth_error _ _ Hin) as (i & Hi).
  destruct (Hrows i row Hi)
    as (t & c1 & c2 & box & _ & _ & Hbox & Hne & Hloc & Hwind & Hcat).
  destruct (located_centre box _ _ _ Hne Hloc) as (v & Hcell).
  destruct (axes_ok ds (search_box_ok_axes _ _ _ _ _ _ Hbox))
    as (_ & _ & first & last & F & L).
  apply (search_box_cells ds _ _ _ _ box first last Hbox F L) in Hcell.
  destruct Hcell as (_ & _ & Hsel). unfold selected, tracking_radius in Hsel.
  destruct (is_monotonic_increasing (longitude ds)) eqn:Einc; [|exfalso; lra].
  unfold max_wind_near in Hwind.
  destruct (search_box ds (wind_speed np_sqrt t) (row_latitude row)
              (row_longitude row) search_radius_deg) as [wbox|] eqn:Ew;
    cbn [bind] in Hwind; [|discriminate].
  assert (Hempty : size wbox = 0%nat).
  { destruct (Nat.eq_dec (size wbox) 0) as [E|N]; [exact E|]. exfalso.
    destruct (nonempty_has_cell wbox N) as (lat & lon & w & Hc).
    apply (search_box_cells ds _ _ _ _ wbox first last Ew F L) in Hc.
    destruct Hc as (_ & _ & Hs). unfold selected in Hs. rewrite Einc in Hs. lra. }
  rewrite Hempty in Hwind. cbn in Hwind. injection Hwind as Hwind.
  assert (E : get_intensity_category 0.0
              = ("Low Pressure (<10.8)"%string, "gray"%string)) by reflexivity.
  rewrite <- Hwind, E in Hcat. injection Hcat as <- <-.
  split; [symmetry; exact Hwind|]. split; reflexivity.
Qed.

End WithSqrt.

Lemma X10_negative_radius_reports_no_wind_witness :
  (-1 < 0 /\
   calculate_intensity sqrt_of_square ascending 11 101 (-1) 1.4
   = Ok [ {| row_time := 0; row_latitude := 11; row_longitude := 101;
             min_pressure_pa := 1; max_wind_speed_ms := 0.0;
             intensity_category := "Low Pressure (<10.8)"%string;
             intensity_color := "gray"%string |};
          {| row_time := 6; row_latitude := 10; row_longitude := 102;
             min_pressure_pa := 0; max_wind_speed_ms := 0.0;
             intensity_category := "Low Pressure (<10.8)"%string;
             intensity_color := "gray"%string |} ] /\
   In {| row_time := 6; row_latitude := 10; row_longitude := 102;
         min_pressure_pa := 0; max_wind_speed_ms := 0.0;
         intensity_category := "Low Pressure (<10.8)"%string;
         intensity_color := "gray"%string |}
      [ {| row_time := 0; row_latitude := 11; row_longitude := 101;
           min_pressure_pa := 1; max_wind_speed_ms := 0.0;
           intensity_category := "Low Pressure (<10.8)"%string;
           intensity_color := "gray"%string |};
        {| row_time := 6; row_latitude := 10; row_longitude := 102;
           min_pressure_pa := 0; max_wind_speed_ms := 0.0;
           intensity_category := "Low Pressure (<10.8)"%string;
           intensity_color := "gray"%string |} ]) /\
  (0.0 = 0.0 /\
   "Low Pressure (<10.8)"%string = "Low Pressure (<10.8)"%string /\
   "gray"%string = "gray"%string).
Proof.
  assert (H1 : -1 < 0) by reflexivity.
  assert (H2 : calculate_intensity sqrt_of_square ascending 11 101 (-1) 1.4
   = Ok [ {| row_time := 0; row_latitude := 11; row_longitude := 101;
             min_pressure_pa := 1; max_wind_speed_ms := 0.0;
             intensity_category := "Low Pressure (<10.8)"%string;
             intensity_color := "gray"%string |};
          {| row_time := 6; row_latitude := 10; row_longitude := 102;
             min_pressure_pa := 0; max_wind_speed_ms := 0.0;
             intensity_category := "Low Pressure (<10.8)"%string;
             intensity_color := "gray"%string |} ])
    by (vm_compute; reflexivity).
  assert (H3 : In {| row_time := 6; row_latitude := 10; row_longitude := 102;
         min_pressure_pa := 0; max_wind_speed_ms := 0.0;
         intensity_category := "Low Pressure (<10.8)"%string;
         intensity_color := "gray"%string |}
      [ {| row_time := 0; row_latitude := 11; row_longitude := 101;
           min_pressure_pa := 1; max_wind_speed_ms := 0.0;
           intensity_category := "Low Pressure (<10.8)"%string;
           intensity_color := "gray"%string |};
        {| row_time := 6; row_latitude := 10; row_longitude := 102;
           min_pressure_pa := 0; max_wind_speed_ms := 0.0;
           intensity_category := "Low Pressure (<10.8)"%string;
           intensity_color := "gray"%string |} ])
    by (right; left; reflexivity).
  split; [repeat split; assumption|].
  exact (X10_negative_radius_reports_no_wind sqrt_of_square ascending 11 101 (-1) 1.4
           _ _ H1 H2 H3).
Defined.

End EstimateExtra.

(** * Properties of the path and file-name handling *)

Module PathFacts.
Import Assemble Paths Report.

Local Open Scope string_scope.

Lemma append_nil_r (s : string) : s ++ "" = s.
Proof. induction s as [|c s IH]; cbn; [reflexivity|now rewrite IH]. Qed.

Lemma append_assoc (a b c : string) : (a ++ b) ++ c = a ++ (b ++ c).
Proof. induction a as [|x a IH]; cbn; [reflexivity|now rewrite IH]. Qed.

Lemma length_append (a b : string) :
  String.length (a ++ b) = (String.length a + String.length b)%nat.
Proof. induction a as [|x a IH]; cbn; [reflexivity|now rewrite IH]. Qed.

Lemma has_slash_append (a b : string) :
  has_slash (a ++ b) = has_slash a || has_slash b.
Proof.
  induction a as [|x a IH]; cbn; [reflexivity|].
  rewrite IH. now rewrite orb_assoc.
Qed.

Lemma basename_no_slash (p : string) : has_slash (basename p) = false.
Proof.
  induction p as [|c s IH]; cbn; [reflexivity|].
  destruct (has_slash s) eqn:E; [exact IH|].
  destruct (Ascii.eqb c "/") eqn:Ec; [exact E|].
  cbn. rewrite Ec, E. reflexivity.
Qed.

Lemma basename_without_slash (s : string) : has_slash s = false -> basename s = s.
Proof.
  destruct s as [|c s]; cbn; [reflexivity|]. intros H.
  apply orb_false_iff in H. destruct H as [-> ->]. reflexivity.
Qed.

Lemma basename_after_slash (a b : string) :
  has_slash b = false -> basename (a ++ "/" ++ b) = b.
Proof.
  intros Hb. induction a as [|c a IH]; cbn.
  - rewrite Hb. reflexivity.
  - rewrite has_slash_append. cbn. rewrite orb_true_r. exact IH.
Qed.

Lemma last_is_slash_split (a : string) :
  last_is_slash a = true -> exists a', a = a' ++ "/".
Proof.
  induction a as [|c a IH]; cbn; [discriminate|].
  destruct a as [|d a'].
  - intros H. apply Ascii.eqb_eq in H. subst. exists "". reflexivity.
  - intros H. destruct (IH H) as (a'' & E). exists (String c a'').
    cbn. rewrite <- E. reflexivity.
Qed.

(** The last component of a joined path is the component that was joined,
    when it holds no separator. *)
Lemma basename_join (a b : string) :
  has_slash b = false -> basename (join a b) = b.
Proof.
  intros Hb. unfold join, startswith.
  destruct b as [|c b'] eqn:Eb.
  - cbn [prefix]. destruct (String.eqb a "" || last_is_slash a) eqn:E.
    + rewrite append_nil_r. apply orb_true_iff in E. destruct E as [E|E].
      * apply String.eqb_eq in E. subst. reflexivity.
      * destruct (last_is_slash_split a E) as (a' & ->).
        change (a' ++ "/") with (a' ++ "/" ++ "").
        apply basename_after_slash. reflexivity.
    + apply basename_after_slash. reflexivity.
  - cbn [prefix]. cbn [has_slash] in Hb. apply orb_false_iff in Hb.
    destruct Hb as [Hc Hb'].
    destruct (ascii_dec "/" c) as [<-|N]; [cbn in Hc; discriminate|].
    destruct (String.eqb a "" || last_is_slash a) eqn:E.
    + apply orb_true_iff in E. destruct E as [E|E].
      * apply String.eqb_eq in E. subst. cbn [append].
        apply basename_without_slash. cbn. rewrite Hc, Hb'. reflexivity.
      * destruct (last_is_slash_split a E) as (a' & ->).
        rewrite append_assoc. apply basename_after_slash.
        cbn. rewrite Hc, Hb'. reflexivity.
    + apply basename_after_slash. cbn. rewrite Hc, Hb'. reflexivity.
Qed.

(** X11.  [get_output_paths] names both output files after the directory
    that holds the input file, whatever the base directory: the last
    component of the CSV path is that directory name followed by [.csv], the
    last component of the plot path is the same name followed by [.png], and
    the directory it creates is the base directory joined with that name. *)
Theorem X11_outputs_named_after_input_directory
    (input_file_path base_output_dir : string) :
  let paths := get_output_paths input_file_path base_output_dir in
  let parent_dir_name := basename (dirname input_file_path) in
  basename (output_csv_path paths) = parent_dir_name ++ ".csv" /\
  basename (output_plot_path paths) = parent_dir_name ++ ".png" /\
  basename (created_dir paths) = parent_dir_name.
Proof.
  cbn zeta. unfold get_output_paths.
  cbn [output_csv_path output_plot_path created_dir].
  pose proof (basename_no_slash (dirname input_file_path)) as Hp.
  split; [|split].
  - apply basename_join. rewrite has_slash_append, Hp. reflexivity.
  - apply basename_join. rewrite has_slash_append, Hp. reflexivity.
  - apply basename_join. exact Hp.
Qed.

Lemma replace_char (c d : ascii) (s : string) :
  replace (String c "") (String d "") s
  = match s with
    | EmptyString => EmptyString
    | String x s' =>
        String (if Ascii.eqb c x then d else x)
               (replace (String c "") (String d "") s')
    end.
Proof.
  destruct s as [|x s']; [reflexivity|].
  unfold replace. cbn [replace_from prefix String.length Nat.sub].
  destruct (ascii_dec c x) as [->|N]; cbn [prefix append].
  - replace (prefix "" s') with true by (destruct s'; reflexivity).
    rewrite Ascii.eqb_refl. reflexivity.
  - apply Ascii.eqb_neq in N. rewrite N. reflexivity.
Qed.

Lemma replace_char_removes (c d : ascii) (s : string) :
  c <> d -> has_char c (replace (String c "") (String d "") s) = false.
Proof.
  intros N. induction s as [|x s IH]; [reflexivity|].
  rewrite replace_char. cbn [has_char]. rewrite IH, orb_false_r.
  destruct (Ascii.eqb c x) eqn:E.
  - apply Ascii.eqb_neq. congruence.
  - rewrite Ascii.eqb_sym. exact E.
Qed.

Lemma replace_char_keeps_absent (c d e : ascii) (s : string) :
  e <> d -> has_char e s = false ->
  has_char e (replace (String c "") (String d "") s) = false.
Proof.
  intros N. induction s as [|x s IH]; [reflexivity|].
  rewrite replace_char. cbn [has_char]. intros H.
  apply orb_false_iff in H. destruct H as [Hx Hs].
  rewrite (IH Hs), orb_false_r.
  destruct (Ascii.eqb c x); [|exact Hx].
  apply Ascii.eqb_neq. congruence.
Qed.

Lemma replace_char_length (c d : ascii) (s : string) :
  String.length (replace (String c "") (String d "") s) = String.length s.
Proof.
  induction s as [|x s IH]; [reflexivity|].
  rewrite replace_char. cbn [String.length]. now rewrite IH.
Qed.

(** X12.  The file-name part that [9_verify_tracking.py] makes of a time
    stamp holds no colon and no space, and has the length of the time
    stamp. *)
Theorem X12_safe_time_str_has_no_colon_or_space (time_str : string) :
  has_char ":" (safe_time_str time_str) = false /\
  has_char " " (safe_time_str time_str) = false /\
  String.length (safe_time_str time_str) = String.length time_str.
Proof.
  unfold safe_time_str. split; [|split].
  - apply replace_char_keeps_absent; [discriminate|].
    apply replace_char_removes. discriminate.
  - apply replace_char_removes. discriminate.
  - rewrite !replace_char_length. reflexivity.
Qed.

End PathFacts.

(** * Properties of the decoding driver *)

Module DecodeFacts.
Import Assemble Paths Decode PathFacts.

Local Open Scope string_scope.

Lemma endswith_split (suffix s : string) :
  endswith suffix s = true -> exists stem, s = stem ++ suffix.
Proof.
  induction s as [|c s IH]; cbn [endswith]; intros H;
    apply orb_true_iff in H; destruct H as [H|H].
  - apply String.eqb_eq in H. exists "". subst. reflexivity.
  - discriminate.
  - apply String.eqb_eq in H. exists "". subst. reflexivity.
  - destruct (IH H) as (stem & ->). exists (String c stem). reflexivity.
Qed.

Lemma endswith_append (stem suffix : string) : endswith suffix (stem ++ suffix) = true.
Proof.
  induction stem as [|c stem IH]; cbn [append].
  - destruct suffix; cbn [endswith]; rewrite String.eqb_refl; reflexivity.
  - cbn [endswith]. rewrite IH. apply orb_true_r.
Qed.

Lemma keep_append (a b : string) : keep (String.length a) (a ++ b) = a.
Proof. induction a as [|c a IH]; cbn; [destruct b; reflexivity|now rewrite IH]. Qed.

Lemma drop_last_append (stem suffix : string) :
  drop_last (String.length suffix) (stem ++ suffix) = stem.
Proof.
  unfold drop_last. rewrite length_append.
  replace (String.length stem + String.length suffix - String.length suffix)%nat
    with (String.length stem) by lia.
  apply keep_append.
Qed.

(** X13.  Every decoder call that the driver issues comes from a directory
    entry whose name ends in [.npy]: the output name is that name with
    [.npy] replaced by [.nc], the input path is the entry joined to the
    results directory, the surface decoder is called only for names that
    start with [output_surface] and the upper-air decoder only for names that
    start with [output_upper] and not with [output_surface]. *)
Theorem X13_decoder_calls
    (results_dir outputs_dir : string) (listing : list string) (call : Call) :
  In call (decode_all results_dir outputs_dir listing) ->
  exists file stem,
    In file listing /\
    file = stem ++ ".npy" /\
    output_name call = stem ++ ".nc" /\
    input_path call = join results_dir file /\
    output_dir call = outputs_dir /\
    match decoder call with
    | surface => startswith "output_surface" file = true
    | upper => startswith "output_upper" file = true /\
               startswith "output_surface" file = false
    end.
Proof.
  unfold decode_all. intros H. apply in_flat_map in H.
  destruct H as (file & Hfile & Hcall). unfold decode_file in Hcall.
  destruct (endswith ".npy" file) eqn:Eend; [|destruct Hcall].
  destruct (endswith_split _ _ Eend) as (stem & Estem).
  assert (Hout : drop_last 4 file = stem).
  { rewrite Estem. apply (drop_last_append stem ".npy"). }
  exists file, stem.
  destruct (startswith "output_surface" file) eqn:Es.
  - destruct Hcall as [<-|[]]. cbn. rewrite Hout. repeat split; assumption.
  - destruct (startswith "output_upper" file) eqn:Eu; [|destruct Hcall].
    destruct Hcall as [<-|[]]. cbn. rewrite Hout. repeat split; assumption.
Qed.

Lemma X13_decoder_calls_witness :
  In {| decoder := upper; input_path := "/results/output_upper_2018-10-01-06-00.npy";
        output_name := "output_upper_2018-10-01-06-00.nc"; output_dir := "/outputs" |}
     (decode_all "/results" "/outputs"
        ["notes.txt"; "output_upper_2018-10-01-06-00.npy"]) /\
  exists file stem,
    In file ["notes.txt"; "output_upper_2018-10-01-06-00.npy"] /\
    file = stem ++ ".npy" /\
    "output_upper_2018-10-01-06-00.nc" = stem ++ ".nc" /\
    "/results/output_upper_2018-10-01-06-00.npy" = join "/results" file /\
    "/outputs" = "/outputs" /\
    (startswith "output_upper" file = true /\
     startswith "output_surface" file = false).
Proof.
  assert (H : In {| decoder := upper;
                    input_path := "/results/output_upper_2018-10-01-06-00.npy";
                    output_name := "output_upper_2018-10-01-06-00.nc";
                    output_dir := "/outputs" |}
     (decode_all "/results" "/outputs"
        ["notes.txt"; "output_upper_2018-10-01-06-00.npy"]))
    by (left; reflexivity).
  split; [exact H|].
  exact (X13_decoder_calls "/results" "/outputs"
           ["notes.txt"; "output_upper_2018-10-01-06-00.npy"] _ H).
Defined.

Lemma stamp_char (c : ascii) :
  ((48 <=? nat_of_ascii c)%nat && (nat_of_ascii c <=? 57)%nat)
  || Ascii.eqb c "-"%char = true ->
  c <> "o"%char /\ c <> "."%char /\ c <> "/"%char.
Proof.
  intros H. repeat split; intros ->; vm_compute in H; discriminate.
Qed.

Lemma stamp_has_no_slash (ts : string) :
  digits_and_hyphens ts = true -> has_slash ts = false.
Proof.
  induction ts as [|c ts IH]; [reflexivity|]. cbn [digits_and_hyphens has_slash].
  intros H. apply andb_true_iff in H. destruct H as [Hc Hts].
  rewrite (IH Hts), orb_false_r.
  apply Ascii.eqb_neq. apply (stamp_char c Hc).
Qed.

Lemma replace_prefix_absent (ts : string) :
  digits_and_hyphens ts = true ->
  replace "output_surface_" "" (ts ++ ".nc") = ts ++ ".nc".
Proof.
  unfold replace. induction ts as [|c ts IH]; [reflexivity|].
  cbn [digits_and_hyphens append]. intros H.
  apply andb_true_iff in H. destruct H as [Hc Hts].
  cbn [replace_from prefix].
  destruct (ascii_dec "o" c) as [<-|N].
  - destruct (stamp_char _ Hc) as (No & _). congruence.
  - rewrite (IH Hts). reflexivity.
Qed.

Lemma replace_extension (ts : string) :
  digits_and_hyphens ts = true -> replace ".nc" "" (ts ++ ".nc") = ts.
Proof.
  unfold replace. induction ts as [|c ts IH]; [reflexivity|].
  cbn [digits_and_hyphens append]. intros H.
  apply andb_true_iff in H. destruct H as [Hc Hts].
  cbn [replace_from prefix].
  destruct (ascii_dec "." c) as [<-|N].
  - destruct (stamp_char _ Hc) as (_ & Nd & _). congruence.
  - rewrite (IH Hts). reflexivity.
Qed.

(** X14.  Decoding and assembly agree on the file names: for a time stamp
    made of digits and hyphens, the directory entry
    [output_surface_<stamp>.npy] is decoded by the surface decoder into
    [output_surface_<stamp>.nc], and from that name, in whatever directory
    the file lies, the assembler extracts exactly the time stamp that it
    hands to [strptime]. *)
Theorem X14_decoded_name_yields_time_stamp
    (results_dir outputs_dir dir stamp : string) :
  digits_and_hyphens stamp = true ->
  decode_file results_dir outputs_dir ("output_surface_" ++ stamp ++ ".npy")
  = [{| decoder := surface;
        input_path := join results_dir ("output_surface_" ++ stamp ++ ".npy");
        output_name := "output_surface_" ++ stamp ++ ".nc";
        output_dir := outputs_dir |}] /\
  time_str_of (basename (join dir ("output_surface_" ++ stamp ++ ".nc"))) = stamp.
Proof.
  intros Hs. split.
  - unfold decode_file.
    change ("output_surface_" ++ stamp ++ ".npy")
      with (("output_surface_" ++ stamp) ++ ".npy") at 1.
    rewrite <- (append_assoc "output_surface_" stamp ".npy").
    rewrite endswith_append.
    pose proof (drop_last_append ("output_surface_" ++ stamp) ".npy") as D.
    cbn [String.length] in D. rewrite D.
    rewrite !append_assoc. reflexivity.
  - rewrite basename_join.
    + unfold time_str_of, file_type_to_process.
      change ("output_" ++ "surface" ++ "_") with "output_surface_".
      assert (E : replace "output_surface_" "" ("output_surface_" ++ stamp ++ ".nc")
                  = replace "output_surface_" "" (stamp ++ ".nc")).
      { unfold replace. cbn. destruct (stamp ++ ".nc"); reflexivity. }
      rewrite E, (replace_prefix_absent stamp Hs). apply replace_extension, Hs.
    + rewrite !has_slash_append, (stamp_has_no_slash stamp Hs). reflexivity.
Qed.

Lemma X14_decoded_name_yields_time_stamp_witness :
  digits_and_hyphens "2018-10-01-06-00" = true /\
  decode_file "/results" "/outputs" ("output_surface_" ++ "2018-10-01-06-00" ++ ".npy")
  = [{| decoder := surface;
        input_path := join "/results" ("output_surface_" ++ "2018-10-01-06-00" ++ ".npy");
        output_name := "output_surface_" ++ "2018-10-01-06-00" ++ ".nc";
        output_dir := "/outputs" |}] /\
  time_str_of (basename (join "/outputs"
                           ("output_surface_" ++ "2018-10-01-06-00" ++ ".nc")))
  = "2018-10-01-06-00".
Proof.
  assert (H : digits_and_hyphens "2018-10-01-06-00" = true) by reflexivity.
  split; [exact H|].
  exact (X14_decoded_name_yields_time_stamp "/results" "/outputs" "/outputs"
           "2018-10-01-06-00" H).
Defined.

End DecodeFacts.

(** * Properties of the plots *)

Module ReportFacts.
Import Xarray Track Intensity Estimate Report Example.

Lemma annotation_step_positive (n : nat) : (1 <= Nat.max 1 (n / 10))%nat.
Proof. lia. Qed.

Lemma range0_in (stop step i : nat) :
  (0 < step)%nat -> In i (range0 stop step) -> (i < stop)%nat.
Proof.
  unfold range0. intros Hs H. apply in_map_iff in H.
  destruct H as (k & <- & Hk). apply in_seq in Hk.
  pose proof (Nat.Div0.mul_div_le (stop + step - 1) step) as M.
  assert (Hk' : (S k <= (stop + step - 1) / step)%nat) by lia.
  assert (M' : (step * S k <= stop + step - 1)%nat).
  { apply (Nat.le_trans _ (step * ((stop + step - 1) / step))); [|exact M].
    apply Nat.mul_le_mono_l. exact Hk'. }
  lia.
Qed.

Lemma annotation_count (n : nat) : (List.length (annotation_rows n) <= 19)%nat.
Proof.
  unfold annotation_rows, range0. rewrite length_map, length_seq.
  set (s := Nat.max 1 (n / 10)).
  assert (Hs : (1 <= s)%nat) by (unfold s; lia).
  assert (Hn : (n < 10 * s + 10)%nat).
  { pose proof (Nat.div_mod_eq n 10) as D.
    pose proof (Nat.mod_upper_bound n 10 ltac:(lia)) as U. unfold s. lia. }
  assert (L : ((n + s - 1) / s < 20)%nat).
  { apply Nat.Div0.div_lt_upper_bound. lia. }
  lia.
Qed.

(** X15.  The rows that [plot_track] and [plot_intensity_track] annotate
    with a date are valid row positions, at most 19 of them; a table of fewer
    than 20 rows has every row annotated, and the first row of a table is
    always annotated. *)
Theorem X15_annotation_rows (n : nat) :
  (forall i, In i (annotation_rows n) -> (i < n)%nat) /\
  (List.length (annotation_rows n) <= 19)%nat /\
  ((n < 20)%nat -> annotation_rows n = seq 0 n) /\
  ((0 < n)%nat -> exists rest, annotation_rows n = 0%nat :: rest).
Proof.
  split; [|split; [|split]].
  - intros i. apply range0_in. lia.
  - apply annotation_count.
  - intros Hn. unfold annotation_rows, range0.
    assert (E : Nat.max 1 (n / 10) = 1%nat).
    { assert (n / 10 < 2)%nat by (apply Nat.Div0.div_lt_upper_bound; lia). lia. }
    rewrite E. replace (n + 1 - 1)%nat with n by lia. rewrite Nat.div_1_r.
    rewrite <- (map_id (seq 0 n)) at 2. apply map_ext. intros k. lia.
  - intros Hn. unfold annotation_rows, range0.
    set (s := Nat.max 1 (n / 10)).
    assert (Hs : (1 <= s)%nat) by (unfold s; lia).
    assert (L : (1 <= (n + s - 1) / s)%nat).
    { apply Nat.div_le_lower_bound; lia. }
    destruct ((n + s - 1) / s)%nat as [|m]; [lia|].
    cbn [seq map]. eauto.
Qed.

Lemma X15_annotation_rows_witness :
  ((12 < 20)%nat /\ (0 < 12)%nat) /\
  annotation_rows 12 = seq 0 12 /\
  exists rest, annotation_rows 12 = 0%nat :: rest.
Proof.
  assert (H1 : (12 < 20)%nat) by lia.
  assert (H2 : (0 < 12)%nat) by lia.
  split; [split; assumption|].
  exact (conj (proj1 (proj2 (proj2 (X15_annotation_rows 12))) H1)
              (proj2 (proj2 (proj2 (X15_annotation_rows 12))) H2)).
Defined.

Lemma lookup_map {A B : Type} (f : A -> B) (l : list A) (i : nat) (d : A) :
  (i < List.length l)%nat -> lookup (map f l) i = Ok (f (nth i l d)).
Proof.
  intros H. unfold lookup. rewrite nth_error_map.
  rewrite (nth_error_nth' l d H). reflexivity.
Qed.

Lemma collect_map {A B : Type} (f : A -> Result B) (g : A -> B) (l : list A) :
  (forall a, In a l -> f a = Ok (g a)) -> collect f l = Ok (map g l).
Proof.
  induction l as [|a l IH]; intros H; [reflexivity|].
  cbn [collect map]. rewrite (H a (or_introl eq_refl)). cbn [bind].
  rewrite IH; [reflexivity|]. intros b Hb. apply H. right. exact Hb.
Qed.

Lemma last_as_nth {A : Type} (l : list A) (d : A) :
  last l d = nth (List.length l - 1) l d.
Proof.
  induction l as [|a l IH]; [reflexivity|].
  destruct l as [|b l']; [reflexivity|].
  change (last (a :: b :: l') d) with (last (b :: l') d). rewrite IH.
  cbn [List.length Nat.sub nth]. rewrite Nat.sub_0_r. reflexivity.
Qed.

(** X16.  [plot_track] raises [KeyError] on an empty track and returns on
    every other track, never running out of rows: the line goes through all
    the recorded positions, the start marker is on the first row, the end
    marker on the last row, and the annotations are the time and position of
    the rows of [annotation_rows]. *)
Theorem X16_plot_track (df : list TrackPoint) :
  match df with
  | [] => plot_track df = Raise KeyError
  | first :: _ =>
      exists drawing,
        plot_track df = Ok drawing /\
        line drawing = map (fun p => (tp_longitude p, tp_latitude p)) df /\
        start_marker drawing = (tp_longitude first, tp_latitude first) /\
        end_marker drawing
          = (tp_longitude (last df first), tp_latitude (last df first)) /\
        annotations drawing
          = map (fun i => (tp_time (nth i df first),
                           (tp_longitude (nth i df first),
                            tp_latitude (nth i df first))))
                (annotation_rows (List.length df))
  end.
Proof.
  destruct df as [|first rest] eqn:E; [reflexivity|]. rewrite <- E.
  assert (Hlen : (0 < List.length df)%nat) by (rewrite E; cbn; lia).
  assert (Hpoint : forall i, (i < List.length df)%nat ->
            iloc_point df i
            = Ok (tp_longitude (nth i df first), tp_latitude (nth i df first))).
  { intros i Hi. unfold iloc_point.
    rewrite (lookup_map tp_longitude df i first Hi). cbn [bind].
    rewrite (lookup_map tp_latitude df i first Hi). reflexivity. }
  eexists. split.
  - unfold plot_track. rewrite E at 1. rewrite (Hpoint 0%nat Hlen). cbn [bind].
    rewrite (Hpoint (List.length df - 1)%nat ltac:(lia)). cbn [bind].
    rewrite (collect_map (annotation df)
               (fun i => (tp_time (nth i df first),
                          (tp_longitude (nth i df first),
                           tp_latitude (nth i df first))))).
    + cbn [bind]. reflexivity.
    + intros i Hi.
      apply (range0_in (List.length df) (Nat.max 1 (List.length df / 10)) i) in Hi;
        [|lia].
      unfold annotation. rewrite (lookup_map tp_time df i first Hi). cbn [bind].
      rewrite (Hpoint i Hi). reflexivity.
  - cbn [line start_marker end_marker annotations].
    split; [reflexivity|]. split; [rewrite E; reflexivity|].
    split; [|reflexivity].
    rewrite (last_as_nth df first). reflexivity.
Qed.

Lemma classifier_pairs (w : Q) :
  In (get_intensity_category w)
     (categories ++ [("Low Pressure (<10.8)"%string, "gray"%string)]).
Proof.
  unfold get_intensity_category, categories.
  Qcases; cbn; tauto.
Qed.

Lemma points_of_scatter_calls (df : list IntensityRow) :
  flat_map points (scatter_calls df)
  = subset df "Tropical Depression (TD)"
    ++ subset df "Tropical Storm (TS)"
    ++ subset df "Severe Tropical Storm (STS)"
    ++ subset df "Typhoon (TY)"
    ++ subset df "Severe Typhoon (STY)"
    ++ subset df "Super Typhoon (SuperTY)"
    ++ subset df "Low Pressure (<10.8)".
Proof.
  unfold scatter_calls, categories. cbn [flat_map].
  rewrite !flat_map_app.
  repeat match goal with
  | |- context [match subset df ?c with _ => _ end] =>
      destruct (subset df c)
  end; cbn [flat_map points app]; rewrite ?app_nil_r;
    repeat (rewrite <- app_assoc; cbn [app]); reflexivity.
Qed.

Lemma perm_lift {A : Type} (row : A) (front back back' : list A) :
  Permutation back (row :: back') ->
  Permutation (front ++ back) (row :: (front ++ back')).
Proof.
  intros H. apply (Permutation_trans (Permutation_app_head front H)).
  apply Permutation_sym, Permutation_middle.
Qed.

Lemma subsets_partition (df : list IntensityRow) :
  (forall row, In row df ->
     In (intensity_category row, intensity_color row)
        (categories ++ [("Low Pressure (<10.8)"%string, "gray"%string)])) ->
  Permutation
    (subset df "Tropical Depression (TD)"
     ++ subset df "Tropical Storm (TS)"
     ++ subset df "Severe Tropical Storm (STS)"
     ++ subset df "Typhoon (TY)"
     ++ subset df "Severe Typhoon (STY)"
     ++ subset df "Super Typhoon (SuperTY)"
     ++ subset df "Low Pressure (<10.8)")
    df.
Proof.
  induction df as [|row df IH]; intros H; [constructor|].
  assert (IH' := IH (fun r Hr => H r (or_intror Hr))).
  pose proof (H row (or_introl eq_refl)) as Hrow.
  unfold subset in *. cbn [filter].
  cbn in Hrow.
  destruct Hrow as [E|[E|[E|[E|[E|[E|[E|[]]]]]]]];
    injection E as Ecat _; rewrite <- Ecat; simpl;
    (eapply Permutation_trans; [|apply perm_skip; exact IH']);
    repeat first [apply Permutation_refl | apply perm_lift].
Qed.

Section WithSqrt.

Variable np_sqrt : Q -> Q.

(** X17.  [plot_intensity_track] draws every row of the table of
    [calculate_intensity] in exactly one scatter call, and in the colour of
    its own [intensity_color] column: the legend of the plot and the
    classifier agree on the labels and on the colours. *)
Theorem X17_every_row_drawn_once_in_its_colour
    (ds : Dataset) (start_lat start_lon search_radius_deg correction_factor : Q)
    (rows : list IntensityRow) :
  calculate_intensity np_sqrt ds start_lat start_lon
    search_radius_deg correction_factor = Ok rows ->
  Permutation (flat_map points (scatter_calls rows)) rows /\
  (forall call row,
     In call (scatter_calls rows) -> In row (points call) ->
     colour call = intensity_color row).
Proof.
  intros Hrun.
  assert (Hcls : forall row, In row rows ->
            In (intensity_category row, intensity_color row)
               (categories ++ [("Low Pressure (<10.8)"%string, "gray"%string)])).
  { intros row Hin. unfold calculate_intensity in Hrun.
    destruct (intensity_loop np_sqrt ds search_radius_deg correction_factor _ (slabs ds))
      as [st'|] eqn:Eloop; cbn [bind] in Hrun; [|discriminate].
    injection Hrun as <-.
    destruct (EstimateSpec.intensity_loop_rows _ _ _ _ _ _ _ Eloop)
      as (rows & Hres & Hrows).
    cbn [results app] in Hres. rewrite Hres in Hin.
    destruct (In_nth_error _ _ Hin) as (i & Hi).
    destruct (Hrows i row Hi) as (t & c1 & c2 & box & _ & _ & _ & _ & _ & _ & Hcat).
    rewrite <- Hcat. apply classifier_pairs. }
  split.
  - rewrite points_of_scatter_calls. apply subsets_partition, Hcls.
  - intros call row Hcall Hrow. unfold scatter_calls in Hcall.
    apply in_app_or in Hcall. destruct Hcall as [Hcall|Hcall].
    + apply in_flat_map in Hcall. destruct Hcall as ([cat_name color] & Hcat & Hcall).
      destruct (subset rows cat_name) as [|r rs] eqn:Es; [destruct Hcall|].
      destruct Hcall as [<-|[]]. cbn [colour points] in *. rewrite <- Es in Hrow.
      apply filter_In in Hrow. destruct Hrow as [Hin Heq].
      apply String.eqb_eq in Heq. specialize (Hcls row Hin).
      cbn in Hcat, Hcls. intuition congruence.
    + destruct (subset rows "Low Pressure (<10.8)") as [|r rs] eqn:Es;
        [destruct Hcall|].
      destruct Hcall as [<-|[]]. cbn [colour points] in *. rewrite <- Es in Hrow.
      apply filter_In in Hrow. destruct Hrow as [Hin Heq].
      apply String.eqb_eq in Heq. specialize (Hcls row Hin).
      cbn in Hcls. intuition congruence.
Qed.

End WithSqrt.

Lemma X17_every_row_drawn_once_in_its_colour_witness :
  calculate_intensity sqrt_of_square ascending 11 101 1 1.4 = Ok [row0; row1] /\
  Permutation (flat_map points (scatter_calls [row0; row1])) [row0; row1] /\
  (forall call row,
     In call (scatter_calls [row0; row1]) -> In row (points call) ->
     colour call = intensity_color row).
Proof.
  assert (H : calculate_intensity sqrt_of_square ascending 11 101 1 1.4
              = Ok [row0; row1]) by (vm_compute; reflexivity).
  split; [exact H|].
  exact (X17_every_row_drawn_once_in_its_colour sqrt_of_square ascending
           11 101 1 1.4 [row0; row1] H).
Defined.

End ReportFacts.

(** * Properties of the region filter and of the assembler's exits *)

Module RegionFacts.
Import Xarray Window Region Example XarrayFacts BoxFacts Orientation.

(** X18.  On a dataset whose latitude axis is ordered, either way, with two
    different labels in its first two positions, and whose longitude axis is
    increasing, the region filter of [6_combing_Latitude_and_longitude.py]
    returns exactly the cells with latitude in [10, 50] and longitude in
    [90, 160]. *)
Theorem X18_region_filter_cells (da : DataArray) (lat_0 lat_1 : Q) :
  ordered (da_latitude da) = true ->
  nth_error (da_latitude da) 0 = Some lat_0 ->
  nth_error (da_latitude da) 1 = Some lat_1 ->
  ~ lat_0 == lat_1 ->
  is_monotonic_increasing (da_longitude da) = true ->
  exists box,
    filter_region da = Ok box /\
    forall lat lon v,
      cell_of box lat lon v <->
      cell_of da lat lon v /\
      (10 <= lat /\ lat <= 50) /\ (90 <= lon /\ lon <= 160).
Proof.
  intros Hord H0 H1 Hne Hlon. unfold filter_region.
  rewrite (proj2 (lookup_ok _ _ _) H0), (proj2 (lookup_ok _ _ _) H1).
  cbn [bind].
  assert (Hordlon : ordered (da_longitude da) = true)
    by (unfold ordered; rewrite Hlon; reflexivity).
  set (lat_slice := if lat_1 <? lat_0 then (50, 10) else (10, 50)).
  destruct (sel da lat_slice (90, 160)) as [box|e] eqn:E.
  - exists box. split; [reflexivity|]. intros lat lon v.
    destruct lat_slice as [a b] eqn:Eslice.
    rewrite (sel_cells _ _ _ _ _ _ E).
    assert (Hsel : forall x, selected (da_latitude da) a b x <-> 10 <= x /\ x <= 50).
    { intros x. unfold selected. unfold lat_slice in Eslice.
      destruct (lat_1 <? lat_0) eqn:Ecmp; injection Eslice as <- <-; Qbool.
      - destruct (is_monotonic_increasing (da_latitude da)) eqn:Einc; [|tauto].
        pose proof (proj1 (increasing_nth _) Einc 0%nat 1%nat lat_0 lat_1
                      ltac:(lia) H0 H1).
        exfalso. lra.
      - destruct (is_monotonic_increasing (da_latitude da)) eqn:Einc; [tauto|].
        unfold ordered in Hord. rewrite Einc in Hord. cbn [orb] in Hord.
        pose proof (proj1 (decreasing_nth _) Hord 0%nat 1%nat lat_0 lat_1
                      ltac:(lia) H0 H1).
        exfalso. apply Hne. lra. }
    rewrite Hsel. unfold selected. rewrite Hlon. tauto.
  - exfalso. unfold sel in E.
    destruct (slice_indexer_ordered (da_latitude da) (fst lat_slice) (snd lat_slice)
                Hord) as ([i0 i1] & E1).
    destruct (slice_indexer_ordered (da_longitude da) 90 160 Hordlon)
      as ([j0 j1] & E2).
    cbn [fst snd] in E. rewrite E1 in E. cbn [bind] in E.
    rewrite E2 in E. discriminate.
Qed.

Lemma X18_region_filter_cells_witness :
  (ordered (da_latitude (on_grid ascending (mean_sea_level_pressure slab0))) = true /\
   nth_error (da_latitude (on_grid ascending (mean_sea_level_pressure slab0))) 0
     = Some 10 /\
   nth_error (da_latitude (on_grid ascending (mean_sea_level_pressure slab0))) 1
     = Some 11 /\
   ~ 10 == 11 /\
   is_monotonic_increasing
     (da_longitude (on_grid ascending (mean_sea_level_pressure slab0))) = true) /\
  exists box,
    filter_region (on_grid ascending (mean_sea_level_pressure slab0)) = Ok box /\
    forall lat lon v,
      cell_of box lat lon v <->
      cell_of (on_grid ascending (mean_sea_level_pressure slab0)) lat lon v /\
      (10 <= lat /\ lat <= 50) /\ (90 <= lon /\ lon <= 160).
Proof.
  assert (H1 : ordered (da_latitude (on_grid ascending (mean_sea_level_pressure slab0)))
               = true) by reflexivity.
  assert (H2 : nth_error
                 (da_latitude (on_grid ascending (mean_sea_level_pressure slab0))) 0
               = Some 10) by reflexivity.
  assert (H3 : nth_error
                 (da_latitude (on_grid ascending (mean_sea_level_pressure slab0))) 1
               = Some 11) by reflexivity.
  assert (H4 : ~ 10 == 11) by discriminate.
  assert (H5 : is_monotonic_increasing
                 (da_longitude (on_grid ascending (mean_sea_level_pressure slab0)))
               = true) by reflexivity.
  split; [repeat split; assumption|].
  exact (X18_region_filter_cells _ 10 11 H1 H2 H3 H4 H5).
Defined.

End RegionFacts.

Module AssembleExtra.
Import Assemble Example AssembleSpec.

Section WithFiles.

Variable datetime : Type.
Variable strptime : string -> string -> option datetime.
Variable fields : Type.

Lemma nothing_valid (opened : list (OpenDataset fields)) :
  (forall ds, In ds opened -> parsed_time datetime strptime fields ds = None) ->
  valid_datasets datetime strptime fields opened = [] /\
  List.length (warnings datetime strptime fields opened) = List.length opened.
Proof.
  unfold valid_datasets, datasets, warnings.
  induction opened as [|ds rest IH]; intros H; [split; reflexivity|].
  destruct (IH (fun d Hd => H d (or_intror Hd))) as [IH1 IH2].
  cbn [map not_none flat_map].
  pose proof (H ds (or_introl eq_refl)) as Hds.
  assert (A : exists w, add_time_coordinate datetime strptime fields ds = (None, [w])).
  { unfold add_time_coordinate. unfold parsed_time in Hds. rewrite Hds. eauto. }
  destruct A as (w & ->).
  cbn [fst snd app List.length]. split; [exact IH1|now rewrite IH2].
Qed.

(** X19.  When files are found but no file name yields a time stamp, the
    assembler saves nothing: it ends by its exit for "no valid datasets",
    after one warning for every file. *)
Theorem X19_nothing_saved_when_no_name_parses (opened : list (OpenDataset fields)) :
  opened <> [] ->
  (forall ds, In ds opened -> parsed_time datetime strptime fields ds = None) ->
  fst (combine datetime strptime fields opened) = ExitNoValidDatasets datetime fields /\
  List.length (snd (combine datetime strptime fields opened)) = List.length opened.
Proof.
  intros Hne H. destruct (nothing_valid opened H) as [Hv Hw].
  unfold combine. destruct opened as [|d rest] eqn:E; [contradiction|].
  rewrite <- E in *. rewrite Hv. cbn [fst snd]. split; [reflexivity|exact Hw].
Qed.

End WithFiles.

Lemma X19_nothing_saved_when_no_name_parses_witness :
  ([ {| source := "/outputs/run/output_surface_latest.nc"%string;
        content := 2%nat |} ] <> [] /\
   (forall ds,
      In ds [ {| source := "/outputs/run/output_surface_latest.nc"%string;
                 content := 2%nat |} ] ->
      parsed_time string shape_strptime nat ds = None)) /\
  fst (combine string shape_strptime nat
         [ {| source := "/outputs/run/output_surface_latest.nc"%string;
              content := 2%nat |} ])
  = ExitNoValidDatasets string nat /\
  List.length
    (snd (combine string shape_strptime nat
            [ {| source := "/outputs/run/output_surface_latest.nc"%string;
                 content := 2%nat |} ]))
  = List.length [ {| source := "/outputs/run/output_surface_latest.nc"%string;
                     content := 2%nat |} ].
Proof.
  assert (H1 : [ {| source := "/outputs/run/output_surface_latest.nc"%string;
                    content := 2%nat |} ] <> []) by discriminate.
  assert (H2 : forall ds,
      In ds [ {| source := "/outputs/run/output_surface_latest.nc"%string;
                 content := 2%nat |} ] ->
      parsed_time string shape_strptime nat ds = None).
  { intros ds [<-|[]]. reflexivity. }
  split; [split; assumption|].
  exact (X19_nothing_saved_when_no_name_parses string shape_strptime nat _ H1 H2).
Defined.

End AssembleExtra.

(** * Tracking and verification together *)

Module VerifyFacts.
Import Xarray Track Window Trace Report Example.
Import XarrayFacts BoxFacts ReduceFacts TrackFacts Orientation TrackSpec.

Lemma find_by_time (l : list Slab) (i : nat) (t : Slab) :
  NoDup (map time l) ->
  nth_error l i = Some t ->
  find (fun s => Z.eqb (time s) (time t)) l = Some t.
Proof.
  revert i. induction l as [|a l IH]; intros i Hnd Hi; [destruct i; discriminate|].
  cbn [map] in Hnd. inversion Hnd as [|x xs Hnotin Hnd']; subst.
  destruct i as [|i]; cbn in Hi.
  - injection Hi as ->. cbn [find]. rewrite Z.eqb_refl. reflexivity.
  - cbn [find]. destruct (Z.eqb_spec (time a) (time t)) as [E|N].
    + exfalso. apply Hnotin. rewrite E. apply in_map.
      apply (nth_error_In _ _ Hi).
    + apply (IH i Hnd' Hi).
Qed.

(** A cell found with a positive radius is a cell of every box of
    non-negative radius cut around it in the same field. *)
Lemma cell_in_second_box (ds : Dataset) (f : nat -> nat -> Q)
    (c1 c2 R lat lon v r : Q) (box box' : DataArray) :
  search_box ds f c1 c2 R = Ok box -> 0 < R ->
  cell_of box lat lon v -> 0 <= r ->
  search_box ds f lat lon r = Ok box' ->
  cell_of box' lat lon v.
Proof.
  intros H HR Hc Hr H'.
  destruct (axes_ok ds (search_box_ok_axes _ _ _ _ _ _ H))
    as (_ & _ & first & last & F & L).
  apply (search_box_cells ds f c1 c2 R box first last H F L) in Hc.
  destruct Hc as (Hgrid & Hlat & Hlon).
  apply (search_box_cells ds f lat lon r box' first last H' F L).
  split; [exact Hgrid|].
  pose proof (py_min_spec (c1 - R) (c1 + R) ltac:(lra)) as M1.
  pose proof (py_max_spec (c1 - R) (c1 + R) ltac:(lra)) as M2.
  pose proof (py_min_spec (lat - r) (lat + r) ltac:(lra)) as M3.
  pose proof (py_max_spec (lat - r) (lat + r) ltac:(lra)) as M4.
  split.
  - destruct ((first <? last) || (last <? first)); [lra|exfalso; lra].
  - unfold selected in *.
    destruct (is_monotonic_increasing (longitude ds)); [lra|exfalso; lra].
Qed.

(** X20.  Every row of a track made with a positive radius, on a dataset
    whose time labels are distinct, can be verified: the call of
    [9_verify_tracking.py] for the row returns a pressure field that holds
    the tracked centre with the minimum pressure of the row, and puts the
    marker on the tracked position. *)
Theorem X20_verification_field_holds_tracked_centre
    (ds : Dataset) (start_lat start_lon r : Q)
    (pts : list TrackPoint) (row : TrackPoint) :
  0 < r ->
  NoDup (map time (slabs ds)) ->
  track_typhoon ds start_lat start_lon r = Ok pts ->
  In row pts ->
  exists local_mslp,
    verify_row ds row
    = Ok (local_mslp, (tp_longitude row, tp_latitude row)) /\
    cell_of local_mslp (tp_latitude row) (tp_longitude row) (tp_min_pressure row).
Proof.
  intros Hr Hnd Hrun Hin. apply track_typhoon_walk in Hrun.
  destruct (In_nth_error _ _ Hin) as (i & Hi).
  destruct (walk_nth _ _ _ _ _ Hrun i row Hi)
    as (t & c & box & Ht & _ & Hbox & Hne & Hloc & Htime).
  destruct (located_cell box _ _ _ Hne Hloc)
    as (idx & _ & _ & _ & Hlat & Hlon & Hval & _).
  assert (Hcell : cell_of box (tp_latitude row) (tp_longitude row)
                    (tp_min_pressure row)).
  { rewrite <- Hval. apply cell_at_position; assumption. }
  pose proof (search_box_outcome ds (mean_sea_level_pressure t)
                (tp_latitude row) (tp_longitude row) 5.0) as O.
  rewrite (search_box_ok_axes _ _ _ _ _ _ Hbox) in O. destruct O as (box' & Hbox').
  assert (Hcell' : cell_of box' (tp_latitude row) (tp_longitude row)
                     (tp_min_pressure row)).
  { apply (cell_in_second_box ds _ _ _ r _ _ _ 5.0 box box' Hbox Hr Hcell);
      [lra|exact Hbox']. }
  assert (Hne' : size box' <> 0%nat).
  { destruct (cell_position _ _ _ _ Hcell') as (q & Hq & _).
    apply (in_positions_nonempty_box box' q Hq). }
  exists box'. split; [|exact Hcell'].
  unfold verify_row, verify_track_step. rewrite Htime.
  rewrite (find_by_time _ _ _ Hnd Ht).
  unfold search_box in Hbox'.
  destruct (latitude_slice ds (tp_latitude row - 5.0) (tp_latitude row + 5.0))
    as [lat_slice|]; cbn [bind] in Hbox' |- *; [|discriminate].
  rewrite Hbox'. cbn [bind].
  destruct (Nat.eqb_spec (size box') 0) as [E|_]; [contradiction|reflexivity].
Qed.

Lemma X20_verification_field_holds_tracked_centre_witness :
  (0 < 1 /\
   NoDup (map time (slabs ascending)) /\
   track_typhoon ascending 11 101 1 = Ok [point0; point1] /\
   In point1 [point0; point1]) /\
  exists local_mslp,
    verify_row ascending point1
    = Ok (local_mslp, (tp_longitude point1, tp_latitude point1)) /\
    cell_of local_mslp (tp_latitude point1) (tp_longitude point1)
      (tp_min_pressure point1).
Proof.
  assert (H1 : 0 < 1) by reflexivity.
  assert (H2 : NoDup (map time (slabs ascending))).
  { cbn. constructor; [intros [E|[]]; discriminate|].
    constructor; [intros []|constructor]. }
  assert (H3 : track_typhoon ascending 11 101 1 = Ok [point0; point1])
    by (vm_compute; reflexivity).
  assert (H4 : In point1 [point0; point1]) by (right; left; reflexivity).
  split; [repeat split; assumption|].
  exact (X20_verification_field_holds_tracked_centre ascending 11 101 1
           [point0; point1] point1 H1 H2 H3 H4).
Defined.

End VerifyFacts.
